(** * ViewChecker backend: compliance scoring and exception adjustment

    A shallow embedding of [src/analyzer.js] (score aggregation, KWCAG
    report, assembly of the findings), [src/exceptionHandler.js] (exception
    override engine) and the analysis route of the server, followed by the
    properties that the specification states and further properties of the
    code.

    Conventions of the embedding.
    - Scores are JavaScript numbers that are integers: they are modelled
      as [Z].  [Math.round(a / n)] of an integer total by a positive length
      is modelled as the exact quotient rounded half up, [(2a + n) / 2n].
      This is what the doubles give for the totals of the data model
      (scores of 0..100, array lengths below 2^32): there the quotient is
      at least 1/2n away from a tie unless it is one, and one double
      division cannot move it across (see [Math_round_quotient_exact] for
      a check against doubles).  For totals near 2^53 the double quotient
      can round to the neighbouring integer, so properties of the scores
      are stated for numbers of the data model.
    - Percentages are computed by the source as [(p / t) * 100], two
      roundings in binary64; they are modelled with primitive floats, which
      are binary64 as well.
    - A field that holds a string or is missing is an [option string];
      a score or compliance, which the source inspects with [typeof] and
      [||], is a [JsVal].
    - A call that can throw returns a [completion]: grouping the exception
      requests in a plain object throws a TypeError when a section name is
      a property every object inherits. *)

From Stdlib Require Import ZArith List String Ascii Bool Arith Lia.
From Stdlib Require Import Floats Uint63 Permutation.
Import ListNotations.
Local Open Scope string_scope.
Local Open Scope list_scope.
Local Open Scope Z_scope.

(** ** JavaScript values and operators used by the source *)

Module JS.

Inductive JsVal : Type :=
| JUndefined
| JNull
| JBool (b : bool)
| JNum (n : Z)
| JStr (s : string).

(** ToBoolean. *)
Definition truthy (v : JsVal) : bool :=
  match v with
  | JUndefined | JNull => false
  | JBool b => b
  | JNum n => negb (n =? 0)
  | JStr s => negb (s =? "")%string
  end.

(** [a || b] on values. *)
Definition or_else (a b : JsVal) : JsVal := if truthy a then a else b.

Definition typeof (v : JsVal) : string :=
  match v with
  | JUndefined => "undefined"
  | JNull => "object"
  | JBool _ => "boolean"
  | JNum _ => "number"
  | JStr _ => "string"
  end.

(** [a || b] where [a] is a string or missing and [b] is a string. *)
Definition strOr (a : option string) (b : string) : string :=
  match a with
  | Some s => if (s =? "")%string then b else s
  | None => b
  end.

(** [a || b] where both sides are a string or missing. *)
Definition optOr (a b : option string) : option string :=
  match a with
  | Some s => if (s =? "")%string then b else a
  | None => b
  end.

(** [x === k] for a value that is a string or missing and a string [k]. *)
Definition strictEqStr (x : option string) (k : string) : bool :=
  match x with
  | Some s => (s =? k)%string
  | None => false
  end.

(** [arr.includes(k)] on an array of strings. *)
Definition includes (arr : list string) (k : string) : bool :=
  existsb (fun s => (s =? k)%string) arr.

(** [Math.round(a / n)] for an integer [a] and a positive integer [n], exact
    for the totals of the data model (see the conventions above). *)
Definition Math_round_div (a n : Z) : Z := (2 * a + n) / (2 * n).

(** *** Doubles *)

(** The double of an integer of magnitude below 2^53. *)
Definition number_of_Z (z : Z) : float :=
  if z <? 0 then PrimFloat.opp (PrimFloat.of_uint63 (Uint63.of_Z (- z)))
  else PrimFloat.of_uint63 (Uint63.of_Z z).

(** An array length as a number; lengths are below 2^32, where the
    conversion is exact. *)
Definition number_of_nat (n : nat) : float := number_of_Z (Z.of_nat n).

(** [Math.round]: the closest integer, ties towards plus infinity; NaN,
    the infinities and integral values are returned as they are. *)
Definition Math_round (x : float) : float :=
  match Prim2SF x with
  | S754_finite s m e =>
      if 0 <=? e then x
      else
        let n := if s then Z.neg m else Z.pos m in
        let r := (2 * n + 2 ^ (- e)) / 2 ^ (1 - e) in
        if s && (r =? 0) then PrimFloat.neg_zero else number_of_Z r
  | _ => x
  end.

(** *** Regular expressions of the form [/k1|k2|...|kn/] *)

Fixpoint contains (k s : string) : bool :=
  String.prefix k s ||
  match s with
  | EmptyString => false
  | String _ s' => contains k s'
  end.

(** [/k1|...|kn/.test(s)]. *)
Definition regexTest (alternatives : list string) (s : string) : bool :=
  existsb (fun k => contains k s) alternatives.

(** *** Plain objects used as dictionaries

    Own properties in insertion order; keys are unique.  The order in
    which the object lists its properties is that of [keys] below, which
    differs from the insertion order when a key is an array index. *)

Definition JsObject (A : Type) : Type := list (string * A).

(** The properties every plain object inherits from [Object.prototype]. *)
Definition inheritedNames : list string :=
  [ "constructor"; "__defineGetter__"; "__defineSetter__"; "hasOwnProperty";
    "__lookupGetter__"; "__lookupSetter__"; "isPrototypeOf";
    "propertyIsEnumerable"; "toString"; "valueOf"; "__proto__";
    "toLocaleString" ].

Definition isInherited (k : string) : bool := includes inheritedNames k.

Inductive PropRead (A : Type) : Type :=
| OwnValue (a : A)
| Inherited
| Missing.
Arguments OwnValue {A} a.
Arguments Inherited {A}.
Arguments Missing {A}.

Fixpoint ownValue {A} (o : JsObject A) (k : string) : option A :=
  match o with
  | [] => None
  | (k', a) :: o' => if (k' =? k)%string then Some a else ownValue o' k
  end.

(** [o[k]]. *)
Definition getProp {A} (o : JsObject A) (k : string) : PropRead A :=
  match ownValue o k with
  | Some a => OwnValue a
  | None => if isInherited k then Inherited else Missing
  end.

Fixpoint replaceOwn {A} (o : JsObject A) (k : string) (a : A) : JsObject A :=
  match o with
  | [] => []
  | (k', a') :: o' =>
      if (k' =? k)%string then (k', a) :: o' else (k', a') :: replaceOwn o' k a
  end.

(** [o[k] = a]: an own property keeps its place, a new one goes last;
    assigning to [__proto__] changes the prototype, not the own keys. *)
Definition setProp {A} (o : JsObject A) (k : string) (a : A) : JsObject A :=
  match ownValue o k with
  | Some _ => replaceOwn o k a
  | None => if (k =? "__proto__")%string then o else o ++ [(k, a)]
  end.

(** *** [Object.keys]

    Own keys that are array indices (canonical decimal numerals up to
    2^32 - 2) come first in ascending numeric order, the other keys follow
    in insertion order. *)

Definition digitOf (c : ascii) : option Z :=
  let n := Z.of_nat (nat_of_ascii c) in
  if (48 <=? n) && (n <=? 57) then Some (n - 48) else None.

Fixpoint decimalFrom (acc : Z) (s : string) : option Z :=
  match s with
  | EmptyString => Some acc
  | String c s' =>
      match digitOf c with
      | Some d => decimalFrom (10 * acc + d) s'
      | None => None
      end
  end.

Definition arrayIndex (k : string) : option Z :=
  match k with
  | EmptyString => None
  | String c rest =>
      match decimalFrom 0 k with
      | Some v =>
          if (negb (Ascii.eqb c "0"%char) || (rest =? "")%string)
             && (v <=? 4294967294)
          then Some v else None
      | None => None
      end
  end.

Definition isArrayIndex (k : string) : bool :=
  match arrayIndex k with Some _ => true | None => false end.

Fixpoint insertIndex (k : string) (sorted : list string) : list string :=
  match sorted with
  | [] => [k]
  | k' :: rest =>
      match arrayIndex k, arrayIndex k' with
      | Some v, Some v' => if v <=? v' then k :: sorted else k' :: insertIndex k rest
      | _, _ => k :: sorted
      end
  end.

Definition keys {A} (o : JsObject A) : list string :=
  let own := map fst o in
  fold_right insertIndex [] (filter isArrayIndex own)
  ++ filter (fun k => negb (isArrayIndex k)) own.

(** *** Completions: a call returns a value or throws *)

Inductive completion (A : Type) : Type :=
| Returns (a : A)
| Throws (error : string).
Arguments Returns {A} a.
Arguments Throws {A} error.

Definition bind {A B} (c : completion A) (f : A -> completion B) : completion B :=
  match c with
  | Returns a => f a
  | Throws e => Throws e
  end.

End JS.

Import JS.

(** ** Data model *)

(** A scored finding of a section. *)
Module Item.
Record t : Type := mk {
  category : option string;
  type : option string;
  name : option string;
  englishName : option string;
  score : JsVal;
  compliance : JsVal;
  issues : option (list string);
  krdsUrl : option string;
  count : option Z;
  excluded : option bool;
  exclusionReason : option string
}.
End Item.

(** An entry of [krdsCompliance.designTokensDetail]. *)
Module Token.
Record t : Type := mk {
  score : JsVal;
  compliance : list string;
  issues : option (list string);
  passed : list string;
  excluded : option bool
}.
End Token.

(** An exception request of the operator. *)
Module Exc.
Record t : Type := mk {
  item_key : option string;
  item_name : option string;
  section : option string;
  category : option string;
  reason : option string
}.
End Exc.

(** A violation or pass record of the accessibility audit. *)
Module AxeRecord.
Record t : Type := mk {
  id : option string;
  impact : option string;
  tags : option (list string)
}.
End AxeRecord.

Module Axe.
Record t : Type := mk {
  violations : option (list AxeRecord.t);
  passes : option (list AxeRecord.t);
  incomplete : option (list AxeRecord.t);
  inapplicable : option (list AxeRecord.t);
  timestamp : option string
}.
End Axe.

Module Level.
Record t : Type := mk {
  total : nat;
  passed : nat;
  failed : nat;
  compliance : float
}.
End Level.

Module ByCategory.
Record t : Type := mk {
  perceivable : float;
  operable : float;
  understandable : float;
  robust : float
}.
End ByCategory.

Module Kwcag.
Record t : Type := mk {
  overallCompliance : float;
  wcagLevel : string;
  violations : nat;
  passes : nat;
  byCategory : ByCategory.t;
  levelA : Level.t;
  levelAA : Level.t
}.
End Kwcag.

Module Krds.
Record t : Type := mk {
  score : Z;
  designTokensDetail : option (JsObject Token.t);
  krdsComponents : option (list Item.t);
  basicPatterns : option Z;
  servicePatterns : option Z
}.
End Krds.

(** The audit record of one override. *)
Module Info.
Record t : Type := mk {
  applied : bool;
  checklistId : option string;
  totalExceptions : nat;
  originalScore : Z;
  adjustedScore : Z;
  scoreDifference : Z;
  sections : list string
}.
End Info.

Module Result.
Record t : Type := mk {
  url : option string;
  viewport : option string;
  timestamp : option string;
  executionTime : option Z;
  overallScore : Z;
  designStyles : option (list Item.t);
  components : option (list Item.t);
  basicPatterns : option (list Item.t);
  servicePatterns : option (list Item.t);
  axeResults : option Axe.t;
  kwcagReport : option Kwcag.t;
  krdsCompliance : option Krds.t;
  exceptionInfo : option Info.t
}.
End Result.

(** The four-section object literal handed to the analyzer's calculator. *)
Module Sections.
Record t : Type := mk {
  designStyles : option (list Item.t);
  components : option (list Item.t);
  basicPatterns : option (list Item.t);
  servicePatterns : option (list Item.t)
}.
End Sections.

(** ** src/analyzer.js *)

Module Analyzer.

(** [sum + (item.score || 0)].  [None]: the running total stops being an
    integer (a string score concatenates, [undefined] gives NaN); what the
    source computes from such a total, which can still be a number (the
    text "050" divides to 50), is outside the model. *)
Definition addScore (sum : Z) (item : Item.t) : option Z :=
  match or_else (Item.score item) (JNum 0) with
  | JNum n => Some (sum + n)
  | JBool b => Some (sum + (if b then 1 else 0))
  | JNull => Some sum
  | JUndefined => None
  | JStr _ => None
  end.

(** [items.reduce((sum, item) => sum + (item.score || 0), sum0)]. *)
Fixpoint reduceScores (sum : Z) (items : list Item.t) : option Z :=
  match items with
  | [] => Some sum
  | item :: rest =>
      match addScore sum item with
      | Some sum' => reduceScores sum' rest
      | None => None
      end
  end.

Definition calculateCategoryScore (items : option (list Item.t)) : option Z :=
  match items with
  | None => Some 0
  | Some [] => Some 0
  | Some l =>
      match reduceScores 0 l with
      | Some total => Some (Math_round_div total (Z.of_nat (List.length l)))
      | None => None
      end
  end.

Definition calculateOverallScore (data : Sections.t) : option Z :=
  match calculateCategoryScore (Sections.designStyles data),
        calculateCategoryScore (Sections.components data),
        calculateCategoryScore (Sections.basicPatterns data),
        calculateCategoryScore (Sections.servicePatterns data) with
  | Some s1, Some s2, Some s3, Some s4 =>
      let scores := [s1; s2; s3; s4] in
      Some (Math_round_div (fold_left Z.add scores 0) (Z.of_nat (List.length scores)))
  | _, _, _, _ => None
  end.

(** The object returned by [performKRDSAnalysis], given what the awaited
    extractors, the accessibility run and [convertDesignStylesToTokens]
    produced. *)
Definition performKRDSAnalysis
    (designStyles components basicPatterns servicePatterns : list Item.t)
    (axeResults : Axe.t) (kwcagReport : Kwcag.t)
    (designTokensDetail : JsObject Token.t) : option Result.t :=
  match calculateOverallScore
          (Sections.mk (Some designStyles) (Some components)
                       (Some basicPatterns) (Some servicePatterns)),
        calculateCategoryScore (Some basicPatterns),
        calculateCategoryScore (Some servicePatterns) with
  | Some overallScore, Some basic, Some service =>
      Some (Result.mk None None None None
              overallScore
              (Some designStyles) (Some components)
              (Some basicPatterns) (Some servicePatterns)
              (Some axeResults) (Some kwcagReport)
              (Some (Krds.mk overallScore (Some designTokensDetail)
                             (Some components) (Some basic) (Some service)))
              None)
  | _, _, _ => None
  end.

(** *** KWCAG report *)

Inductive Principle : Type := Perceivable | Operable | Understandable | Robust.

(** [categorizeRule]; a missing id is tested as the text "undefined". *)
Definition categorizeRule (id : option string) : Principle :=
  let s := match id with Some s => s | None => "undefined" end in
  if regexTest ["color"; "contrast"; "image"; "text"; "alt"; "audio"; "video"; "caption"] s
  then Perceivable
  else if regexTest ["keyboard"; "focus"; "navigation"; "timing"; "seizure"; "pointer"] s
  then Operable
  else if regexTest ["label"; "lang"; "heading"; "error"; "input"; "readable"] s
  then Understandable
  else if regexTest ["valid"; "parse"; "name"; "role"; "value"; "aria"] s
  then Robust
  else Perceivable.

Module Tally.
Record t : Type := mk { violations : nat; passes : nat }.
End Tally.

Module Categories.
Record t : Type := mk {
  perceivable : Tally.t;
  operable : Tally.t;
  understandable : Tally.t;
  robust : Tally.t
}.
End Categories.

Definition getTally (c : Categories.t) (p : Principle) : Tally.t :=
  match p with
  | Perceivable => Categories.perceivable c
  | Operable => Categories.operable c
  | Understandable => Categories.understandable c
  | Robust => Categories.robust c
  end.

Definition setTally (c : Categories.t) (p : Principle) (x : Tally.t) : Categories.t :=
  match p with
  | Perceivable =>
      Categories.mk x (Categories.operable c) (Categories.understandable c) (Categories.robust c)
  | Operable =>
      Categories.mk (Categories.perceivable c) x (Categories.understandable c) (Categories.robust c)
  | Understandable =>
      Categories.mk (Categories.perceivable c) (Categories.operable c) x (Categories.robust c)
  | Robust =>
      Categories.mk (Categories.perceivable c) (Categories.operable c) (Categories.understandable c) x
  end.

(** [categories[cat].violations++] *)
Definition countViolation (c : Categories.t) (v : AxeRecord.t) : Categories.t :=
  let cat := categorizeRule (AxeRecord.id v) in
  let x := getTally c cat in
  setTally c cat (Tally.mk (S (Tally.violations x)) (Tally.passes x)).

(** [categories[cat].passes++] *)
Definition countPass (c : Categories.t) (p : AxeRecord.t) : Categories.t :=
  let cat := categorizeRule (AxeRecord.id p) in
  let x := getTally c cat in
  setTally c cat (Tally.mk (Tally.violations x) (S (Tally.passes x))).

(** [Math.round((part / total) * 100)] in binary64. *)
Definition percent (part total : nat) : float :=
  Math_round (PrimFloat.mul (PrimFloat.div (number_of_nat part) (number_of_nat total)) 100%float).

Definition categoryCompliance (data : Tally.t) : float :=
  let total := (Tally.violations data + Tally.passes data)%nat in
  if (0 <? total)%nat then percent (Tally.passes data) total else 100%float.

Definition isCritical (v : AxeRecord.t) : bool :=
  strictEqStr (AxeRecord.impact v) "critical" || strictEqStr (AxeRecord.impact v) "serious".

(** [v.tags?.includes('wcag2aa')] as a filter condition. *)
Definition hasAATag (v : AxeRecord.t) : bool :=
  match AxeRecord.tags v with
  | Some tags => includes tags "wcag2aa"
  | None => false
  end.

Definition generateKWCAGReport (axeResults : Axe.t) : Kwcag.t :=
  let violations := match Axe.violations axeResults with Some l => l | None => [] end in
  let passes := match Axe.passes axeResults with Some l => l | None => [] end in
  let totalTests := (List.length violations + List.length passes)%nat in
  let overallCompliance :=
    if (0 <? totalTests)%nat then percent (List.length passes) totalTests else 0%float in
  let criticalViolations := filter isCritical violations in
  let wcagLevel :=
    if (List.length violations =? 0)%nat then "AA"
    else if (List.length criticalViolations =? 0)%nat then "A" else "None" in
  let categories0 :=
    Categories.mk (Tally.mk 0 0) (Tally.mk 0 0) (Tally.mk 0 0) (Tally.mk 0 0) in
  let categories1 := fold_left countViolation violations categories0 in
  let categories := fold_left countPass passes categories1 in
  let byCategory :=
    ByCategory.mk (categoryCompliance (Categories.perceivable categories))
                  (categoryCompliance (Categories.operable categories))
                  (categoryCompliance (Categories.understandable categories))
                  (categoryCompliance (Categories.robust categories)) in
  Kwcag.mk overallCompliance wcagLevel (List.length violations) (List.length passes) byCategory
    (Level.mk totalTests (List.length passes) (List.length violations) overallCompliance)
    (Level.mk (List.length (filter hasAATag violations))
              (List.length (filter hasAATag passes))
              (List.length (filter hasAATag violations))
              0%float).

End Analyzer.

(** ** src/exceptionHandler.js *)

Module ExceptionHandler.

(** Field assignments on the copy, [adjusted.f = v]. *)
Definition setDesignStyles (r : Result.t) (v : option (list Item.t)) : Result.t :=
  Result.mk (Result.url r) (Result.viewport r) (Result.timestamp r) (Result.executionTime r)
    (Result.overallScore r) v (Result.components r) (Result.basicPatterns r)
    (Result.servicePatterns r) (Result.axeResults r) (Result.kwcagReport r)
    (Result.krdsCompliance r) (Result.exceptionInfo r).

Definition setComponents (r : Result.t) (v : option (list Item.t)) : Result.t :=
  Result.mk (Result.url r) (Result.viewport r) (Result.timestamp r) (Result.executionTime r)
    (Result.overallScore r) (Result.designStyles r) v (Result.basicPatterns r)
    (Result.servicePatterns r) (Result.axeResults r) (Result.kwcagReport r)
    (Result.krdsCompliance r) (Result.exceptionInfo r).

Definition setBasicPatterns (r : Result.t) (v : option (list Item.t)) : Result.t :=
  Result.mk (Result.url r) (Result.viewport r) (Result.timestamp r) (Result.executionTime r)
    (Result.overallScore r) (Result.designStyles r) (Result.components r) v
    (Result.servicePatterns r) (Result.axeResults r) (Result.kwcagReport r)
    (Result.krdsCompliance r) (Result.exceptionInfo r).

Definition setServicePatterns (r : Result.t) (v : option (list Item.t)) : Result.t :=
  Result.mk (Result.url r) (Result.viewport r) (Result.timestamp r) (Result.executionTime r)
    (Result.overallScore r) (Result.designStyles r) (Result.components r)
    (Result.basicPatterns r) v (Result.axeResults r) (Result.kwcagReport r)
    (Result.krdsCompliance r) (Result.exceptionInfo r).

Definition setKrdsCompliance (r : Result.t) (v : option Krds.t) : Result.t :=
  Result.mk (Result.url r) (Result.viewport r) (Result.timestamp r) (Result.executionTime r)
    (Result.overallScore r) (Result.designStyles r) (Result.components r)
    (Result.basicPatterns r) (Result.servicePatterns r) (Result.axeResults r)
    (Result.kwcagReport r) v (Result.exceptionInfo r).

Definition setOverallScore (r : Result.t) (v : Z) : Result.t :=
  Result.mk (Result.url r) (Result.viewport r) (Result.timestamp r) (Result.executionTime r)
    v (Result.designStyles r) (Result.components r)
    (Result.basicPatterns r) (Result.servicePatterns r) (Result.axeResults r)
    (Result.kwcagReport r) (Result.krdsCompliance r) (Result.exceptionInfo r).

Definition setExceptionInfo (r : Result.t) (v : option Info.t) : Result.t :=
  Result.mk (Result.url r) (Result.viewport r) (Result.timestamp r) (Result.executionTime r)
    (Result.overallScore r) (Result.designStyles r) (Result.components r)
    (Result.basicPatterns r) (Result.servicePatterns r) (Result.axeResults r)
    (Result.kwcagReport r) (Result.krdsCompliance r) v.

Definition setDesignTokensDetail (k : Krds.t) (v : option (JsObject Token.t)) : Krds.t :=
  Krds.mk (Krds.score k) v (Krds.krdsComponents k) (Krds.basicPatterns k)
    (Krds.servicePatterns k).

Definition setKrdsComponents (k : Krds.t) (v : option (list Item.t)) : Krds.t :=
  Krds.mk (Krds.score k) (Krds.designTokensDetail k) v (Krds.basicPatterns k)
    (Krds.servicePatterns k).

(** [JSON.parse(JSON.stringify(analysisResults))]: every inhabitant of
    [Result.t] is JSON data (a missing field reads back as missing, integers
    and the finite doubles of a report print and parse exactly), so the copy
    is equal to the original; sharing is not observable in this embedding. *)
Definition jsonClone (r : Result.t) : Result.t := r.

(** [exc.section || exc.category || '기타'] *)
Definition sectionOf (exc : Exc.t) : string :=
  strOr (optOr (Exc.section exc) (Exc.category exc)) "기타".

(** One iteration of the [forEach] of [groupExceptionsBySection]. *)
Definition groupStep (grouped : completion (JsObject (list Exc.t))) (exc : Exc.t)
  : completion (JsObject (list Exc.t)) :=
  bind grouped (fun g =>
    let section := sectionOf exc in
    match getProp g section with
    | Missing => Returns (setProp g section [exc])
    | OwnValue group => Returns (setProp g section (group ++ [exc]))
    | Inherited => Throws "TypeError: grouped[section].push is not a function"
    end).

Definition groupExceptionsBySection (exceptions : list Exc.t)
  : completion (JsObject (list Exc.t)) :=
  fold_left groupStep exceptions (Returns []).

(** The three key fields [adjustSection] is called with. *)
Inductive KeyField : Type := KCategory | KType | KName.

(** [item[keyField]] *)
Definition readKey (keyField : KeyField) (item : Item.t) : option string :=
  match keyField with
  | KCategory => Item.category item
  | KType => Item.type item
  | KName => Item.name item
  end.

(** [e.item_key || e.item_name] *)
Definition requestKey (e : Exc.t) : option string :=
  optOr (Exc.item_key e) (Exc.item_name e).

(** [exceptions.map(e => e.item_key || e.item_name || '').filter(Boolean)] *)
Definition excludedKeysOf (exceptions : list Exc.t) : list string :=
  filter (fun k => negb (k =? "")%string)
         (map (fun e => strOr (requestKey e) "") exceptions).

(** [item[keyField] || item.name || item.englishName || ''] *)
Definition itemKeyOf (keyField : KeyField) (item : Item.t) : string :=
  strOr (optOr (optOr (readKey keyField item) (Item.name item)) (Item.englishName item)) "".

(** [exceptions.find(e => (e.item_key || e.item_name) === itemKey)?.reason || '예외 항목'] *)
Definition exclusionReasonOf (exceptions : list Exc.t) (itemKey : string) : string :=
  strOr (match find (fun e => strictEqStr (requestKey e) itemKey) exceptions with
         | Some e => Exc.reason e
         | None => None
         end) "예외 항목".

(** The callback of [items.map] in [adjustSection]. *)
Definition adjustItem (exceptions : list Exc.t) (excludedKeys : list string)
    (keyField : KeyField) (item : Item.t) : Item.t :=
  let itemKey := itemKeyOf keyField item in
  if includes excludedKeys itemKey then
    Item.mk (Item.category item) (Item.type item) (Item.name item) (Item.englishName item)
      (JNum 100)
      (if (typeof (Item.compliance item) =? "string")%string then JStr "준수" else JNum 100)
      (Some [])
      (Item.krdsUrl item) (Item.count item)
      (Some true)
      (Some (exclusionReasonOf exceptions itemKey))
  else item.

(** [adjustSection]; the counter it keeps is only logged. *)
Definition adjustSection (items : option (list Item.t)) (exceptions : list Exc.t)
    (keyField : KeyField) : option (list Item.t) :=
  match items with
  | None => items
  | Some [] => items
  | Some l =>
      let excludedKeys := excludedKeysOf exceptions in
      Some (map (adjustItem exceptions excludedKeys keyField) l)
  end.

(** [adjustDesignTokensDetail]: every own key of the copy is visited once. *)
Definition adjustDesignTokensDetail (detail : option (JsObject Token.t))
    (exceptions : list Exc.t) : option (JsObject Token.t) :=
  match detail with
  | None => detail
  | Some d =>
      let excludedKeys := excludedKeysOf exceptions in
      Some (map (fun kv : string * Token.t =>
                   if includes excludedKeys (fst kv)
                   then (fst kv, Token.mk (JNum 100) [] (Some []) ["예외 처리로 완벽 준수"] (Some true))
                   else kv) d)
  end.

(** [item.score || item.compliance || 0], counted only when a number. *)
Definition contribution (item : Item.t) : Z :=
  let score := or_else (or_else (Item.score item) (Item.compliance item)) (JNum 0) in
  match score with
  | JNum n => n
  | _ => 0
  end.

Definition calculateCategoryScore (items : option (list Item.t)) : Z :=
  match items with
  | None => 0
  | Some [] => 0
  | Some l =>
      let total := fold_left (fun sum item => sum + contribution item) l 0 in
      Math_round_div total (Z.of_nat (List.length l))
  end.

(** [if (section && section.length > 0) scores.push(...)] *)
Definition pushScore (scores : list Z) (section : option (list Item.t)) : list Z :=
  match section with
  | Some (_ :: _) => scores ++ [calculateCategoryScore section]
  | _ => scores
  end.

Definition calculateOverallScore (data : Result.t) : Z :=
  let scores := [] in
  let scores := pushScore scores (Result.designStyles data) in
  let scores := pushScore scores (Result.components data) in
  let scores := pushScore scores (Result.basicPatterns data) in
  let scores := pushScore scores (Result.servicePatterns data) in
  if (List.length scores =? 0)%nat then 0
  else Math_round_div (fold_left Z.add scores 0) (Z.of_nat (List.length scores)).

(** [exceptionsBySection[name]] as a condition and as an argument. *)
Definition groupOf (bySection : JsObject (list Exc.t)) (name : string)
  : option (list Exc.t) :=
  match getProp bySection name with
  | OwnValue group => Some group
  | _ => None
  end.

Definition adjustKrds (bySection : JsObject (list Exc.t)) (krds : Krds.t) : Krds.t :=
  let krds :=
    match groupOf bySection "디자인 스타일", Krds.designTokensDetail krds with
    | Some group, Some _ =>
        setDesignTokensDetail krds (adjustDesignTokensDetail (Krds.designTokensDetail krds) group)
    | _, _ => krds
    end in
  match groupOf bySection "컴포넌트", Krds.krdsComponents krds with
  | Some group, Some _ =>
      setKrdsComponents krds (adjustSection (Krds.krdsComponents krds) group KType)
  | _, _ => krds
  end.

Definition adjustSections (bySection : JsObject (list Exc.t)) (adjusted : Result.t) : Result.t :=
  let adjusted :=
    match groupOf bySection "디자인 스타일", Result.designStyles adjusted with
    | Some group, Some _ =>
        setDesignStyles adjusted (adjustSection (Result.designStyles adjusted) group KCategory)
    | _, _ => adjusted
    end in
  let adjusted :=
    match groupOf bySection "컴포넌트", Result.components adjusted with
    | Some group, Some _ =>
        setComponents adjusted (adjustSection (Result.components adjusted) group KType)
    | _, _ => adjusted
    end in
  let adjusted :=
    match groupOf bySection "기본 패턴", Result.basicPatterns adjusted with
    | Some group, Some _ =>
        setBasicPatterns adjusted (adjustSection (Result.basicPatterns adjusted) group KName)
    | _, _ => adjusted
    end in
  let adjusted :=
    match groupOf bySection "서비스 패턴", Result.servicePatterns adjusted with
    | Some group, Some _ =>
        setServicePatterns adjusted (adjustSection (Result.servicePatterns adjusted) group KName)
    | _, _ => adjusted
    end in
  match Result.krdsCompliance adjusted with
  | Some krds => setKrdsCompliance adjusted (Some (adjustKrds bySection krds))
  | None => adjusted
  end.

Definition applyExceptions (analysisResults : Result.t)
    (exceptions : option (list Exc.t)) (checklistId : option string)
  : completion Result.t :=
  match exceptions with
  | None => Returns analysisResults
  | Some [] => Returns analysisResults
  | Some excs =>
      let adjusted := jsonClone analysisResults in
      bind (groupExceptionsBySection excs) (fun exceptionsBySection =>
        let adjusted := adjustSections exceptionsBySection adjusted in
        let originalScore := Result.overallScore analysisResults in
        let adjusted := setOverallScore adjusted (calculateOverallScore adjusted) in
        let adjusted :=
          setExceptionInfo adjusted
            (Some (Info.mk true checklistId (List.length excs)
                     originalScore
                     (Result.overallScore adjusted)
                     (Result.overallScore adjusted - originalScore)
                     (keys exceptionsBySection))) in
        Returns adjusted)
  end.

End ExceptionHandler.


(** ** src/analyzer.js: viewport, findings and tokens *)

Module Browser.

Module Size.
Record t : Type := mk { width : Z; height : Z }.
End Size.

Definition sizes : JsObject Size.t :=
  [ ("desktop", Size.mk 1920 1080);
    ("tablet", Size.mk 768 1024);
    ("mobile", Size.mk 390 844) ].

(** What [getViewportSize] hands to the browser context: a size, or a
    member of [Object.prototype] when the name is an inherited one. *)
Inductive ViewportValue : Type :=
| SizeValue (size : Size.t)
| InheritedMember (name : string).

(** [sizes[viewport] || sizes.desktop]; sizes and inherited members are
    truthy. *)
Definition getViewportSize (viewport : string) : ViewportValue :=
  match getProp sizes viewport with
  | OwnValue size => SizeValue size
  | Inherited => InheritedMember viewport
  | Missing =>
      match getProp sizes "desktop" with
      | OwnValue size => SizeValue size
      | _ => InheritedMember "desktop"
      end
  end.

End Browser.

Module Assembler.

(** *** Links *)

(** The characters [encodeURIComponent] leaves as they are. *)
Definition unreserved (c : ascii) : bool :=
  let n := nat_of_ascii c in
  ((65 <=? n) && (n <=? 90))%nat || ((97 <=? n) && (n <=? 122))%nat
  || ((48 <=? n) && (n <=? 57))%nat
  || existsb (Ascii.eqb c)
       ["-"%char; "_"%char; "."%char; "!"%char; "~"%char; "*"%char; "'"%char;
        "("%char; ")"%char].

Definition hexDigit (n : nat) : ascii :=
  if (n <? 10)%nat then ascii_of_nat (48 + n) else ascii_of_nat (55 + n).

(** The escape [%XX] of one byte. *)
Definition escapeByte (c : ascii) : string :=
  let n := nat_of_ascii c in
  String "%" (String (hexDigit (n / 16)) (String (hexDigit (n mod 16)) EmptyString)).

(** [encodeURIComponent] on a text given by its UTF-8 bytes: every byte
    outside the unreserved characters is escaped. *)
Fixpoint encodeURIComponent (s : string) : string :=
  match s with
  | EmptyString => EmptyString
  | String c rest =>
      ((if unreserved c then String c EmptyString else escapeByte c)
       ++ encodeURIComponent rest)%string
  end.

Definition getKRDSUrl (type name : string) : string :=
  let baseUrl := "https://krds.go.kr" in
  (baseUrl ++ "/" ++ type ++ "/" ++ encodeURIComponent name)%string.

(** *** Findings

    The loops of [analyzeDesignStyles], [analyzeComponents],
    [analyzeBasicPatterns] and [analyzeServicePatterns], given the score
    (and the count) the page yields for each name. *)

Definition designCategories : list string :=
  ["색상"; "타이포그래피"; "형태"; "레이아웃";
   "아이콘"; "엘리베이션"; "선명한 화면 모드"; "링크"; "버튼"].

Definition componentTypes : list string :=
  ["button"; "input"; "select"; "checkbox"; "radio"; "link"; "card"; "table"].

Definition basicPatternNames : list string :=
  ["레이아웃"; "네비게이션"; "정보구조"; "인터랙션"; "상태관리"; "피드백"].

Definition servicePatternNames : list string :=
  ["로그인"; "검색"; "목록/상세"; "등록/수정"; "알림"].

(** [score < 80 ? [`${name} 개선 필요`] : []] *)
Definition issuesFor (name : string) (score : Z) : list string :=
  if score <? 80 then [(name ++ " 개선 필요")%string] else [].

Definition analyzeDesignStyles (score : string -> Z) : list Item.t :=
  map (fun category =>
         Item.mk (Some category) None (Some category) None
           (JNum (score category)) (JNum (score category))
           (Some (issuesFor category (score category)))
           (Some (getKRDSUrl "design" category)) None None None)
      designCategories.

Definition analyzeComponents (score count : string -> Z) : list Item.t :=
  map (fun type =>
         Item.mk None (Some type) (Some type) None
           (JNum (score type))
           (JStr (if 80 <=? score type then "준수" else "미준수"))
           (Some (issuesFor type (score type)))
           (Some (getKRDSUrl "component" type)) (Some (count type)) None None)
      componentTypes.

Definition analyzeBasicPatterns (score : string -> Z) : list Item.t :=
  map (fun pattern =>
         Item.mk None None (Some pattern) (Some pattern)
           (JNum (score pattern)) JUndefined (Some [])
           (Some (getKRDSUrl "pattern" pattern)) None None None)
      basicPatternNames.

Definition analyzeServicePatterns (score : string -> Z) : list Item.t :=
  map (fun pattern =>
         Item.mk None None (Some pattern) (Some pattern)
           (JNum (score pattern)) JUndefined (Some [])
           (Some (getKRDSUrl "service" pattern)) None None None)
      servicePatternNames.

(** *** Design tokens *)

Section Builtins.

(** [String.prototype.toLowerCase] and the comparison [ToNumber(s) >= k] of
    a text with an integer are taken as they are. *)
Variable toLowerCase : string -> string.
Variable textAtLeast : string -> Z -> bool.

(** [v >= k] for an integer [k]. *)
Definition atLeast (v : JsVal) (k : Z) : bool :=
  match v with
  | JNum n => k <=? n
  | JBool b => k <=? (if b then 1 else 0)
  | JNull => k <=? 0
  | JUndefined => false
  | JStr s => textAtLeast s k
  end.

(** The entry [convertDesignStylesToTokens] stores for a style. *)
Definition tokenOf (style : Item.t) : Token.t :=
  Token.mk (Item.score style) [] (Item.issues style)
           (if atLeast (Item.score style) 80 then ["준수"] else []) None.

(** One iteration of the [forEach] of [convertDesignStylesToTokens]; a
    style without category makes [toLowerCase] fail. *)
Definition tokenStep (tokens : completion (JsObject Token.t)) (style : Item.t)
  : completion (JsObject Token.t) :=
  bind tokens (fun t =>
    match Item.category style with
    | Some category => Returns (setProp t (toLowerCase category) (tokenOf style))
    | None =>
        Throws "TypeError: Cannot read properties of undefined (reading 'toLowerCase')"
    end).

(** The returned object holds its entries in insertion order; the order in
    which it lists them is that of [keys]. *)
Definition convertDesignStylesToTokens (designStyles : list Item.t)
  : completion (JsObject Token.t) :=
  fold_left tokenStep designStyles (Returns []).

End Builtins.

End Assembler.

(** ** The request handler of the server (POST /api/analyze) *)

(** The handler of the route as a function from the request body to the
    status and body of the response.  The body fields have the types the
    handler expects ([None] is an absent field); logging is left out.  The
    inner [catch] of the handler is not modelled: the final result is always
    an object and building the response data from it cannot throw. *)
Module Server.

(** The fields the handler reads from the request body. *)
Module Body.
Record t : Type := mk {
  url : option string;
  viewport : option string;
  exceptions : option (list Exc.t);
  checklist_id : option string
}.
End Body.

(** What the awaited [analyzeWebsite] resolves to: [{success: true, data}]
    or [{success: false, error}]; it catches its own errors. *)
Inductive AnalysisOutcome : Type :=
| Succeeded (data : Result.t)
| Failed (error : string).

(** The [data] of a successful response. *)
Module Payload.
Record t : Type := mk {
  overallScore : Z;
  categories : JsObject JsVal;
  exceptionInfo : option Info.t;
  timestamp : string;
  url : string
}.
End Payload.

Inductive ResponseBody : Type :=
| UrlRequired
| AnalysisFailed (error : string)
| Analysed (data : Payload.t)
| ServerError (error : string) (stack : option string).

Module Response.
Record t : Type := mk { status : Z; body : ResponseBody }.
End Response.

(** [error.message] of a thrown error written as [Name: message]. *)
Fixpoint messageOf (error : string) : string :=
  match error with
  | String ":" (String " " message) => message
  | String _ rest => messageOf rest
  | EmptyString => EmptyString
  end.

Section Handler.

(** The analysis behind [await analyzeWebsite(url, viewport)], the text of
    [new Date().toISOString()], and what
    [NODE_ENV === 'development' ? error.stack : undefined] yields for an
    error. *)
Variable analyzeWebsite : string -> string -> AnalysisOutcome.
Variable now : string.
Variable stackOf : string -> option string.

Definition postAnalyze (body : Body.t) : Response.t :=
  let url := strOr (Body.url body) "" in
  let viewport := match Body.viewport body with Some v => v | None => "desktop" end in
  let exceptions := match Body.exceptions body with Some l => l | None => [] end in
  let checklist_id := Body.checklist_id body in
  if (url =? "")%string then Response.mk 400 UrlRequired
  else
    match analyzeWebsite url viewport with
    | Failed error => Response.mk 500 (AnalysisFailed error)
    | Succeeded data =>
        match ExceptionHandler.applyExceptions data (Some exceptions) checklist_id with
        | Throws error => Response.mk 500 (ServerError (messageOf error) (stackOf error))
        | Returns finalResult =>
            Response.mk 200
              (Analysed
                 (Payload.mk (Result.overallScore finalResult)
                             []
                             (Result.exceptionInfo finalResult)
                             (strOr (Result.timestamp finalResult) now)
                             (strOr (Result.url finalResult) url)))
        end
    end.

End Handler.

End Server.
(** * Notions used to state the properties *)

(** *** Means *)

(** Sums written as [reduce] and as a sum over a list. *)
Fixpoint sumZ (xs : list Z) : Z :=
  match xs with
  | [] => 0
  | x :: rest => x + sumZ rest
  end.

(** The rounded arithmetic mean of a list of integers, 0 for no element. *)
Definition roundedMean (xs : list Z) : Z :=
  match xs with
  | [] => 0
  | _ => Math_round_div (sumZ xs) (Z.of_nat (List.length xs))
  end.

(** *** Items *)

(** The contribution of an item as the specification words it: its score;
    the compliance when the score is absent or not a number; else 0. *)
Definition claimedContribution (item : Item.t) : Z :=
  match Item.score item with
  | JNum n => n
  | _ => match Item.compliance item with JNum c => c | _ => 0 end
  end.

(** The score of an item whose score is a number. *)
Definition scoreOf (item : Item.t) : Z :=
  match Item.score item with JNum n => n | _ => 0 end.

(** The invariant of the data model: the score is an integer of 0..100. *)
Definition scoreInRange (item : Item.t) : Prop :=
  exists n, Item.score item = JNum n /\ 0 <= n <= 100.

(** A numeric compliance is the mirror of the score (design styles). *)
Definition complianceMirrorsScore (item : Item.t) : Prop :=
  forall c, Item.compliance item = JNum c -> Item.score item = JNum c.

(** A numeric compliance is a percentage. *)
Definition complianceInRange (item : Item.t) : Prop :=
  forall c, Item.compliance item = JNum c -> 0 <= c <= 100.

(** Every number an item carries as score or compliance is a percentage;
    the score need not be a number. *)
Definition numbersInRange (item : Item.t) : Prop :=
  (forall n, Item.score item = JNum n -> 0 <= n <= 100) /\
  complianceInRange item.

(** An item whose score is a text and whose compliance is the number 90. *)
Definition textScored : Item.t :=
  Item.mk (Some "colors") None (Some "colors") None (JStr "high") (JNum 90)
          (Some []) None None None None.

(** A design-style item as [analyzeDesignStyles] builds it (no issue list
    content, no link). *)
Definition styleItem (category : string) (score : Z) : Item.t :=
  Item.mk (Some category) None (Some category) None (JNum score) (JNum score)
          (Some []) None None None None.

(** The two design styles of the specification's scenario. *)
Definition twoStyles : list Item.t :=
  [styleItem "colors" 40; styleItem "typography" 70].

(** *** Sections and results *)

Definition sectionsOfResult (r : Result.t) : Sections.t :=
  Sections.mk (Result.designStyles r) (Result.components r)
              (Result.basicPatterns r) (Result.servicePatterns r).

Definition fourSections (r : Result.t) : list (option (list Item.t)) :=
  [Result.designStyles r; Result.components r;
   Result.basicPatterns r; Result.servicePatterns r].

(** A section that is absent or holds no item. *)
Definition emptySection (section : option (list Item.t)) : Prop :=
  section = None \/ section = Some [].

(** The handler's aggregate of a section that holds an item. *)
Definition aggregateIfPresent (section : option (list Item.t)) : list Z :=
  match section with
  | Some (_ :: _) => [ExceptionHandler.calculateCategoryScore section]
  | _ => []
  end.

(** The handler's aggregates of the sections that hold an item, in order. *)
Definition presentAggregates (r : Result.t) : list Z :=
  flat_map aggregateIfPresent (fourSections r).

(** A result whose only findings are in the design styles. *)
Definition resultWith (overallScore : Z) (designStyles : list Item.t) : Result.t :=
  Result.mk None None None None overallScore
            (Some designStyles) (Some []) (Some []) (Some [])
            None None
            (Some (Krds.mk overallScore None (Some []) (Some 0) (Some 0)))
            None.

(** Design styles with one item of score 80 and three empty sections; the
    mean of the four aggregates is 20. *)
Definition oneStyleOnly : Result.t := resultWith 20 [styleItem "colors" 80].

(** A request for an exception in a section. *)
Definition request (key section : string) (reason : option string) : Exc.t :=
  Exc.mk (Some key) None (Some section) None reason.

(** *** Matching of items and exception requests *)

(** The matching key of a request: [item_key], else [item_name], else the
    empty text. *)
Definition matchingKey (e : Exc.t) : string :=
  strOr (Exc.item_key e) (strOr (Exc.item_name e) "").

(** The key of an item: the designated key field, else [name], else
    [englishName], else the empty text. *)
Definition resolvedKey (keyField : ExceptionHandler.KeyField) (item : Item.t) : string :=
  strOr (ExceptionHandler.readKey keyField item)
        (strOr (Item.name item) (strOr (Item.englishName item) "")).

(** Request [e] matches the item; the empty key matches nothing. *)
Definition requestMatches (keyField : ExceptionHandler.KeyField)
    (item : Item.t) (e : Exc.t) : Prop :=
  matchingKey e <> "" /\ matchingKey e = resolvedKey keyField item.

Definition matched (keyField : ExceptionHandler.KeyField)
    (exceptions : list Exc.t) (item : Item.t) : Prop :=
  exists e, In e exceptions /\ requestMatches keyField item e.


(** The fields an override leaves as they are. *)
Definition sameIdentity (item item' : Item.t) : Prop :=
  Item.category item' = Item.category item /\
  Item.type item' = Item.type item /\
  Item.name item' = Item.name item /\
  Item.englishName item' = Item.englishName item /\
  Item.krdsUrl item' = Item.krdsUrl item /\
  Item.count item' = Item.count item.


(** *** Sections named by exception requests *)

(** The section a request names: [section], else [category], else the
    bucket for the rest. *)
Definition resolvedSection (e : Exc.t) : string :=
  strOr (Exc.section e) (strOr (Exc.category e) "기타").

(** The four names that route to a section of the result. *)
Definition recognizedSections : list string :=
  ["디자인 스타일"; "컴포넌트"; "기본 패턴"; "서비스 패턴"].

(** The audit field as the specification words it: the recognized names
    that some request resolves to. *)
Definition claimedSections (exceptions : list Exc.t) : list string :=
  filter (fun name => existsb (fun e => (resolvedSection e =? name)%string) exceptions)
         recognizedSections.

(** No request names a section that collides with a property inherited
    from [Object.prototype]. *)
Definition groupable (exceptions : list Exc.t) : Prop :=
  Forall (fun e => isInherited (resolvedSection e) = false) exceptions.

(** A request without section and one for a section the result lacks. *)
Definition strayRequests : list Exc.t :=
  [Exc.mk (Some "nonexistent") None None None None;
   request "nonexistent" "푸터" None].

(** The invariant of the loop of [groupExceptionsBySection]: the own keys
    are the sections of the requests seen so far, without repetition. *)
Definition groupedFrom (seen : list Exc.t) (g : JsObject (list Exc.t)) : Prop :=
  NoDup (map fst g) /\
  forall s, In s (map fst g) <-> exists e, In e seen /\ resolvedSection e = s.


(** What the override makes of one section: rewritten by [adjustSection]
    when the section is present and some request names it. *)
Definition overrideSection (bySection : JsObject (list Exc.t)) (name : string)
    (keyField : ExceptionHandler.KeyField) (section : option (list Item.t))
  : option (list Item.t) :=
  match ExceptionHandler.groupOf bySection name, section with
  | Some group, Some _ => ExceptionHandler.adjustSection section group keyField
  | _, _ => section
  end.

(** What the override makes of the design-token details. *)
Definition overrideTokens (bySection : JsObject (list Exc.t))
    (detail : option (JsObject Token.t)) : option (JsObject Token.t) :=
  match ExceptionHandler.groupOf bySection "디자인 스타일", detail with
  | Some group, Some _ => ExceptionHandler.adjustDesignTokensDetail detail group
  | _, _ => detail
  end.

(** *** Accessibility records *)

(** A violation of severity critical or serious. *)
Definition severe (v : AxeRecord.t) : Prop :=
  AxeRecord.impact v = Some "critical" \/ AxeRecord.impact v = Some "serious".

Definition violationsOf (axe : Axe.t) : list AxeRecord.t :=
  match Axe.violations axe with Some l => l | None => [] end.

Definition passesOf (axe : Axe.t) : list AxeRecord.t :=
  match Axe.passes axe with Some l => l | None => [] end.

(** A record of the audit with a rule id and a moderate impact. *)
Definition moderate (id : string) : AxeRecord.t :=
  AxeRecord.mk (Some id) (Some "moderate") None.

(** A report with 17 violations and 23 passes in one bucket. *)
Definition report_17_23 : Axe.t :=
  Axe.mk (Some (repeat (moderate "region") 17))
         (Some (repeat (moderate "bypass") 23)) None None None.

(** A report with 3 moderate violations and 7 passes. *)
Definition report_3_7 : Axe.t :=
  Axe.mk (Some (repeat (moderate "region") 3))
         (Some (repeat (moderate "bypass") 7)) None None None.

(** The number of records a principle receives. *)
Definition bucketCount (p : Analyzer.Principle) (records : list AxeRecord.t) : nat :=
  List.length
    (filter (fun v =>
               match Analyzer.categorizeRule (AxeRecord.id v), p with
               | Analyzer.Perceivable, Analyzer.Perceivable
               | Analyzer.Operable, Analyzer.Operable
               | Analyzer.Understandable, Analyzer.Understandable
               | Analyzer.Robust, Analyzer.Robust => true
               | _, _ => false
               end) records).

(** The integer a double stands for, if it is one. *)
Definition integerOf (x : float) : option Z :=
  match Prim2SF x with
  | S754_zero _ => Some 0
  | S754_finite s m e =>
      let n := if s then Z.neg m else Z.pos m in
      if 0 <=? e then Some (n * 2 ^ e)
      else if (n mod 2 ^ (- e) =? 0) then Some (n / 2 ^ (- e)) else None
  | _ => None
  end.

(** [Math.round(a / n)] computed in doubles gives the exact rounded quotient,
    checked for every total [a] of 0..100n. *)
Definition quotientExactFor (n : nat) : bool :=
  forallb (fun a : nat =>
             match integerOf (Math_round (PrimFloat.div (number_of_nat a) (number_of_nat n))) with
             | Some z => z =? Math_round_div (Z.of_nat a) (Z.of_nat n)
             | None => false
             end) (seq 0 (100 * n + 1)).

(** [Math.round((p / t) * 100)] computed in doubles gives the exact rounded
    percentage, checked for every part [p] of 0..t. *)
Definition percentExactFor (t : nat) : bool :=
  forallb (fun p : nat =>
             match integerOf (Analyzer.percent p t) with
             | Some z => z =? Math_round_div (100 * Z.of_nat p) (Z.of_nat t)
             | None => false
             end) (seq 0 (t + 1)).

(** *** Well-formed and consistent results *)

(** An item of the data model: an integer score of 0..100 and, when the
    compliance is a number, a percentage. *)
Definition wellFormedItem (item : Item.t) : Prop :=
  scoreInRange item /\ complianceInRange item.

Definition wellFormedSection (section : option (list Item.t)) : Prop :=
  forall items, section = Some items -> Forall wellFormedItem items.

Definition wellFormedResult (r : Result.t) : Prop :=
  Forall wellFormedSection (fourSections r).

(** The overall score is the one a calculator of the source computes from
    the sections: the analyzer's at assembly, or the handler's. *)
Definition consistent (r : Result.t) : Prop :=
  Analyzer.calculateOverallScore (sectionsOfResult r) = Some (Result.overallScore r) \/
  ExceptionHandler.calculateOverallScore r = Result.overallScore r.

(** *** Repeating an override *)

(** The audit record of a second override with the same requests: it starts
    from the adjusted score, so nothing is gained. *)
Definition secondAudit (info : Info.t) : Info.t :=
  Info.mk (Info.applied info) (Info.checklistId info) (Info.totalExceptions info)
          (Info.adjustedScore info) (Info.adjustedScore info) 0
          (Info.sections info).

(** The result of overriding an adjusted result again. *)
Definition overriddenAgain (exceptions : option (list Exc.t)) (r : Result.t) : Result.t :=
  match exceptions with
  | Some (_ :: _) =>
      ExceptionHandler.setExceptionInfo r (option_map secondAudit (Result.exceptionInfo r))
  | _ => r
  end.

(** The request of the specification's scenario, filed under its section. *)
Definition colorsRequest : Exc.t :=
  request "colors" "디자인 스타일" (Some "agency exemption").

(** The tallies of a principle after counting some violations and passes. *)
Definition talliedFrom (c : Analyzer.Categories.t) (p : Analyzer.Principle)
    (violations passes : list AxeRecord.t) : Analyzer.Tally.t :=
  Analyzer.Tally.mk
    (Analyzer.Tally.violations (Analyzer.getTally c p) + bucketCount p violations)
    (Analyzer.Tally.passes (Analyzer.getTally c p) + bucketCount p passes).

(** The requests seen so far that name section [s], in order. *)
Definition requestsFor (s : string) (seen : list Exc.t) : list Exc.t :=
  filter (fun e => (resolvedSection e =? s)%string) seen.

(** The groups of the loop of [groupExceptionsBySection]: a section has a
    group exactly when a request names it, and the group holds those
    requests in order. *)
Definition groupsHold (seen : list Exc.t) (g : JsObject (list Exc.t)) : Prop :=
  forall s, ownValue g s = match requestsFor s seen with
                           | [] => None
                           | group => Some group
                           end.

(** *** Routing, frames and shapes of an override *)

(** The token an excepted design-token entry is replaced with. *)
Definition compliantToken : Token.t :=
  Token.mk (JNum 100) [] (Some []) ["예외 처리로 완벽 준수"] (Some true).

(** Some request of the list has the non-empty matching key [k]. *)
Definition keyRequested (exceptions : list Exc.t) (k : string) : Prop :=
  exists e, In e exceptions /\ matchingKey e <> "" /\ matchingKey e = k.

(** Two versions of a section hold the same findings in the same order. *)
Definition sameFindings (section section' : option (list Item.t)) : Prop :=
  match section, section' with
  | None, None => True
  | Some items, Some items' => Forall2 sameIdentity items items'
  | _, _ => False
  end.

(** The compliance details apart from the two parts an override rewrites. *)
Definition sameSummaries (k k' : Krds.t) : Prop :=
  Krds.score k' = Krds.score k /\
  Krds.basicPatterns k' = Krds.basicPatterns k /\
  Krds.servicePatterns k' = Krds.servicePatterns k.

(** The compliance details after an override with the given requests. *)
Definition routedKrds (exceptions : list Exc.t) (k : Krds.t) : Krds.t :=
  Krds.mk (Krds.score k)
    (ExceptionHandler.adjustDesignTokensDetail (Krds.designTokensDetail k)
       (requestsFor "디자인 스타일" exceptions))
    (ExceptionHandler.adjustSection (Krds.krdsComponents k)
       (requestsFor "컴포넌트" exceptions) ExceptionHandler.KType)
    (Krds.basicPatterns k) (Krds.servicePatterns k).

(** Every item of the section is matched by the requests. *)
Definition allMatched (keyField : ExceptionHandler.KeyField)
    (exceptions : list Exc.t) (section : option (list Item.t)) : Prop :=
  forall items, section = Some items ->
                Forall (matched keyField exceptions) items.

(** No item of the section is matched by the requests. *)
Definition noneMatched (keyField : ExceptionHandler.KeyField)
    (exceptions : list Exc.t) (section : option (list Item.t)) : Prop :=
  forall items, section = Some items ->
                Forall (fun item => ~ matched keyField exceptions item) items.

(** A section as the analyzer builds it: at least one item, integer scores
    of 0..100, a numeric compliance mirroring the score. *)
Definition builtSection (section : option (list Item.t)) : Prop :=
  exists item rest,
    section = Some (item :: rest) /\
    Forall scoreInRange (item :: rest) /\
    Forall complianceMirrorsScore (item :: rest).

(** A request that names an inherited property as its section. *)
Definition constructorRequest : Exc.t :=
  request "colors" "constructor" None.

(** *** Assembled analyses *)

(** A page on which every rule scores 70 and every component occurs 3
    times. *)
Definition flatScore (name : string) : Z := 70.
Definition flatCount (name : string) : Z := 3.

(** The exception request of the README. *)
Definition readmeRequest : Exc.t :=
  Exc.mk (Some "colors") (Some "색상") (Some "디자인 스타일") None
         (Some "기관 특성상 예외").

(** Scores of the extractors' contract, 0..100. *)
Definition percentScores (score : string -> Z) : Prop :=
  forall name, 0 <= score name <= 100.

(** The entries of an object in the order the object lists them
    ([Object.entries]: array-index keys first, see [keys]). *)
Definition entries {A} (o : JsObject A) : list (string * A) :=
  flat_map (fun k => match ownValue o k with
                     | Some a => [(k, a)]
                     | None => []
                     end)
           (keys o).

(** No text of the list is an array index. *)
Definition plainKeys (ks : list string) : Prop :=
  Forall (fun k => isArrayIndex k = false) ks.

(** The token details follow the design styles: one entry per style, keyed
    by its (non-empty) category, with the style's score and issues. *)
Definition tokensFollow (styles : list Item.t) (tokens : JsObject Token.t) : Prop :=
  Forall2 (fun (style : Item.t) (kv : string * Token.t) =>
             Item.category style = Some (fst kv) /\ fst kv <> "" /\
             Token.score (snd kv) = Item.score style /\
             Token.issues (snd kv) = Item.issues style)
          styles tokens.

(** The key under which a style is stored, and the last style stored under
    a key. *)
Definition storedUnder (toLowerCase : string -> string) (k : string)
    (style : Item.t) : bool :=
  match Item.category style with
  | Some category => (toLowerCase category =? k)%string
  | None => false
  end.

Definition lastStored (toLowerCase : string -> string) (k : string)
    (styles : list Item.t) : option Item.t :=
  find (storedUnder toLowerCase k) (rev styles).

(** The analysis of the flat page, as it reaches the override. *)
Definition flatAnalysis : Result.t :=
  Result.mk (Some "https://www.mois.go.kr") (Some "desktop") None None 70
    (Some (Assembler.analyzeDesignStyles flatScore))
    (Some (Assembler.analyzeComponents flatScore flatCount))
    (Some (Assembler.analyzeBasicPatterns flatScore))
    (Some (Assembler.analyzeServicePatterns flatScore))
    None None
    (Some (Krds.mk 70 None (Some (Assembler.analyzeComponents flatScore flatCount))
                   (Some 70) (Some 70)))
    None.

(** A request to except the buttons among the components. *)
Definition buttonRequest : Exc.t :=
  request "button" "컴포넌트" (Some "legacy widget").

(** A request names its finding by a non-empty [item_key] that no item of
    the list resolves to. *)
Definition keyedElsewhere (keyField : ExceptionHandler.KeyField)
    (items : list Item.t) (e : Exc.t) : Prop :=
  exists k, Exc.item_key e = Some k /\ k <> "" /\
            Forall (fun item => resolvedKey keyField item <> k) items.

(** The invariant of the loop of [convertDesignStylesToTokens]: no key
    twice, nothing stored under [__proto__], and every other key holds the
    entry of the last style stored under it. *)
Definition tokensHold (toLowerCase : string -> string) (textAtLeast : string -> Z -> bool)
    (seen : list Item.t) (tokens : JsObject Token.t) : Prop :=
  NoDup (map fst tokens) /\
  forall k, ownValue tokens k
            = if (k =? "__proto__")%string then None
              else option_map (Assembler.tokenOf textAtLeast)
                              (lastStored toLowerCase k seen).

(** The categories of the styles are the given texts, in order. *)
Definition categoriesAre (styles : list Item.t) (categories : list string) : Prop :=
  map Item.category styles = map Some categories.

(** *** The analysis route *)

(** What the handler destructures from the body, with its defaults. *)
Definition requestedUrl (body : Server.Body.t) : string :=
  strOr (Server.Body.url body) "".

Definition requestedViewport (body : Server.Body.t) : string :=
  match Server.Body.viewport body with Some v => v | None => "desktop" end.

Definition requestedExceptions (body : Server.Body.t) : list Exc.t :=
  match Server.Body.exceptions body with Some l => l | None => [] end.

(** The error of a [push] on an inherited property. *)
Definition pushFailure : string :=
  "TypeError: grouped[section].push is not a function".

(** Some request resolves to the name of an inherited property. *)
Definition namesInherited (exceptions : list Exc.t) : Prop :=
  exists e, In e exceptions /\ isInherited (resolvedSection e) = true.

(** The audit record the override writes for the requests. *)
Definition auditOf (checklistId : option string) (exceptions : list Exc.t)
    (originalScore adjustedScore : Z) (info : Info.t) : Prop :=
  Info.applied info = true /\
  Info.checklistId info = checklistId /\
  Info.totalExceptions info = List.length exceptions /\
  Info.originalScore info = originalScore /\
  Info.adjustedScore info = adjustedScore /\
  Info.scoreDifference info = adjustedScore - originalScore.

(** A site whose analysis is that of the flat page, a production server
    (no stack in error responses), and two request bodies: the one of the
    README and one whose request names an inherited property. *)
Definition flatSite (url viewport : string) : Server.AnalysisOutcome :=
  Server.Succeeded flatAnalysis.

Definition noStack (error : string) : option string := None.

Definition readmeBody : Server.Body.t :=
  Server.Body.mk (Some "https://www.mois.go.kr") (Some "desktop")
                 (Some [readmeRequest]) (Some "template-123").

Definition constructorBody : Server.Body.t :=
  Server.Body.mk (Some "https://www.mois.go.kr") None
                 (Some [constructorRequest]) None.

(** The two design styles with their token details. *)
Definition twoTokens : JsObject Token.t :=
  [("colors", Token.mk (JNum 40) [] (Some []) [] None);
   ("typography", Token.mk (JNum 70) [] (Some []) [] None)].

Definition styledAnalysis : Result.t :=
  Result.mk None None None None 14
            (Some twoStyles) (Some []) (Some []) (Some [])
            None None
            (Some (Krds.mk 14 (Some twoTokens) (Some []) (Some 0) (Some 0)))
            None.
(** * Properties *)

(** ** Arithmetic of [Math.round(a / n)] *)

Lemma Math_round_div_mono (a m b n : Z) :
  0 < m -> 0 < n -> a * n <= b * m ->
  Math_round_div a m <= Math_round_div b n.
Proof.
  intros Hm Hn H. unfold Math_round_div.
  apply Z.div_le_lower_bound; [lia|].
  pose proof (Z.mul_div_le (2 * a + m) (2 * m) ltac:(lia)) as Hq.
  set (q := (2 * a + m) / (2 * m)) in *.
  assert (Hlin : m * (2 * n * q) <= m * (2 * b + n)) by nia.
  apply Z.mul_le_mono_pos_l in Hlin; lia.
Qed.

Lemma Math_round_div_zero (n : Z) : 0 < n -> Math_round_div 0 n = 0.
Proof.
  intros Hn. unfold Math_round_div. apply Z.div_small. lia.
Qed.

Lemma Math_round_div_exact (k n : Z) : 0 < n -> Math_round_div (k * n) n = k.
Proof.
  intros Hn. unfold Math_round_div.
  replace (2 * (k * n) + n) with (k * (2 * n) + n) by ring.
  rewrite Z.div_add_l by lia. rewrite Z.div_small by lia. lia.
Qed.

Lemma Math_round_div_range (a n lo hi : Z) :
  0 < n -> lo * n <= a <= hi * n -> lo <= Math_round_div a n <= hi.
Proof.
  intros Hn [Hlo Hhi]. split.
  - rewrite <- (Math_round_div_exact lo n Hn).
    apply Math_round_div_mono; nia.
  - rewrite <- (Math_round_div_exact hi n Hn).
    apply Math_round_div_mono; nia.
Qed.


Lemma fold_left_add_sumZ (xs : list Z) (a : Z) :
  fold_left Z.add xs a = a + sumZ xs.
Proof.
  revert a. induction xs as [|x xs IH]; intros a; simpl.
  - lia.
  - rewrite IH. lia.
Qed.

Lemma fold_left_map_sumZ {A} (f : A -> Z) (l : list A) (a : Z) :
  fold_left (fun sum x => sum + f x) l a = a + sumZ (map f l).
Proof.
  revert a. induction l as [|x l IH]; intros a; simpl.
  - lia.
  - rewrite IH. lia.
Qed.

Lemma sumZ_app (xs ys : list Z) : sumZ (xs ++ ys) = sumZ xs + sumZ ys.
Proof.
  induction xs as [|x xs IH]; simpl; lia.
Qed.

Lemma sumZ_le (xs ys : list Z) : Forall2 Z.le xs ys -> sumZ xs <= sumZ ys.
Proof.
  induction 1; simpl; lia.
Qed.


(** ** The no-op law *)

(** C8. With an absent or an empty exception list [applyExceptions] returns
    the very result it was given, for every checklist id: no field differs
    and no exception record is attached. *)
Theorem C8_no_exceptions_returns_original :
  forall (r : Result.t) (checklistId : option string),
    ExceptionHandler.applyExceptions r None checklistId = Returns r /\
    ExceptionHandler.applyExceptions r (Some []) checklistId = Returns r.
Proof.
  intros r checklistId. split; reflexivity.
Qed.

(** ** The accessibility classifier *)

Section Wcag.

Import Analyzer.




Lemma strictEqStr_true (x : option string) (k : string) :
  strictEqStr x k = true <-> x = Some k.
Proof.
  destruct x as [s|]; simpl.
  - rewrite String.eqb_eq. split; [intros ->; reflexivity | intros [= ->]; reflexivity].
  - split; discriminate.
Qed.

Lemma isCritical_severe (v : AxeRecord.t) : isCritical v = true <-> severe v.
Proof.
  unfold isCritical, severe. rewrite orb_true_iff, !strictEqStr_true. tauto.
Qed.

Lemma filter_length_zero {A} (f : A -> bool) (l : list A) :
  (List.length (filter f l) =? 0)%nat = true <-> forall x, In x l -> f x = false.
Proof.
  rewrite Nat.eqb_eq, List.length_zero_iff_nil. induction l as [|x l IH]; simpl.
  - split; [intros _ y [] | reflexivity].
  - destruct (f x) eqn:Hx.
    + split; [discriminate|]. intros H. specialize (H x (or_introl eq_refl)). congruence.
    + rewrite IH. split.
      * intros H y [<-|Hy]; auto.
      * intros H y Hy. apply H. now right.
Qed.

Lemma wcagLevel_unfold (axe : Axe.t) :
  Kwcag.wcagLevel (generateKWCAGReport axe) =
  if (List.length (violationsOf axe) =? 0)%nat then "AA"
  else if (List.length (filter isCritical (violationsOf axe)) =? 0)%nat then "A"
  else "None".
Proof. reflexivity. Qed.

Lemma overallCompliance_unfold (axe : Axe.t) :
  Kwcag.overallCompliance (generateKWCAGReport axe) =
  let total := (List.length (violationsOf axe) + List.length (passesOf axe))%nat in
  if (0 <? total)%nat then percent (List.length (passesOf axe)) total else 0%float.
Proof. reflexivity. Qed.

End Wcag.

(** C9. The level is "AA" for no violation, otherwise "A" when no violation
    is critical or serious, otherwise "None"; so one critical violation
    gives "None", and three violations that are neither critical nor serious
    with seven passes give "A" and an overall compliance of 70. *)
Theorem C9_wcag_level :
  forall axe : Axe.t,
    let report := Analyzer.generateKWCAGReport axe in
    (violationsOf axe = [] -> Kwcag.wcagLevel report = "AA") /\
    (violationsOf axe <> [] ->
     (forall v, In v (violationsOf axe) -> ~ severe v) ->
     Kwcag.wcagLevel report = "A") /\
    (violationsOf axe <> [] ->
     (exists v, In v (violationsOf axe) /\ severe v) ->
     Kwcag.wcagLevel report = "None") /\
    ((exists v, In v (violationsOf axe) /\ AxeRecord.impact v = Some "critical") ->
     Kwcag.wcagLevel report = "None") /\
    (List.length (violationsOf axe) = 3%nat ->
     List.length (passesOf axe) = 7%nat ->
     (forall v, In v (violationsOf axe) -> ~ severe v) ->
     Kwcag.wcagLevel report = "A" /\ Kwcag.overallCompliance report = 70%float).
Proof.
  intros axe report. subst report.
  assert (Hnone : (exists v, In v (violationsOf axe) /\ severe v) ->
                  Kwcag.wcagLevel (Analyzer.generateKWCAGReport axe) = "None").
  { intros (v & Hin & Hsev). rewrite wcagLevel_unfold.
    destruct (violationsOf axe) as [|v0 vs] eqn:Hvs; [destruct Hin|].
    change (List.length (v0 :: vs) =? 0)%nat with false. cbv iota.
    destruct (List.length (filter Analyzer.isCritical (v0 :: vs)) =? 0)%nat eqn:Hc; [|reflexivity].
    apply filter_length_zero with (x := v) in Hc; [|exact Hin].
    apply isCritical_severe in Hsev. congruence. }
  assert (Ha : violationsOf axe <> [] ->
               (forall v, In v (violationsOf axe) -> ~ severe v) ->
               Kwcag.wcagLevel (Analyzer.generateKWCAGReport axe) = "A").
  { intros Hne Hall. rewrite wcagLevel_unfold.
    destruct (violationsOf axe) as [|v0 vs] eqn:Hvs; [congruence|].
    change (List.length (v0 :: vs) =? 0)%nat with false. cbv iota.
    replace (List.length (filter Analyzer.isCritical (v0 :: vs)) =? 0)%nat with true;
      [reflexivity|].
    symmetry. apply filter_length_zero. intros v Hv.
    destruct (Analyzer.isCritical v) eqn:Hc; [|reflexivity].
    apply isCritical_severe in Hc. destruct (Hall v Hv Hc). }
  repeat split.
  - intros Hnil. rewrite wcagLevel_unfold, Hnil. reflexivity.
  - exact Ha.
  - intros _. exact Hnone.
  - intros (v & Hin & Hcrit). apply Hnone. exists v. split; [exact Hin | now left].
  - apply Ha; [|assumption]. intros Hnil. rewrite Hnil in H. discriminate.
  - rewrite overallCompliance_unfold, H, H0. vm_compute. reflexivity.
Qed.

Lemma C9_wcag_level_witness :
  Kwcag.wcagLevel (Analyzer.generateKWCAGReport report_3_7) = "A" /\
  Kwcag.overallCompliance (Analyzer.generateKWCAGReport report_3_7) = 70%float.
Proof.
  destruct (C9_wcag_level report_3_7) as (_ & _ & _ & _ & H).
  apply H; [reflexivity | reflexivity |].
  intros v Hv [Hs|Hs];
    repeat (destruct Hv as [<-|Hv]; [discriminate Hs|]); destruct Hv.
Defined.

(** ** The buckets of the classifier *)

Lemma getTally_setTally (c : Analyzer.Categories.t) (p q : Analyzer.Principle)
    (x : Analyzer.Tally.t) :
  Analyzer.getTally (Analyzer.setTally c p x) q
  = match p, q with
    | Analyzer.Perceivable, Analyzer.Perceivable
    | Analyzer.Operable, Analyzer.Operable
    | Analyzer.Understandable, Analyzer.Understandable
    | Analyzer.Robust, Analyzer.Robust => x
    | _, _ => Analyzer.getTally c q
    end.
Proof.
  destruct p, q; reflexivity.
Qed.

Lemma countViolation_tallies (violations : list AxeRecord.t)
    (c : Analyzer.Categories.t) (p : Analyzer.Principle) :
  Analyzer.getTally (fold_left Analyzer.countViolation violations c) p
  = talliedFrom c p violations [].
Proof.
  revert c. induction violations as [|v rest IH]; intros c.
  - unfold talliedFrom, bucketCount. cbn [fold_left filter List.length].
    rewrite !Nat.add_0_r. now destruct (Analyzer.getTally c p).
  - cbn [fold_left]. rewrite IH. unfold talliedFrom, bucketCount, Analyzer.countViolation.
    cbn [filter]. rewrite getTally_setTally.
    destruct (Analyzer.categorizeRule (AxeRecord.id v)), p;
      cbn [Analyzer.Tally.violations Analyzer.Tally.passes List.length filter];
      f_equal; lia.
Qed.

Lemma countPass_tallies (passes : list AxeRecord.t)
    (c : Analyzer.Categories.t) (p : Analyzer.Principle) :
  Analyzer.getTally (fold_left Analyzer.countPass passes c) p
  = talliedFrom c p [] passes.
Proof.
  revert c. induction passes as [|v rest IH]; intros c.
  - unfold talliedFrom, bucketCount. cbn [fold_left filter List.length].
    rewrite !Nat.add_0_r. now destruct (Analyzer.getTally c p).
  - cbn [fold_left]. rewrite IH. unfold talliedFrom, bucketCount, Analyzer.countPass.
    cbn [filter]. rewrite getTally_setTally.
    destruct (Analyzer.categorizeRule (AxeRecord.id v)), p;
      cbn [Analyzer.Tally.violations Analyzer.Tally.passes List.length filter];
      f_equal; lia.
Qed.

(** Every bucket reports the compliance of the records the keyword patterns
    assign to it, and 100 when it received none. *)
Lemma byCategory_buckets (axe : Axe.t) :
  let bucket p :=
    Analyzer.categoryCompliance
      (Analyzer.Tally.mk (bucketCount p (violationsOf axe))
                         (bucketCount p (passesOf axe))) in
  Kwcag.byCategory (Analyzer.generateKWCAGReport axe)
  = ByCategory.mk (bucket Analyzer.Perceivable) (bucket Analyzer.Operable)
                  (bucket Analyzer.Understandable) (bucket Analyzer.Robust).
Proof.
  cbv zeta. unfold Analyzer.generateKWCAGReport. cbn [Kwcag.byCategory].
  fold (violationsOf axe). fold (passesOf axe).
  change (Analyzer.Categories.perceivable ?c) with (Analyzer.getTally c Analyzer.Perceivable).
  change (Analyzer.Categories.operable ?c) with (Analyzer.getTally c Analyzer.Operable).
  change (Analyzer.Categories.understandable ?c)
    with (Analyzer.getTally c Analyzer.Understandable).
  change (Analyzer.Categories.robust ?c) with (Analyzer.getTally c Analyzer.Robust).
  rewrite !countPass_tallies. unfold talliedFrom. rewrite !countViolation_tallies.
  unfold talliedFrom, bucketCount. cbn [filter List.length Analyzer.getTally
    Analyzer.Categories.perceivable Analyzer.Categories.operable
    Analyzer.Categories.understandable Analyzer.Categories.robust
    Analyzer.Tally.violations Analyzer.Tally.passes Nat.add].
  rewrite !Nat.add_0_r. reflexivity.
Qed.

Lemma empty_bucket_is_compliant :
  Analyzer.categoryCompliance (Analyzer.Tally.mk 0 0) = 100%float.
Proof. reflexivity. Qed.

(** ** Percentages in doubles *)

Lemma forallb_seq (f : nat -> bool) (start n : nat) :
  forallb f (seq start n) = true ->
  forall k, (start <= k < start + n)%nat -> f k = true.
Proof.
  intros H k Hk. rewrite forallb_forall in H. apply H. apply in_seq. lia.
Qed.

(** One division of a section total by up to 12 items never leaves the exact
    rounded quotient. *)
Lemma Math_round_quotient_exact (a n : nat) :
  (1 <= n <= 12)%nat -> (a <= 100 * n)%nat ->
  integerOf (Math_round (PrimFloat.div (number_of_nat a) (number_of_nat n)))
  = Some (Math_round_div (Z.of_nat a) (Z.of_nat n)).
Proof.
  intros Hn Ha.
  assert (Hall : forallb quotientExactFor (seq 1 12) = true) by (vm_compute; reflexivity).
  pose proof (forallb_seq _ _ _ Hall n ltac:(lia)) as Hn'.
  unfold quotientExactFor in Hn'.
  pose proof (forallb_seq _ _ _ Hn' a ltac:(lia)) as Ha'. cbv beta in Ha'.
  destruct (integerOf _) as [z|]; [|discriminate].
  apply Z.eqb_eq in Ha'. now subst.
Qed.

(** Below 40 observations the percentage is the exact rounded one. *)
Lemma percent_exact_below_40 (p t : nat) :
  (1 <= t < 40)%nat -> (p <= t)%nat ->
  integerOf (Analyzer.percent p t)
  = Some (Math_round_div (100 * Z.of_nat p) (Z.of_nat t)).
Proof.
  intros Ht Hp.
  assert (Hall : forallb percentExactFor (seq 1 39) = true) by (vm_compute; reflexivity).
  pose proof (forallb_seq _ _ _ Hall t ltac:(lia)) as Ht'.
  unfold percentExactFor in Ht'.
  pose proof (forallb_seq _ _ _ Ht' p ltac:(lia)) as Hp'. cbv beta in Hp'.
  destruct (integerOf _) as [z|]; [|discriminate].
  apply Z.eqb_eq in Hp'. now subst.
Qed.

(** C10, the classifier at a concrete input: 17 violations and 23 passes
    that all fall into the default bucket.  The exact percentage is 57.5,
    which rounds to 58; the source divides first and multiplies by 100
    afterwards, the double product is 57.49999999999999, and the reported
    value is 57. *)
Theorem C10_percentage_tie_rounds_down :
  bucketCount Analyzer.Perceivable (violationsOf report_17_23) = 17%nat /\
  bucketCount Analyzer.Perceivable (passesOf report_17_23) = 23%nat /\
  Math_round_div (100 * 23) (23 + 17) = 58 /\
  ByCategory.perceivable (Kwcag.byCategory (Analyzer.generateKWCAGReport report_17_23))
    = 57%float /\
  integerOf (ByCategory.perceivable
               (Kwcag.byCategory (Analyzer.generateKWCAGReport report_17_23)))
    <> Some (Math_round_div (100 * 23) (23 + 17)).
Proof.
  repeat split; try (vm_compute; reflexivity).
  vm_compute. discriminate.
Qed.

(** ** The category aggregator *)

Lemma handler_category_mean (items : list Item.t) :
  ExceptionHandler.calculateCategoryScore (Some items) =
  roundedMean (map ExceptionHandler.contribution items).
Proof.
  destruct items as [|item rest]; [reflexivity|].
  unfold ExceptionHandler.calculateCategoryScore, roundedMean.
  rewrite fold_left_map_sumZ, List.length_map. reflexivity.
Qed.

Lemma contribution_nonzero (item : Item.t) (n : Z) :
  Item.score item = JNum n -> n <> 0 -> ExceptionHandler.contribution item = n.
Proof.
  intros Hs Hn. unfold ExceptionHandler.contribution, or_else. rewrite Hs.
  assert (Ht : truthy (JNum n) = true)
    by (simpl; destruct (Z.eqb_spec n 0); [contradiction|reflexivity]).
  rewrite Ht. cbn iota. rewrite Ht. reflexivity.
Qed.

Lemma contribution_falsy (item : Item.t) :
  truthy (Item.score item) = false ->
  ExceptionHandler.contribution item
  = match Item.compliance item with JNum c => c | _ => 0 end.
Proof.
  intros Hf. unfold ExceptionHandler.contribution, or_else.
  rewrite Hf. cbn iota.
  destruct (Item.compliance item) as [| |b|c|s]; simpl; try reflexivity.
  - destruct b; reflexivity.
  - destruct (Z.eqb_spec c 0) as [->|]; reflexivity.
  - destruct (s =? "")%string; reflexivity.
Qed.

Lemma contribution_mirrored (item : Item.t) :
  scoreInRange item -> complianceMirrorsScore item ->
  ExceptionHandler.contribution item = scoreOf item.
Proof.
  intros (n & Hs & _) Hm. unfold ExceptionHandler.contribution, scoreOf, or_else.
  rewrite Hs. simpl. destruct (Z.eqb_spec n 0) as [->|Hn]; simpl.
  - destruct (Item.compliance item) as [| |b|c|s] eqn:Hc; simpl; try reflexivity.
    + destruct b; reflexivity.
    + specialize (Hm c Hc). rewrite Hs in Hm. injection Hm as <-. reflexivity.
    + destruct (s =? "")%string; reflexivity.
  - destruct (Z.eqb_spec n 0); [contradiction|reflexivity].
Qed.

Lemma sumZ_range (xs : list Z) (lo hi : Z) :
  Forall (fun x => lo <= x <= hi) xs ->
  lo * Z.of_nat (List.length xs) <= sumZ xs <= hi * Z.of_nat (List.length xs).
Proof.
  induction 1 as [|x rest Hx _ IH]; cbn [sumZ List.length]; lia.
Qed.

Lemma roundedMean_range (xs : list Z) :
  Forall (fun x => 0 <= x <= 100) xs -> 0 <= roundedMean xs <= 100.
Proof.
  intros H. pose proof (sumZ_range xs 0 100 H) as Hsum.
  destruct xs as [|x rest]; [simpl; lia|].
  unfold roundedMean. apply Math_round_div_range; cbn [List.length] in *; lia.
Qed.

Lemma scoreOf_range (item : Item.t) : scoreInRange item -> 0 <= scoreOf item <= 100.
Proof.
  intros (n & Hs & Hn). unfold scoreOf. rewrite Hs. exact Hn.
Qed.

Lemma roundedMean_scores_range (items : list Item.t) :
  Forall scoreInRange items ->
  0 <= roundedMean (map scoreOf items) <= 100.
Proof.
  intros H. apply roundedMean_range. apply Forall_map.
  eapply Forall_impl; [|exact H]. intros item. apply scoreOf_range.
Qed.

Lemma analyzer_reduceScores (items : list Item.t) (sum : Z) :
  Forall scoreInRange items ->
  Analyzer.reduceScores sum items = Some (sum + sumZ (map scoreOf items)).
Proof.
  intros H. revert sum. induction H as [|item rest (n & Hs & Hn) _ IH]; intros sum.
  - simpl. f_equal. lia.
  - cbn [Analyzer.reduceScores map sumZ]. unfold Analyzer.addScore, or_else, scoreOf at 1.
    rewrite Hs. simpl. destruct (Z.eqb_spec n 0) as [->|Hne]; simpl; rewrite IH; f_equal; lia.
Qed.

Lemma analyzer_category_mean (items : list Item.t) :
  Forall scoreInRange items ->
  Analyzer.calculateCategoryScore (Some items) = Some (roundedMean (map scoreOf items)).
Proof.
  intros H. destruct items as [|item rest]; [reflexivity|].
  unfold Analyzer.calculateCategoryScore. rewrite analyzer_reduceScores by exact H.
  unfold roundedMean. cbn [map]. rewrite Z.add_0_l.
  change (List.length (scoreOf item :: map scoreOf rest))
    with (S (List.length (map scoreOf rest))).
  rewrite List.length_map. reflexivity.
Qed.

(** C3, the claim at a concrete input: one item whose score is the text
    "high" and whose compliance is the number 90.  The claim lets a score
    that is not a number fall back to the compliance, a contribution of 90;
    the handler's aggregator keeps the truthy text, which its type guard
    turns into 0, and returns 0. *)
Lemma C3_text_score_counterexample :
  numbersInRange textScored /\
  roundedMean (map claimedContribution [textScored]) = 90 /\
  ExceptionHandler.calculateCategoryScore (Some [textScored]) = 0 /\
  ExceptionHandler.calculateCategoryScore (Some [textScored])
    <> roundedMean (map claimedContribution [textScored]).
Proof.
  split; [|split; [|split]].
  - split; [intros n H; discriminate H|].
    intros c [= <-]. lia.
  - reflexivity.
  - reflexivity.
  - vm_compute. discriminate.
Qed.

(** C3, amended.  For items whose numeric scores and compliances lie in
    0..100, the handler's aggregator returns the rounded mean of the items'
    contributions, 0 for no item.  A score that is a non-zero number
    contributes itself; any other truthy score (a non-empty text, [true])
    contributes 0 and the compliance is not consulted; a score that is
    missing (undefined, null, false or the empty text) contributes the
    compliance when that is a number and 0 otherwise.  For integer scores of
    0..100 whose numeric compliance mirrors the score, the result lies in
    0..100 and is the rounded mean of the scores; the analyzer's aggregator,
    which reads the score only, gives that value for all integer scores of
    0..100. *)
Theorem C3_category_aggregator :
  forall items : list Item.t,
    (Forall numbersInRange items ->
       ExceptionHandler.calculateCategoryScore (Some items)
         = roundedMean (map ExceptionHandler.contribution items)) /\
    (forall item n, Item.score item = JNum n -> n <> 0 ->
       ExceptionHandler.contribution item = n) /\
    (forall item, truthy (Item.score item) = true ->
       (forall n, Item.score item <> JNum n) ->
       ExceptionHandler.contribution item = 0) /\
    (forall item, truthy (Item.score item) = false ->
       (forall n, Item.score item <> JNum n) ->
       ExceptionHandler.contribution item
         = match Item.compliance item with JNum c => c | _ => 0 end) /\
    (items = [] ->
       ExceptionHandler.calculateCategoryScore (Some items) = 0 /\
       Analyzer.calculateCategoryScore (Some items) = Some 0) /\
    (Forall scoreInRange items -> Forall complianceMirrorsScore items ->
       ExceptionHandler.calculateCategoryScore (Some items)
         = roundedMean (map scoreOf items) /\
       0 <= ExceptionHandler.calculateCategoryScore (Some items) <= 100) /\
    (Forall scoreInRange items ->
       exists s, Analyzer.calculateCategoryScore (Some items) = Some s /\
                 s = roundedMean (map scoreOf items) /\ 0 <= s <= 100).
Proof.
  intros items. split; [intros _; apply handler_category_mean|].
  split.
  { intros item n. apply contribution_nonzero. }
  split.
  { intros item Ht Hnum. unfold ExceptionHandler.contribution, or_else.
    rewrite Ht. cbn iota. rewrite Ht.
    destruct (Item.score item) as [| |b|n|s]; try reflexivity.
    destruct (Hnum n eq_refl). }
  split.
  { intros item Hf _. apply contribution_falsy. exact Hf. }
  split.
  { intros ->. split; reflexivity. }
  split.
  { intros Hs Hm.
    assert (Heq : map ExceptionHandler.contribution items = map scoreOf items).
    { apply map_ext_in. intros item Hin. rewrite Forall_forall in Hs, Hm.
      apply contribution_mirrored; auto. }
    rewrite handler_category_mean, Heq.
    split; [reflexivity | apply roundedMean_scores_range; exact Hs]. }
  intros Hs. exists (roundedMean (map scoreOf items)).
  split; [apply analyzer_category_mean; exact Hs|].
  split; [reflexivity | apply roundedMean_scores_range; exact Hs].
Qed.

Lemma C3_category_aggregator_witness :
  ExceptionHandler.calculateCategoryScore (Some twoStyles)
    = roundedMean (map ExceptionHandler.contribution twoStyles) /\
  ExceptionHandler.contribution textScored = 0 /\
  ExceptionHandler.calculateCategoryScore (Some twoStyles)
    = roundedMean (map scoreOf twoStyles) /\
  0 <= ExceptionHandler.calculateCategoryScore (Some twoStyles) <= 100.
Proof.
  destruct (C3_category_aggregator twoStyles) as (H1 & _ & H3 & _ & _ & H6 & _).
  split; [|split].
  - apply H1.
    repeat (constructor;
            [split; [intros n [= <-]; lia | intros c [= <-]; lia] |]).
    constructor.
  - apply (H3 textScored); [reflexivity | intros n H; discriminate H].
  - apply H6.
    + repeat (constructor; [eexists; split; [reflexivity | lia] |]). constructor.
    + repeat (constructor; [intros c [= <-]; reflexivity |]). constructor.
Defined.

(** ** The overall score *)

Lemma handler_overall_mean (r : Result.t) :
  ExceptionHandler.calculateOverallScore r = roundedMean (presentAggregates r).
Proof.
  unfold ExceptionHandler.calculateOverallScore, presentAggregates, fourSections.
  destruct (Result.designStyles r) as [[|i1 l1]|];
    destruct (Result.components r) as [[|i2 l2]|];
    destruct (Result.basicPatterns r) as [[|i3 l3]|];
    destruct (Result.servicePatterns r) as [[|i4 l4]|];
    cbn [ExceptionHandler.pushScore flat_map aggregateIfPresent app List.length
         Nat.eqb roundedMean];
    rewrite ?fold_left_add_sumZ; reflexivity.
Qed.

Lemma handler_overall_ignores_score (r : Result.t) (s : Z) :
  ExceptionHandler.calculateOverallScore (ExceptionHandler.setOverallScore r s)
  = ExceptionHandler.calculateOverallScore r.
Proof. reflexivity. Qed.

Lemma handler_overall_ignores_info (r : Result.t) (i : option Info.t) :
  ExceptionHandler.calculateOverallScore (ExceptionHandler.setExceptionInfo r i)
  = ExceptionHandler.calculateOverallScore r.
Proof. reflexivity. Qed.

(** What a returning call with at least one exception builds. *)
Lemma applyExceptions_returns_inv
    (r : Result.t) (exc : Exc.t) (excs : list Exc.t)
    (checklistId : option string) (r' : Result.t) :
  ExceptionHandler.applyExceptions r (Some (exc :: excs)) checklistId = Returns r' ->
  exists bySection,
    ExceptionHandler.groupExceptionsBySection (exc :: excs) = Returns bySection /\
    let adjusted := ExceptionHandler.adjustSections bySection r in
    let score := ExceptionHandler.calculateOverallScore adjusted in
    r' = ExceptionHandler.setExceptionInfo
           (ExceptionHandler.setOverallScore adjusted score)
           (Some (Info.mk true checklistId (List.length (exc :: excs))
                    (Result.overallScore r) score (score - Result.overallScore r)
                    (keys bySection))).
Proof.
  unfold ExceptionHandler.applyExceptions, ExceptionHandler.jsonClone.
  destruct (ExceptionHandler.groupExceptionsBySection (exc :: excs)) as [bySection|e];
    cbn [bind]; [|discriminate].
  intros [= <-]. exists bySection. split; reflexivity.
Qed.

(** C1, the claim at a concrete input: design styles with one item of score
    80, the other three sections empty, and an exception that matches no
    item.  The mean of the four aggregates is 20, and that is what the
    analyzer's calculator returns; the score recomputed by the override is
    80. *)
Lemma C1_recomputation_counterexample :
  Analyzer.calculateOverallScore (sectionsOfResult oneStyleOnly) = Some 20 /\
  exists r',
    ExceptionHandler.applyExceptions oneStyleOnly
      (Some [request "nonexistent" "디자인 스타일" None]) None = Returns r' /\
    map ExceptionHandler.calculateCategoryScore (fourSections r') = [80; 0; 0; 0] /\
    Result.overallScore r' = 80 /\
    Result.overallScore r'
      <> roundedMean (map ExceptionHandler.calculateCategoryScore (fourSections r')).
Proof.
  split; [reflexivity|].
  eexists. split; [vm_compute; reflexivity|].
  split; [reflexivity|]. split; [reflexivity|].
  vm_compute. discriminate.
Qed.

(** C1, amended.  The analyzer's calculator, used for the initial assembly,
    returns the rounded mean of exactly four aggregates, an absent or empty
    section contributing 0.  The recomputation after exception overrides
    returns the rounded mean of the aggregates of those sections that hold
    an item: an absent or empty section is left out of the mean, and the
    score is 0 when no section holds an item.  So four empty sections give
    0 in both, and four sections that all hold an item are averaged over
    four in both. *)
Theorem C1_overall_score :
  forall r : Result.t,
    (forall s1 s2 s3 s4,
       Analyzer.calculateCategoryScore (Result.designStyles r) = Some s1 ->
       Analyzer.calculateCategoryScore (Result.components r) = Some s2 ->
       Analyzer.calculateCategoryScore (Result.basicPatterns r) = Some s3 ->
       Analyzer.calculateCategoryScore (Result.servicePatterns r) = Some s4 ->
       Analyzer.calculateOverallScore (sectionsOfResult r)
         = Some (roundedMean [s1; s2; s3; s4])) /\
    (forall section, emptySection section ->
       Analyzer.calculateCategoryScore section = Some 0) /\
    ExceptionHandler.calculateOverallScore r = roundedMean (presentAggregates r) /\
    (forall exc excs checklistId r',
       ExceptionHandler.applyExceptions r (Some (exc :: excs)) checklistId = Returns r' ->
       Result.overallScore r' = roundedMean (presentAggregates r')) /\
    (Forall emptySection (fourSections r) ->
       Analyzer.calculateOverallScore (sectionsOfResult r) = Some 0 /\
       ExceptionHandler.calculateOverallScore r = 0) /\
    (Forall (fun section => ~ emptySection section) (fourSections r) ->
       ExceptionHandler.calculateOverallScore r
         = roundedMean (map ExceptionHandler.calculateCategoryScore (fourSections r))).
Proof.
  intros r. split.
  { intros s1 s2 s3 s4 H1 H2 H3 H4.
    unfold Analyzer.calculateOverallScore, sectionsOfResult.
    cbn [Sections.designStyles Sections.components Sections.basicPatterns
         Sections.servicePatterns].
    rewrite H1, H2, H3, H4. rewrite fold_left_add_sumZ. reflexivity. }
  split.
  { intros section [->| ->]; reflexivity. }
  split; [apply handler_overall_mean|].
  split.
  { intros exc excs checklistId r' Hret.
    apply applyExceptions_returns_inv in Hret. destruct Hret as (bySection & _ & ->).
    rewrite <- handler_overall_mean. reflexivity. }
  split.
  { intros Hempty.
    unfold fourSections in Hempty.
    inversion_clear Hempty as [|? ? E1 Hempty2].
    inversion_clear Hempty2 as [|? ? E2 Hempty3].
    inversion_clear Hempty3 as [|? ? E3 Hempty4].
    inversion_clear Hempty4 as [|? ? E4 _].
    unfold Analyzer.calculateOverallScore, ExceptionHandler.calculateOverallScore, sectionsOfResult.
    cbn [Sections.designStyles Sections.components Sections.basicPatterns
         Sections.servicePatterns].
    destruct E1 as [-> | ->], E2 as [-> | ->], E3 as [-> | ->], E4 as [-> | ->];
      split; reflexivity. }
  intros Hfull. rewrite handler_overall_mean.
  unfold presentAggregates, fourSections in *.
  inversion_clear Hfull as [|? ? E1 Hfull2].
  inversion_clear Hfull2 as [|? ? E2 Hfull3].
  inversion_clear Hfull3 as [|? ? E3 Hfull4].
  inversion_clear Hfull4 as [|? ? E4 _].
  unfold emptySection in *.
  destruct (Result.designStyles r) as [[|i1 l1]|]; [tauto| |tauto].
  destruct (Result.components r) as [[|i2 l2]|]; [tauto| |tauto].
  destruct (Result.basicPatterns r) as [[|i3 l3]|]; [tauto| |tauto].
  destruct (Result.servicePatterns r) as [[|i4 l4]|]; [tauto| |tauto].
  reflexivity.
Qed.

Lemma C1_overall_score_witness :
  Analyzer.calculateOverallScore (sectionsOfResult oneStyleOnly)
  = Some (roundedMean [80; 0; 0; 0]).
Proof.
  destruct (C1_overall_score oneStyleOnly) as (H & _).
  apply H; reflexivity.
Defined.

(** ** Overriding the items of a section *)

Lemma strOr_optOr (a b : option string) (c : string) :
  strOr (optOr a b) c = strOr a (strOr b c).
Proof.
  destruct a as [s|]; simpl; [|reflexivity].
  destruct (s =? "")%string eqn:E; simpl; [reflexivity|]. rewrite E. reflexivity.
Qed.

Lemma requestKey_matchingKey (e : Exc.t) :
  strOr (ExceptionHandler.requestKey e) "" = matchingKey e.
Proof. apply strOr_optOr. Qed.

Lemma itemKeyOf_resolvedKey (keyField : ExceptionHandler.KeyField) (item : Item.t) :
  ExceptionHandler.itemKeyOf keyField item = resolvedKey keyField item.
Proof.
  unfold ExceptionHandler.itemKeyOf, resolvedKey. now rewrite !strOr_optOr.
Qed.

Lemma includes_In (arr : list string) (k : string) :
  includes arr k = true <-> In k arr.
Proof.
  unfold includes. rewrite existsb_exists. split.
  - intros (s & Hin & Heq). apply String.eqb_eq in Heq. now subst.
  - intros Hin. exists k. split; [exact Hin | apply String.eqb_refl].
Qed.

Lemma excludedKeysOf_In (exceptions : list Exc.t) (k : string) :
  In k (ExceptionHandler.excludedKeysOf exceptions) <->
  exists e, In e exceptions /\ matchingKey e <> "" /\ matchingKey e = k.
Proof.
  unfold ExceptionHandler.excludedKeysOf. rewrite filter_In, in_map_iff. split.
  - intros ((e & Hk & Hin) & Hne). rewrite requestKey_matchingKey in Hk.
    exists e. repeat split; [exact Hin | | exact Hk].
    rewrite Hk. intros ->. discriminate.
  - intros (e & Hin & Hne & Hk). split.
    + exists e. rewrite requestKey_matchingKey. now split.
    + subst k. destruct (String.eqb_spec (matchingKey e) ""); [contradiction|reflexivity].
Qed.

Lemma includes_matched (keyField : ExceptionHandler.KeyField)
    (exceptions : list Exc.t) (item : Item.t) :
  includes (ExceptionHandler.excludedKeysOf exceptions)
           (ExceptionHandler.itemKeyOf keyField item) = true
  <-> matched keyField exceptions item.
Proof.
  rewrite includes_In, excludedKeysOf_In, itemKeyOf_resolvedKey.
  unfold matched, requestMatches. split; intros (e & H); exists e; tauto.
Qed.






Lemma adjustItem_unmatched (keyField : ExceptionHandler.KeyField)
    (exceptions : list Exc.t) (item : Item.t) :
  ~ matched keyField exceptions item ->
  ExceptionHandler.adjustItem exceptions
    (ExceptionHandler.excludedKeysOf exceptions) keyField item = item.
Proof.
  intros Hm. unfold ExceptionHandler.adjustItem.
  destruct (includes (ExceptionHandler.excludedKeysOf exceptions)
                     (ExceptionHandler.itemKeyOf keyField item)) eqn:Hinc; [|reflexivity].
  apply includes_matched in Hinc. contradiction.
Qed.

Lemma adjustSection_map (keyField : ExceptionHandler.KeyField)
    (exceptions : list Exc.t) (items : list Item.t) :
  ExceptionHandler.adjustSection (Some items) exceptions keyField
  = Some (map (ExceptionHandler.adjustItem exceptions
                 (ExceptionHandler.excludedKeysOf exceptions) keyField) items).
Proof.
  destruct items; reflexivity.
Qed.



(** ** Grouping the requests by section *)

Lemma sectionOf_resolvedSection (e : Exc.t) :
  ExceptionHandler.sectionOf e = resolvedSection e.
Proof. apply strOr_optOr. Qed.

Lemma ownValue_None {A} (o : JsObject A) (k : string) :
  ownValue o k = None <-> ~ In k (map fst o).
Proof.
  induction o as [|[k' a] o IH]; simpl.
  - tauto.
  - destruct (String.eqb_spec k' k) as [->|Hne].
    + split; [discriminate | intros H; exfalso; apply H; now left].
    + rewrite IH. split; [intros H [Heq|Hin]; [congruence | contradiction] | tauto].
Qed.

Lemma replaceOwn_keys {A} (o : JsObject A) (k : string) (a : A) :
  map fst (replaceOwn o k a) = map fst o.
Proof.
  induction o as [|[k' a'] o IH]; simpl; [reflexivity|].
  destruct (k' =? k)%string; simpl; [reflexivity | now rewrite IH].
Qed.

Lemma groupStep_invariant (seen : list Exc.t) (g : JsObject (list Exc.t)) (exc : Exc.t) :
  groupedFrom seen g ->
  isInherited (resolvedSection exc) = false ->
  exists g', ExceptionHandler.groupStep (Returns g) exc = Returns g' /\
             groupedFrom (seen ++ [exc]) g'.
Proof.
  intros [Hnd Hkeys] Hsafe. unfold ExceptionHandler.groupStep. cbn [bind].
  rewrite sectionOf_resolvedSection. unfold getProp, setProp.
  destruct (ownValue g (resolvedSection exc)) as [group|] eqn:Hown.
  - eexists. split; [reflexivity|]. unfold groupedFrom. rewrite replaceOwn_keys.
    split; [exact Hnd|]. intros s. rewrite Hkeys. split.
    + intros (e & Hin & He). exists e. split; [apply in_or_app; now left | exact He].
    + intros (e & Hin & He). apply in_app_or in Hin. destruct Hin as [Hin|[<-|[]]].
      * now exists e.
      * apply Hkeys. subst s.
        destruct (in_dec string_dec (resolvedSection exc) (map fst g)) as [Hi|Hn]; [exact Hi|].
        apply ownValue_None in Hn. congruence.
  - rewrite Hsafe.
    assert (Hproto : (resolvedSection exc =? "__proto__")%string = false).
    { destruct (String.eqb_spec (resolvedSection exc) "__proto__") as [Heq|]; [|reflexivity].
      rewrite Heq in Hsafe. discriminate Hsafe. }
    rewrite Hproto. eexists. split; [reflexivity|]. unfold groupedFrom.
    rewrite map_app. cbn [map fst]. apply ownValue_None in Hown. split.
    + apply NoDup_app; [exact Hnd | repeat constructor; intros [] | ].
      intros s Hs. intros [<-|[]]. contradiction.
    + intros s. rewrite in_app_iff, Hkeys. cbn [In]. split.
      * intros [(e & Hin & He)|[<-|[]]].
        -- exists e. split; [apply in_or_app; now left | exact He].
        -- exists exc. split; [apply in_or_app; right; now left | reflexivity].
      * intros (e & Hin & He). apply in_app_or in Hin. destruct Hin as [Hin|[<-|[]]].
        -- left. now exists e.
        -- right. now left.
Qed.

Lemma group_fold_invariant (exceptions seen : list Exc.t) (g : JsObject (list Exc.t)) :
  groupedFrom seen g -> groupable exceptions ->
  exists g', fold_left ExceptionHandler.groupStep exceptions (Returns g) = Returns g' /\
             groupedFrom (seen ++ exceptions) g'.
Proof.
  revert seen g. induction exceptions as [|exc rest IH]; intros seen g Hinv Hsafe.
  - exists g. rewrite app_nil_r. now split.
  - inversion_clear Hsafe as [|? ? Hexc Hrest].
    destruct (groupStep_invariant seen g exc Hinv Hexc) as (g1 & Hstep & Hinv1).
    destruct (IH (seen ++ [exc]) g1 Hinv1 Hrest) as (g' & Hfold & Hinv').
    exists g'. cbn [fold_left]. rewrite Hstep. split; [exact Hfold|].
    rewrite <- app_assoc in Hinv'. exact Hinv'.
Qed.

Lemma groupExceptionsBySection_returns (exceptions : list Exc.t) :
  groupable exceptions ->
  exists g, ExceptionHandler.groupExceptionsBySection exceptions = Returns g /\
            groupedFrom exceptions g.
Proof.
  intros Hsafe. apply (group_fold_invariant exceptions [] []); [|exact Hsafe].
  split; [constructor|]. intros s. simpl. split; [tauto | intros (e & [] & _)].
Qed.

(** A request for an inherited name makes the grouping throw. *)
Lemma fold_groupStep_throws (exceptions : list Exc.t) (msg : string) :
  fold_left ExceptionHandler.groupStep exceptions (Throws msg) = Throws msg.
Proof.
  induction exceptions as [|exc rest IH]; [reflexivity | exact IH].
Qed.

Lemma groupStep_inherited (seen : list Exc.t) (g : JsObject (list Exc.t)) (exc : Exc.t) :
  groupedFrom seen g -> groupable seen ->
  isInherited (resolvedSection exc) = true ->
  exists msg, ExceptionHandler.groupStep (Returns g) exc = Throws msg.
Proof.
  intros [_ Hkeys] Hseen Hinh. unfold ExceptionHandler.groupStep. cbn [bind].
  rewrite sectionOf_resolvedSection. unfold getProp.
  destruct (ownValue g (resolvedSection exc)) as [group|] eqn:Hown.
  - exfalso.
    assert (Hin : In (resolvedSection exc) (map fst g)).
    { destruct (in_dec string_dec (resolvedSection exc) (map fst g)) as [Hi|Hn]; [exact Hi|].
      apply ownValue_None in Hn. congruence. }
    apply Hkeys in Hin. destruct Hin as (e & Hin & He).
    unfold groupable in Hseen. rewrite Forall_forall in Hseen.
    specialize (Hseen e Hin). congruence.
  - rewrite Hinh. eexists. reflexivity.
Qed.

Lemma groupExceptionsBySection_throws (exceptions : list Exc.t) :
  ~ groupable exceptions ->
  exists msg, ExceptionHandler.groupExceptionsBySection exceptions = Throws msg.
Proof.
  unfold ExceptionHandler.groupExceptionsBySection.
  assert (Hgen : forall rest seen g,
             groupedFrom seen g -> groupable seen -> ~ groupable rest ->
             exists msg, fold_left ExceptionHandler.groupStep rest (Returns g) = Throws msg).
  { induction rest as [|exc rest IH]; intros seen g Hinv Hseen Hbad.
    - exfalso. apply Hbad. constructor.
    - cbn [fold_left]. destruct (isInherited (resolvedSection exc)) eqn:Hinh.
      + destruct (groupStep_inherited seen g exc Hinv Hseen Hinh) as (msg & ->).
        exists msg. apply fold_groupStep_throws.
      + destruct (groupStep_invariant seen g exc Hinv Hinh) as (g1 & -> & Hinv1).
        apply (IH (seen ++ [exc]) g1 Hinv1).
        * apply Forall_app. split; [exact Hseen | now repeat constructor].
        * intros Hrest. apply Hbad. now constructor. }
  intros Hbad. apply (Hgen exceptions [] []); [|constructor|exact Hbad].
  split; [constructor|]. intros s. simpl. split; [tauto | intros (e & [] & _)].
Qed.

Lemma ownValue_replaceOwn {A} (o : JsObject A) (k s : string) (a : A) :
  ownValue (replaceOwn o k a) s
  = match ownValue o k with
    | Some _ => if (k =? s)%string then Some a else ownValue o s
    | None => ownValue o s
    end.
Proof.
  induction o as [|[k' a'] o IH]; cbn [replaceOwn ownValue]; [reflexivity|].
  destruct (String.eqb_spec k' k) as [->|Hne]; cbn [ownValue].
  - destruct (k =? s)%string; reflexivity.
  - rewrite IH. destruct (String.eqb_spec k' s) as [->|Hs].
    + destruct (ownValue o k); [|reflexivity].
      destruct (String.eqb_spec k s); [congruence | reflexivity].
    + reflexivity.
Qed.

Lemma ownValue_app {A} (o : JsObject A) (k s : string) (a : A) :
  ownValue (o ++ [(k, a)]) s
  = match ownValue o s with
    | Some x => Some x
    | None => if (k =? s)%string then Some a else None
    end.
Proof.
  induction o as [|[k' a'] o IH]; cbn [app ownValue]; [reflexivity|].
  destruct (k' =? s)%string; [reflexivity | exact IH].
Qed.

Lemma requestsFor_snoc (s : string) (seen : list Exc.t) (exc : Exc.t) :
  requestsFor s (seen ++ [exc])
  = requestsFor s seen ++ (if (resolvedSection exc =? s)%string then [exc] else []).
Proof.
  unfold requestsFor. rewrite filter_app. cbn [filter].
  destruct (resolvedSection exc =? s)%string; reflexivity.
Qed.

Lemma groupStep_groups (seen : list Exc.t) (g g' : JsObject (list Exc.t)) (exc : Exc.t) :
  groupsHold seen g ->
  ExceptionHandler.groupStep (Returns g) exc = Returns g' ->
  groupsHold (seen ++ [exc]) g'.
Proof.
  intros Hg. unfold ExceptionHandler.groupStep. cbn [bind].
  rewrite sectionOf_resolvedSection. unfold getProp, setProp.
  pose proof (Hg (resolvedSection exc)) as Hsec.
  destruct (ownValue g (resolvedSection exc)) as [group|] eqn:Hown.
  - intros [= <-]. intros s. rewrite ownValue_replaceOwn, Hown, requestsFor_snoc.
    destruct (String.eqb_spec (resolvedSection exc) s) as [<-|Hne].
    + destruct (requestsFor (resolvedSection exc) seen) as [|e0 rest]; [discriminate|].
      injection Hsec as ->. reflexivity.
    + rewrite app_nil_r. apply Hg.
  - destruct (isInherited (resolvedSection exc)) eqn:Hinh; [discriminate|].
    destruct (String.eqb_spec (resolvedSection exc) "__proto__") as [Heq|Hproto].
    + rewrite Heq in Hinh. discriminate Hinh.
    + intros [= <-]. intros s. rewrite ownValue_app, requestsFor_snoc, (Hg s).
      destruct (String.eqb_spec (resolvedSection exc) s) as [<-|Hne].
      * destruct (requestsFor (resolvedSection exc) seen) as [|e0 rest]; [reflexivity|].
        discriminate.
      * rewrite app_nil_r. destruct (requestsFor s seen); reflexivity.
Qed.

(** Each group of [groupExceptionsBySection] holds the requests that name
    its section, in the order they were given. *)
Lemma groupExceptionsBySection_groups (exceptions : list Exc.t)
    (g : JsObject (list Exc.t)) :
  ExceptionHandler.groupExceptionsBySection exceptions = Returns g ->
  groupsHold exceptions g.
Proof.
  unfold ExceptionHandler.groupExceptionsBySection.
  assert (Hgen : forall rest seen g0,
             groupsHold seen g0 ->
             fold_left ExceptionHandler.groupStep rest (Returns g0) = Returns g ->
             groupsHold (seen ++ rest) g).
  { induction rest as [|exc rest IH]; intros seen g0 Hg Hfold.
    - cbn [fold_left] in Hfold. injection Hfold as <-. now rewrite app_nil_r.
    - cbn [fold_left] in Hfold.
      destruct (ExceptionHandler.groupStep (Returns g0) exc) as [g1|msg] eqn:Hstep.
      + replace (seen ++ exc :: rest) with ((seen ++ [exc]) ++ rest)
          by (rewrite <- app_assoc; reflexivity).
        apply (IH _ g1); [|exact Hfold].
        eapply groupStep_groups; eassumption.
      + rewrite fold_groupStep_throws in Hfold. discriminate. }
  intros Hfold. apply (Hgen exceptions [] []); [|exact Hfold].
  intros s. reflexivity.
Qed.

(** [Object.keys] lists exactly the own keys. *)
Lemma insertIndex_perm (k : string) (sorted : list string) :
  Permutation (insertIndex k sorted) (k :: sorted).
Proof.
  induction sorted as [|k' rest IH]; cbn [insertIndex]; [reflexivity|].
  destruct (arrayIndex k) as [v|]; [|reflexivity].
  destruct (arrayIndex k') as [v'|]; [|reflexivity].
  destruct (v <=? v'); [reflexivity|].
  rewrite IH. apply perm_swap.
Qed.

Lemma insertion_perm (l : list string) :
  Permutation (fold_right insertIndex [] l) l.
Proof.
  induction l as [|k l IH]; cbn [fold_right]; [reflexivity|].
  rewrite insertIndex_perm. now constructor.
Qed.

Lemma filter_split_perm {A} (f : A -> bool) (l : list A) :
  Permutation (filter f l ++ filter (fun x => negb (f x)) l) l.
Proof.
  induction l as [|x l IH]; cbn [filter]; [reflexivity|].
  destruct (f x); cbn [negb app].
  - now constructor.
  - rewrite <- Permutation_middle. now constructor.
Qed.

Lemma keys_perm {A} (o : JsObject A) : Permutation (keys o) (map fst o).
Proof.
  unfold keys. rewrite insertion_perm. apply filter_split_perm.
Qed.

Lemma applyExceptions_groupable_returns
    (r : Result.t) (exc : Exc.t) (excs : list Exc.t) (checklistId : option string) :
  groupable (exc :: excs) ->
  exists r' bySection,
    ExceptionHandler.applyExceptions r (Some (exc :: excs)) checklistId = Returns r' /\
    ExceptionHandler.groupExceptionsBySection (exc :: excs) = Returns bySection /\
    groupedFrom (exc :: excs) bySection /\
    Result.exceptionInfo r' =
      Some (Info.mk true checklistId (List.length (exc :: excs))
              (Result.overallScore r) (Result.overallScore r')
              (Result.overallScore r' - Result.overallScore r)
              (keys bySection)).
Proof.
  intros Hsafe.
  destruct (groupExceptionsBySection_returns _ Hsafe) as (bySection & Hgroup & Hinv).
  unfold ExceptionHandler.applyExceptions. rewrite Hgroup. cbn [bind].
  eexists. exists bySection.
  split; [reflexivity|]. split; [reflexivity|]. split; [exact Hinv | reflexivity].
Qed.

(** C4, the claim at a concrete input: a request without section and a
    request for a section the result does not have.  Both group keys are
    listed in [sections]; the claim allows neither. *)
Lemma C4_other_bucket_counterexample :
  exists r' info,
    ExceptionHandler.applyExceptions (resultWith 14 twoStyles) (Some strayRequests) None
      = Returns r' /\
    Result.exceptionInfo r' = Some info /\
    Info.sections info = ["기타"; "푸터"] /\
    claimedSections strayRequests = [] /\
    ~ (forall s, In s (Info.sections info) <-> In s (claimedSections strayRequests)).
Proof.
  eexists. eexists. split; [vm_compute; reflexivity|].
  split; [reflexivity|]. split; [reflexivity|]. split; [reflexivity|].
  intros H. apply (H "기타"). now left.
Qed.

Lemma groupable_dec (exceptions : list Exc.t) :
  {groupable exceptions} + {~ groupable exceptions}.
Proof.
  apply Forall_dec. intros e. apply bool_dec.
Qed.

(** The override returns exactly when the requests can be grouped. *)
Lemma applyExceptions_returns_groupable
    (r : Result.t) (exc : Exc.t) (excs : list Exc.t)
    (checklistId : option string) (r' : Result.t) :
  ExceptionHandler.applyExceptions r (Some (exc :: excs)) checklistId = Returns r' ->
  groupable (exc :: excs).
Proof.
  intros Hret. destruct (groupable_dec (exc :: excs)) as [Hsafe|Hbad]; [exact Hsafe|].
  apply applyExceptions_returns_inv in Hret. destruct Hret as (b & Hgroup & _).
  destruct (groupExceptionsBySection_throws _ Hbad) as (msg & Hthrow).
  congruence.
Qed.

(** C4, amended.  For at least one request: in every result the override
    returns, the [sections] field lists, each once, every section name some
    request resolves to: the four recognized names, the bucket "기타" of
    requests without section, and names the result has no section for,
    whether or not any item matched.  The override does return when no
    request names an inherited object property. *)
Theorem C4_sections_are_group_keys :
  forall (r : Result.t) (exceptions : list Exc.t) (checklistId : option string),
    exceptions <> [] ->
    (groupable exceptions ->
     exists r', ExceptionHandler.applyExceptions r (Some exceptions) checklistId
                = Returns r') /\
    (forall r',
       ExceptionHandler.applyExceptions r (Some exceptions) checklistId = Returns r' ->
       exists info,
         Result.exceptionInfo r' = Some info /\
         NoDup (Info.sections info) /\
         forall s, In s (Info.sections info)
                   <-> exists e, In e exceptions /\ resolvedSection e = s).
Proof.
  intros r exceptions checklistId Hne.
  destruct exceptions as [|exc excs]; [congruence|]. split.
  - intros Hsafe.
    destruct (applyExceptions_groupable_returns r exc excs checklistId Hsafe)
      as (r' & _ & Hret & _).
    now exists r'.
  - intros r' Hret.
    pose proof (applyExceptions_returns_groupable _ _ _ _ _ Hret) as Hsafe.
    destruct (applyExceptions_groupable_returns r exc excs checklistId Hsafe)
      as (r0 & bySection & Hret0 & _ & [Hnd Hkeys] & Hinfo).
    assert (r0 = r') by congruence. subst r0.
    eexists. split; [exact Hinfo|]. cbn [Info.sections]. split.
    + eapply Permutation_NoDup; [symmetry; apply keys_perm | exact Hnd].
    + intros s. rewrite <- Hkeys. split; apply Permutation_in.
      * apply keys_perm.
      * symmetry. apply keys_perm.
Qed.

Lemma C4_sections_are_group_keys_witness :
  exists r' info,
    ExceptionHandler.applyExceptions (resultWith 14 twoStyles) (Some strayRequests) None
      = Returns r' /\
    Result.exceptionInfo r' = Some info /\
    NoDup (Info.sections info) /\
    forall s, In s (Info.sections info)
              <-> exists e, In e strayRequests /\ resolvedSection e = s.
Proof.
  destruct (C4_sections_are_group_keys (resultWith 14 twoStyles) strayRequests None)
    as [Hreturns Hsections]; [discriminate|].
  destruct Hreturns as (r' & Hret); [repeat constructor|].
  destruct (Hsections r' Hret) as (info & Hinfo).
  exists r', info. split; [exact Hret | exact Hinfo].
Defined.

(** ** The compliance score after an override *)

(** The sections after the override, field by field. *)
Lemma adjustSections_fields (bySection : JsObject (list Exc.t)) (r : Result.t) :
  ExceptionHandler.adjustSections bySection r =
  Result.mk (Result.url r) (Result.viewport r) (Result.timestamp r)
    (Result.executionTime r) (Result.overallScore r)
    (overrideSection bySection "디자인 스타일" ExceptionHandler.KCategory (Result.designStyles r))
    (overrideSection bySection "컴포넌트" ExceptionHandler.KType (Result.components r))
    (overrideSection bySection "기본 패턴" ExceptionHandler.KName (Result.basicPatterns r))
    (overrideSection bySection "서비스 패턴" ExceptionHandler.KName (Result.servicePatterns r))
    (Result.axeResults r) (Result.kwcagReport r)
    (option_map (ExceptionHandler.adjustKrds bySection) (Result.krdsCompliance r))
    (Result.exceptionInfo r).
Proof.
  destruct r as [url viewport timestamp executionTime overallScore
                 designStyles components basicPatterns servicePatterns
                 axe kwcag krds info].
  unfold ExceptionHandler.adjustSections, overrideSection.
  cbn [Result.url Result.viewport Result.timestamp Result.executionTime
       Result.overallScore Result.designStyles Result.components
       Result.basicPatterns Result.servicePatterns Result.axeResults
       Result.kwcagReport Result.krdsCompliance Result.exceptionInfo].
  destruct (ExceptionHandler.groupOf bySection "디자인 스타일"),
           (ExceptionHandler.groupOf bySection "컴포넌트"),
           (ExceptionHandler.groupOf bySection "기본 패턴"),
           (ExceptionHandler.groupOf bySection "서비스 패턴"),
           designStyles, components, basicPatterns, servicePatterns, krds;
    reflexivity.
Qed.

Lemma adjustSections_krds (bySection : JsObject (list Exc.t)) (r : Result.t) :
  Result.krdsCompliance (ExceptionHandler.adjustSections bySection r)
  = option_map (ExceptionHandler.adjustKrds bySection) (Result.krdsCompliance r).
Proof.
  rewrite adjustSections_fields. reflexivity.
Qed.

Lemma adjustKrds_fields (bySection : JsObject (list Exc.t)) (k : Krds.t) :
  ExceptionHandler.adjustKrds bySection k =
  Krds.mk (Krds.score k)
    (overrideTokens bySection (Krds.designTokensDetail k))
    (overrideSection bySection "컴포넌트" ExceptionHandler.KType (Krds.krdsComponents k))
    (Krds.basicPatterns k) (Krds.servicePatterns k).
Proof.
  destruct k as [score tokens comps basic service].
  unfold ExceptionHandler.adjustKrds, overrideTokens, overrideSection.
  cbn [Krds.score Krds.designTokensDetail Krds.krdsComponents Krds.basicPatterns
       Krds.servicePatterns].
  destruct (ExceptionHandler.groupOf bySection "디자인 스타일"),
           (ExceptionHandler.groupOf bySection "컴포넌트"), tokens, comps;
    reflexivity.
Qed.

Lemma adjustKrds_keeps_score (bySection : JsObject (list Exc.t)) (k : Krds.t) :
  Krds.score (ExceptionHandler.adjustKrds bySection k) = Krds.score k.
Proof.
  rewrite adjustKrds_fields. reflexivity.
Qed.

(** The override leaves [krdsCompliance.score] as it was. *)
Lemma adjustSections_keeps_krds_score (bySection : JsObject (list Exc.t)) (r : Result.t) :
  option_map Krds.score (Result.krdsCompliance (ExceptionHandler.adjustSections bySection r))
  = option_map Krds.score (Result.krdsCompliance r).
Proof.
  rewrite adjustSections_krds. destruct (Result.krdsCompliance r) as [k|]; cbn [option_map].
  - now rewrite adjustKrds_keeps_score.
  - reflexivity.
Qed.

Lemma applyExceptions_keeps_krds_score
    (r : Result.t) (exceptions : option (list Exc.t)) (checklistId : option string)
    (r' : Result.t) :
  ExceptionHandler.applyExceptions r exceptions checklistId = Returns r' ->
  option_map Krds.score (Result.krdsCompliance r')
  = option_map Krds.score (Result.krdsCompliance r).
Proof.
  destruct exceptions as [[|exc excs]|]; try (intros [= <-]; reflexivity).
  intros Hret. apply applyExceptions_returns_inv in Hret.
  destruct Hret as (bySection & _ & ->). apply adjustSections_keeps_krds_score.
Qed.

(** The assembly of the analyzer stores the overall score in both fields. *)
Lemma performKRDSAnalysis_scores_agree
    (designStyles components basicPatterns servicePatterns : list Item.t)
    (axe : Axe.t) (kwcag : Kwcag.t) (tokens : JsObject Token.t) (r : Result.t) :
  Analyzer.performKRDSAnalysis designStyles components basicPatterns servicePatterns
    axe kwcag tokens = Some r ->
  option_map Krds.score (Result.krdsCompliance r) = Some (Result.overallScore r).
Proof.
  unfold Analyzer.performKRDSAnalysis.
  destruct (Analyzer.calculateOverallScore _); [|discriminate].
  destruct (Analyzer.calculateCategoryScore (Some basicPatterns)); [|discriminate].
  destruct (Analyzer.calculateCategoryScore (Some servicePatterns)); [|discriminate].
  intros [= <-]. reflexivity.
Qed.

(** C2, the override at a concrete input: design styles with scores 40 and
    70 in a consistent result (both scores 14, the mean of 55, 0, 0 and 0),
    and an exception for the first item.  The recomputed overall score is
    85; [krdsCompliance.score] still holds 14. *)
Theorem C2_krds_score_left_stale :
  Analyzer.calculateOverallScore (sectionsOfResult (resultWith 14 twoStyles)) = Some 14 /\
  exists r',
    ExceptionHandler.applyExceptions (resultWith 14 twoStyles)
      (Some [request "colors" "디자인 스타일" (Some "agency exemption")])
      (Some "template-123") = Returns r' /\
    Result.overallScore r' = 85 /\
    option_map Krds.score (Result.krdsCompliance r') = Some 14 /\
    option_map Krds.score (Result.krdsCompliance r') <> Some (Result.overallScore r').
Proof.
  split; [reflexivity|].
  eexists. split; [vm_compute; reflexivity|].
  split; [reflexivity|]. split; [reflexivity|]. discriminate.
Qed.

(** ** Monotonicity of the override *)

Lemma roundedMean_mono (xs ys : list Z) :
  Forall2 Z.le xs ys -> roundedMean xs <= roundedMean ys.
Proof.
  intros H. pose proof (sumZ_le _ _ H) as Hsum.
  pose proof (Forall2_length H) as Hlen.
  destruct H as [|x y xs ys Hxy Hrest]; [simpl; lia|].
  unfold roundedMean. rewrite Hlen.
  apply Math_round_div_mono; cbn [List.length]; nia.
Qed.

Lemma contribution_range (item : Item.t) :
  wellFormedItem item ->
  scoreOf item <= ExceptionHandler.contribution item <= 100.
Proof.
  intros [(n & Hs & Hn) Hc]. unfold scoreOf. rewrite Hs.
  destruct (Z.eq_dec n 0) as [->|Hne].
  - rewrite contribution_falsy by (rewrite Hs; reflexivity).
    destruct (Item.compliance item) as [| |b|c|s] eqn:Hcomp; try lia.
    specialize (Hc c Hcomp). lia.
  - rewrite (contribution_nonzero item n Hs Hne). lia.
Qed.

Lemma contribution_adjustItem (exceptions : list Exc.t) (excludedKeys : list string)
    (keyField : ExceptionHandler.KeyField) (item : Item.t) :
  wellFormedItem item ->
  ExceptionHandler.contribution item
  <= ExceptionHandler.contribution
       (ExceptionHandler.adjustItem exceptions excludedKeys keyField item).
Proof.
  intros Hwf. unfold ExceptionHandler.adjustItem.
  destruct (includes excludedKeys (ExceptionHandler.itemKeyOf keyField item)); [|lia].
  change (ExceptionHandler.contribution (Item.mk _ _ _ _ (JNum 100) _ _ _ _ _ _)) with 100.
  apply contribution_range. exact Hwf.
Qed.

(** A section and what the override makes of it hold the same number of
    items, each contributing at least what it did. *)
Lemma overrideSection_cases (bySection : JsObject (list Exc.t)) (name : string)
    (keyField : ExceptionHandler.KeyField) (section : option (list Item.t)) :
  overrideSection bySection name keyField section = section \/
  exists group items,
    section = Some items /\
    overrideSection bySection name keyField section
    = Some (map (ExceptionHandler.adjustItem group
                   (ExceptionHandler.excludedKeysOf group) keyField) items).
Proof.
  unfold overrideSection.
  destruct (ExceptionHandler.groupOf bySection name) as [group|]; [|now left].
  destruct section as [items|]; [|now left].
  right. exists group, items. split; [reflexivity | apply adjustSection_map].
Qed.

Lemma aggregate_override_mono (bySection : JsObject (list Exc.t)) (name : string)
    (keyField : ExceptionHandler.KeyField) (section : option (list Item.t)) :
  wellFormedSection section ->
  Forall2 Z.le (aggregateIfPresent section)
               (aggregateIfPresent (overrideSection bySection name keyField section)).
Proof.
  intros Hwf.
  destruct (overrideSection_cases bySection name keyField section)
    as [-> | (group & items & -> & ->)].
  - destruct section as [[|item rest]|]; repeat constructor. lia.
  - specialize (Hwf items eq_refl).
    destruct items as [|item rest]; [constructor|].
    cbn [map aggregateIfPresent]. constructor; [|constructor].
    change (ExceptionHandler.adjustItem group (ExceptionHandler.excludedKeysOf group)
              keyField item
            :: map (ExceptionHandler.adjustItem group
                      (ExceptionHandler.excludedKeysOf group) keyField) rest)
      with (map (ExceptionHandler.adjustItem group
                   (ExceptionHandler.excludedKeysOf group) keyField) (item :: rest)).
    rewrite !handler_category_mean. apply roundedMean_mono.
    rewrite map_map. set (l := item :: rest) in *. clearbody l.
    induction Hwf as [|x l Hx _ IH]; cbn [map]; constructor; [|exact IH].
    apply contribution_adjustItem. exact Hx.
Qed.

Lemma aggregate_present_range (section : option (list Item.t)) :
  wellFormedSection section ->
  Forall (fun x => 0 <= x <= 100) (aggregateIfPresent section).
Proof.
  intros Hwf. destruct section as [[|item rest]|]; try constructor; [|constructor].
  specialize (Hwf _ eq_refl). rewrite handler_category_mean.
  apply roundedMean_range. apply Forall_map.
  eapply Forall_impl; [|exact Hwf]. intros x Hx.
  pose proof (contribution_range x Hx) as Hc.
  destruct Hx as [Hs _]. apply scoreOf_range in Hs. lia.
Qed.

(** The analyzer's aggregate of a well-formed section is at most the
    handler's aggregate of the section when it holds an item, and 0 when it
    does not. *)
Lemma analyzer_aggregate_below (section : option (list Item.t)) :
  wellFormedSection section ->
  exists a, Analyzer.calculateCategoryScore section = Some a /\
            0 <= a <= sumZ (aggregateIfPresent section).
Proof.
  intros Hwf. destruct section as [[|item rest]|];
    [exists 0; split; [reflexivity | simpl; lia] | | exists 0; split; [reflexivity | simpl; lia]].
  specialize (Hwf _ eq_refl).
  assert (Hscores : Forall scoreInRange (item :: rest)).
  { eapply Forall_impl; [|exact Hwf]. intros x [Hx _]. exact Hx. }
  exists (roundedMean (map scoreOf (item :: rest))).
  split; [apply analyzer_category_mean; exact Hscores|].
  split; [apply roundedMean_scores_range; exact Hscores|].
  cbn [aggregateIfPresent sumZ]. rewrite handler_category_mean, Z.add_0_r.
  apply roundedMean_mono. set (l := item :: rest) in *. clearbody l.
  induction Hwf as [|x l Hx _ IH]; cbn [map]; constructor.
  - apply contribution_range. exact Hx.
  - apply IH. now inversion Hscores.
Qed.

Lemma aggregateIfPresent_length (section : option (list Item.t)) :
  (List.length (aggregateIfPresent section) <= 1)%nat.
Proof.
  destruct section as [[|item rest]|]; simpl; lia.
Qed.

(** The mean over four aggregates with zeros for empty sections is at most
    the mean over the aggregates that are present. *)
Lemma mean_of_four_below (total : Z) (present : list Z) :
  0 <= total <= sumZ present -> (List.length present <= 4)%nat ->
  Math_round_div total 4 <= roundedMean present.
Proof.
  intros Htotal Hlen. destruct present as [|x rest].
  - simpl in *. assert (total = 0) by lia. subst. vm_compute. discriminate.
  - unfold roundedMean. cbn [List.length] in *.
    apply Math_round_div_mono; [lia | lia | nia].
Qed.

Lemma fourSections_adjustSections (bySection : JsObject (list Exc.t)) (r : Result.t) :
  fourSections (ExceptionHandler.adjustSections bySection r) =
  [overrideSection bySection "디자인 스타일" ExceptionHandler.KCategory (Result.designStyles r);
   overrideSection bySection "컴포넌트" ExceptionHandler.KType (Result.components r);
   overrideSection bySection "기본 패턴" ExceptionHandler.KName (Result.basicPatterns r);
   overrideSection bySection "서비스 패턴" ExceptionHandler.KName (Result.servicePatterns r)].
Proof.
  rewrite adjustSections_fields. reflexivity.
Qed.

Lemma adjustSections_monotone (bySection : JsObject (list Exc.t)) (r : Result.t) :
  wellFormedResult r -> consistent r ->
  Result.overallScore r
  <= ExceptionHandler.calculateOverallScore (ExceptionHandler.adjustSections bySection r).
Proof.
  intros Hwf Hcons. rewrite handler_overall_mean.
  unfold presentAggregates. rewrite fourSections_adjustSections.
  unfold wellFormedResult, fourSections in Hwf.
  inversion_clear Hwf as [|? ? W1 Hwf2]. inversion_clear Hwf2 as [|? ? W2 Hwf3].
  inversion_clear Hwf3 as [|? ? W3 Hwf4]. inversion_clear Hwf4 as [|? ? W4 _].
  pose proof (aggregate_override_mono bySection "디자인 스타일" ExceptionHandler.KCategory _ W1) as M1.
  pose proof (aggregate_override_mono bySection "컴포넌트" ExceptionHandler.KType _ W2) as M2.
  pose proof (aggregate_override_mono bySection "기본 패턴" ExceptionHandler.KName _ W3) as M3.
  pose proof (aggregate_override_mono bySection "서비스 패턴" ExceptionHandler.KName _ W4) as M4.
  cbn [flat_map]. rewrite app_nil_r.
  set (p1 := aggregateIfPresent (overrideSection _ "디자인 스타일" _ _)) in *.
  set (p2 := aggregateIfPresent (overrideSection _ "컴포넌트" _ _)) in *.
  set (p3 := aggregateIfPresent (overrideSection _ "기본 패턴" _ _)) in *.
  set (p4 := aggregateIfPresent (overrideSection _ "서비스 패턴" _ _)) in *.
  destruct Hcons as [Hcons|Hcons].
  - destruct (analyzer_aggregate_below _ W1) as (a1 & E1 & B1).
    destruct (analyzer_aggregate_below _ W2) as (a2 & E2 & B2).
    destruct (analyzer_aggregate_below _ W3) as (a3 & E3 & B3).
    destruct (analyzer_aggregate_below _ W4) as (a4 & E4 & B4).
    unfold Analyzer.calculateOverallScore, sectionsOfResult in Hcons.
    cbn [Sections.designStyles Sections.components Sections.basicPatterns
         Sections.servicePatterns] in Hcons.
    rewrite E1, E2, E3, E4 in Hcons. injection Hcons as <-.
    apply sumZ_le in M1, M2, M3, M4.
    apply mean_of_four_below.
    + rewrite !sumZ_app. lia.
    + rewrite !length_app.
      pose proof (Forall2_length (aggregate_override_mono bySection "디자인 스타일"
                                    ExceptionHandler.KCategory _ W1)) as L1.
      pose proof (Forall2_length (aggregate_override_mono bySection "컴포넌트"
                                    ExceptionHandler.KType _ W2)) as L2.
      pose proof (Forall2_length (aggregate_override_mono bySection "기본 패턴"
                                    ExceptionHandler.KName _ W3)) as L3.
      pose proof (Forall2_length (aggregate_override_mono bySection "서비스 패턴"
                                    ExceptionHandler.KName _ W4)) as L4.
      fold p1 in L1. fold p2 in L2. fold p3 in L3. fold p4 in L4.
      pose proof (aggregateIfPresent_length (Result.designStyles r)).
      pose proof (aggregateIfPresent_length (Result.components r)).
      pose proof (aggregateIfPresent_length (Result.basicPatterns r)).
      pose proof (aggregateIfPresent_length (Result.servicePatterns r)).
      lia.
  - rewrite <- Hcons, handler_overall_mean. unfold presentAggregates, fourSections.
    cbn [flat_map]. rewrite app_nil_r. apply roundedMean_mono.
    repeat apply Forall2_app; assumption.
Qed.

(** What the analyzer assembles from well-formed items is well formed and
    consistent. *)
Lemma performKRDSAnalysis_consistent
    (designStyles components basicPatterns servicePatterns : list Item.t)
    (axe : Axe.t) (kwcag : Kwcag.t) (tokens : JsObject Token.t) (r : Result.t) :
  Analyzer.performKRDSAnalysis designStyles components basicPatterns servicePatterns
    axe kwcag tokens = Some r ->
  consistent r /\
  (Forall wellFormedItem designStyles -> Forall wellFormedItem components ->
   Forall wellFormedItem basicPatterns -> Forall wellFormedItem servicePatterns ->
   wellFormedResult r).
Proof.
  unfold Analyzer.performKRDSAnalysis.
  destruct (Analyzer.calculateOverallScore _) as [overall|] eqn:Hoverall; [|discriminate].
  destruct (Analyzer.calculateCategoryScore (Some basicPatterns)); [|discriminate].
  destruct (Analyzer.calculateCategoryScore (Some servicePatterns)); [|discriminate].
  intros [= <-]. split.
  - left. exact Hoverall.
  - intros H1 H2 H3 H4. unfold wellFormedResult, fourSections.
    cbn [Result.designStyles Result.components Result.basicPatterns Result.servicePatterns].
    repeat (constructor; [intros items [= <-]; assumption|]). constructor.
Qed.

(** C6.  For a result whose items are well formed and whose overall score is
    the one computed from its sections, and for at least one request: every
    result the override returns records the input's overall score as
    [originalScore] and the recomputed one as [adjustedScore], and the
    adjusted score is not below the original one, whether or not a request
    matches an item; the override does return when no request names an
    inherited object property. *)
Theorem C6_override_is_monotone :
  forall (r : Result.t) (exceptions : list Exc.t) (checklistId : option string),
    wellFormedResult r -> consistent r -> exceptions <> [] ->
    (groupable exceptions ->
     exists r', ExceptionHandler.applyExceptions r (Some exceptions) checklistId
                = Returns r') /\
    (forall r',
       ExceptionHandler.applyExceptions r (Some exceptions) checklistId = Returns r' ->
       exists info,
         Result.exceptionInfo r' = Some info /\
         Info.originalScore info = Result.overallScore r /\
         Info.adjustedScore info = Result.overallScore r' /\
         Info.originalScore info <= Info.adjustedScore info).
Proof.
  intros r exceptions checklistId Hwf Hcons Hne.
  destruct exceptions as [|exc excs]; [congruence|]. split.
  - intros Hsafe.
    destruct (applyExceptions_groupable_returns r exc excs checklistId Hsafe)
      as (r' & _ & Hret & _).
    now exists r'.
  - intros r' Hret.
    apply applyExceptions_returns_inv in Hret. destruct Hret as (b & _ & ->).
    eexists. split; [reflexivity|].
    cbn [Info.originalScore Info.adjustedScore ExceptionHandler.setExceptionInfo
         ExceptionHandler.setOverallScore Result.overallScore].
    split; [reflexivity|]. split; [reflexivity|].
    apply adjustSections_monotone; assumption.
Qed.

Lemma C6_override_is_monotone_witness :
  exists r' info,
    ExceptionHandler.applyExceptions (resultWith 14 twoStyles) (Some [colorsRequest])
      (Some "template-123") = Returns r' /\
    Result.exceptionInfo r' = Some info /\
    Info.originalScore info = 14 /\
    Info.adjustedScore info = Result.overallScore r' /\
    Info.originalScore info <= Info.adjustedScore info.
Proof.
  destruct (C6_override_is_monotone (resultWith 14 twoStyles) [colorsRequest]
              (Some "template-123")) as [Hreturns Hmonotone].
  - unfold wellFormedResult, fourSections. simpl.
    repeat (constructor;
            [intros items [= <-];
             repeat (constructor;
                     [split; [eexists; split; [reflexivity | lia]
                             | intros c [= <-]; lia] |]);
             constructor |]).
    constructor.
  - left. reflexivity.
  - discriminate.
  - destruct Hreturns as (r' & Hret); [repeat constructor|].
    destruct (Hmonotone r' Hret) as (info & Hinfo).
    exists r', info. split; [exact Hret | exact Hinfo].
Defined.

(** ** Repeating an override *)

Lemma adjustItem_idempotent (exceptions : list Exc.t) (excludedKeys : list string)
    (keyField : ExceptionHandler.KeyField) (item : Item.t) :
  ExceptionHandler.adjustItem exceptions excludedKeys keyField
    (ExceptionHandler.adjustItem exceptions excludedKeys keyField item)
  = ExceptionHandler.adjustItem exceptions excludedKeys keyField item.
Proof.
  unfold ExceptionHandler.adjustItem at 2.
  destruct (includes excludedKeys (ExceptionHandler.itemKeyOf keyField item)) eqn:Hinc.
  - unfold ExceptionHandler.adjustItem.
    assert (Hkey : forall i, ExceptionHandler.itemKeyOf keyField
                     (Item.mk (Item.category item) (Item.type item) (Item.name item)
                        (Item.englishName item) (JNum 100) i (Some [])
                        (Item.krdsUrl item) (Item.count item) (Some true)
                        (Some (ExceptionHandler.exclusionReasonOf exceptions
                                 (ExceptionHandler.itemKeyOf keyField item))))
                   = ExceptionHandler.itemKeyOf keyField item).
    { intros i. destruct keyField; reflexivity. }
    rewrite Hkey, Hinc.
    cbn [Item.category Item.type Item.name Item.englishName Item.compliance
         Item.krdsUrl Item.count].
    destruct (Item.compliance item); reflexivity.
  - unfold ExceptionHandler.adjustItem. rewrite Hinc. reflexivity.
Qed.

Lemma adjustSection_idempotent (section : option (list Item.t))
    (group : list Exc.t) (keyField : ExceptionHandler.KeyField) :
  ExceptionHandler.adjustSection
    (ExceptionHandler.adjustSection section group keyField) group keyField
  = ExceptionHandler.adjustSection section group keyField.
Proof.
  destruct section as [items|]; [|reflexivity].
  rewrite !adjustSection_map, map_map. f_equal.
  apply map_ext. intros item. apply adjustItem_idempotent.
Qed.

Lemma overrideSection_idempotent (bySection : JsObject (list Exc.t)) (name : string)
    (keyField : ExceptionHandler.KeyField) (section : option (list Item.t)) :
  overrideSection bySection name keyField
    (overrideSection bySection name keyField section)
  = overrideSection bySection name keyField section.
Proof.
  unfold overrideSection.
  destruct (ExceptionHandler.groupOf bySection name) as [group|]; [|reflexivity].
  destruct section as [items|]; [|reflexivity].
  destruct (ExceptionHandler.adjustSection (Some items) group keyField) as [items'|] eqn:E;
    [|reflexivity].
  rewrite <- E. apply adjustSection_idempotent.
Qed.

Lemma adjustDesignTokensDetail_idempotent (detail : option (JsObject Token.t))
    (group : list Exc.t) :
  ExceptionHandler.adjustDesignTokensDetail
    (ExceptionHandler.adjustDesignTokensDetail detail group) group
  = ExceptionHandler.adjustDesignTokensDetail detail group.
Proof.
  destruct detail as [d|]; [|reflexivity].
  unfold ExceptionHandler.adjustDesignTokensDetail. rewrite map_map. f_equal.
  apply map_ext. intros [k t]. cbn [fst].
  destruct (includes (ExceptionHandler.excludedKeysOf group) k) eqn:Hk; cbn [fst];
    rewrite Hk; reflexivity.
Qed.

Lemma overrideTokens_idempotent (bySection : JsObject (list Exc.t))
    (detail : option (JsObject Token.t)) :
  overrideTokens bySection (overrideTokens bySection detail)
  = overrideTokens bySection detail.
Proof.
  unfold overrideTokens.
  destruct (ExceptionHandler.groupOf bySection "디자인 스타일") as [group|]; [|reflexivity].
  destruct detail as [d|]; [|reflexivity].
  destruct (ExceptionHandler.adjustDesignTokensDetail (Some d) group) as [d'|] eqn:E;
    [|reflexivity].
  rewrite <- E. apply adjustDesignTokensDetail_idempotent.
Qed.

Lemma adjustKrds_idempotent (bySection : JsObject (list Exc.t)) (k : Krds.t) :
  ExceptionHandler.adjustKrds bySection (ExceptionHandler.adjustKrds bySection k)
  = ExceptionHandler.adjustKrds bySection k.
Proof.
  rewrite !adjustKrds_fields.
  cbn [Krds.score Krds.designTokensDetail Krds.krdsComponents Krds.basicPatterns
       Krds.servicePatterns].
  now rewrite overrideTokens_idempotent, overrideSection_idempotent.
Qed.

Lemma adjustSections_idempotent (bySection : JsObject (list Exc.t)) (r : Result.t)
    (score : Z) (info : option Info.t) :
  ExceptionHandler.adjustSections bySection
    (ExceptionHandler.setExceptionInfo
       (ExceptionHandler.setOverallScore
          (ExceptionHandler.adjustSections bySection r) score) info)
  = ExceptionHandler.setExceptionInfo
      (ExceptionHandler.setOverallScore
         (ExceptionHandler.adjustSections bySection r) score) info.
Proof.
  rewrite (adjustSections_fields bySection (ExceptionHandler.setExceptionInfo _ _)).
  rewrite (adjustSections_fields bySection r).
  cbn [ExceptionHandler.setExceptionInfo ExceptionHandler.setOverallScore
       Result.url Result.viewport Result.timestamp Result.executionTime
       Result.overallScore Result.designStyles Result.components
       Result.basicPatterns Result.servicePatterns Result.axeResults
       Result.kwcagReport Result.krdsCompliance Result.exceptionInfo].
  rewrite !overrideSection_idempotent.
  destruct (Result.krdsCompliance r) as [k|]; cbn [option_map];
    [rewrite adjustKrds_idempotent|]; reflexivity.
Qed.

(** C7, the claim at a concrete input: the scenario's design styles and its
    request, applied once and then again to the adjusted result.  The second
    audit record starts from the adjusted score: [originalScore] is 85
    instead of 14 and [scoreDifference] is 0 instead of 71, so the two
    results differ. *)
Lemma C7_second_audit_counterexample :
  exists r1 r2 info1 info2,
    ExceptionHandler.applyExceptions (resultWith 14 twoStyles) (Some [colorsRequest])
      (Some "template-123") = Returns r1 /\
    ExceptionHandler.applyExceptions r1 (Some [colorsRequest])
      (Some "template-123") = Returns r2 /\
    Result.exceptionInfo r1 = Some info1 /\
    Result.exceptionInfo r2 = Some info2 /\
    (Info.originalScore info1, Info.adjustedScore info1, Info.scoreDifference info1)
      = (14, 85, 71) /\
    (Info.originalScore info2, Info.adjustedScore info2, Info.scoreDifference info2)
      = (85, 85, 0) /\
    r2 <> r1.
Proof.
  eexists. eexists. eexists. eexists.
  split; [vm_compute; reflexivity|].
  split; [vm_compute; reflexivity|].
  split; [reflexivity|]. split; [reflexivity|].
  split; [reflexivity|]. split; [reflexivity|].
  intros H. apply (f_equal Result.exceptionInfo) in H.
  apply (f_equal (option_map Info.scoreDifference)) in H.
  vm_compute in H. discriminate H.
Qed.

(** C7, amended.  Applying the override a second time with the same requests
    to the adjusted result changes nothing but the audit record: every
    section, the overall score, the compliance details and the fields
    [applied], [checklistId], [totalExceptions], [adjustedScore] and
    [sections] are those of the first application, while [originalScore]
    becomes the adjusted score and [scoreDifference] becomes 0.  With no
    request both applications return the input, and when the first
    application throws there is no second one. *)
Theorem C7_override_twice :
  forall (r : Result.t) (exceptions : option (list Exc.t)) (checklistId : option string),
    bind (ExceptionHandler.applyExceptions r exceptions checklistId)
         (fun r1 => ExceptionHandler.applyExceptions r1 exceptions checklistId)
    = bind (ExceptionHandler.applyExceptions r exceptions checklistId)
           (fun r1 => Returns (overriddenAgain exceptions r1)).
Proof.
  intros r exceptions checklistId.
  destruct exceptions as [[|exc excs]|]; try reflexivity.
  unfold ExceptionHandler.applyExceptions, ExceptionHandler.jsonClone.
  destruct (ExceptionHandler.groupExceptionsBySection (exc :: excs)) as [b|e];
    cbn [bind]; [|reflexivity].
  cbv zeta. rewrite adjustSections_idempotent.
  unfold overriddenAgain, secondAudit.
  cbn [ExceptionHandler.setExceptionInfo ExceptionHandler.setOverallScore
       Result.url Result.viewport Result.timestamp Result.executionTime
       Result.overallScore Result.designStyles Result.components
       Result.basicPatterns Result.servicePatterns Result.axeResults
       Result.kwcagReport Result.krdsCompliance Result.exceptionInfo
       option_map Info.applied Info.checklistId Info.totalExceptions
       Info.adjustedScore Info.sections].
  rewrite handler_overall_ignores_info, handler_overall_ignores_score, Z.sub_diag.
  reflexivity.
Qed.


(** * Further properties of the code *)

(** ** Grouping *)

(** X1. When [groupExceptionsBySection] returns, every request sits in the
    group of the section it resolves to, and a group holds exactly the
    requests that resolve to its key, in the order they were given; no
    group is empty and no key occurs twice. *)
Theorem X1_groups_partition_requests :
  forall (exceptions : list Exc.t) (g : JsObject (list Exc.t)),
    ExceptionHandler.groupExceptionsBySection exceptions = Returns g ->
    (forall e, In e exceptions ->
       exists group, ownValue g (resolvedSection e) = Some group /\ In e group) /\
    (forall s group, ownValue g s = Some group ->
       group = requestsFor s exceptions /\ group <> []) /\
    NoDup (map fst g).
Proof.
  intros exceptions g Hret.
  pose proof (groupExceptionsBySection_groups _ _ Hret) as Hg.
  split; [|split].
  - intros e Hin. rewrite (Hg (resolvedSection e)).
    assert (Hmem : In e (requestsFor (resolvedSection e) exceptions)).
    { apply filter_In. split; [exact Hin | apply String.eqb_refl]. }
    destruct (requestsFor (resolvedSection e) exceptions) as [|e0 rest];
      [destruct Hmem|].
    eexists. split; [reflexivity | exact Hmem].
  - intros s group Hown. rewrite (Hg s) in Hown.
    destruct (requestsFor s exceptions) as [|e0 rest]; [discriminate|].
    injection Hown as <-. split; [reflexivity | discriminate].
  - destruct (groupable_dec exceptions) as [Hsafe|Hbad].
    + destruct (groupExceptionsBySection_returns _ Hsafe) as (g0 & Hret0 & Hnd & _).
      congruence.
    + destruct (groupExceptionsBySection_throws _ Hbad) as (msg & Hthrow). congruence.
Qed.

Lemma X1_groups_partition_requests_witness :
  exists g,
    ExceptionHandler.groupExceptionsBySection strayRequests = Returns g /\
    (forall e, In e strayRequests ->
       exists group, ownValue g (resolvedSection e) = Some group /\ In e group) /\
    (forall s group, ownValue g s = Some group ->
       group = requestsFor s strayRequests /\ group <> []) /\
    NoDup (map fst g).
Proof.
  eexists. split; [vm_compute; reflexivity|].
  apply (X1_groups_partition_requests strayRequests). vm_compute. reflexivity.
Defined.

(** X2. [applyExceptions] throws exactly when the list holds a request whose
    resolved section is the name of a property every object inherits (such
    as "constructor" or "toString"); the error is the TypeError of the
    failed [push]. *)
Theorem X2_override_throws_on_inherited_names :
  forall (r : Result.t) (exceptions : list Exc.t) (checklistId : option string),
    (exists e, In e exceptions /\ isInherited (resolvedSection e) = true)
    <-> ExceptionHandler.applyExceptions r (Some exceptions) checklistId
        = Throws "TypeError: grouped[section].push is not a function".
Proof.
  intros r exceptions checklistId. split.
  - intros (e & Hin & Hinh).
    assert (Hbad : ~ groupable exceptions).
    { intros Hsafe. unfold groupable in Hsafe. rewrite Forall_forall in Hsafe.
      specialize (Hsafe e Hin). congruence. }
    destruct exceptions as [|exc excs]; [destruct Hin|].
    destruct (groupExceptionsBySection_throws _ Hbad) as (msg & Hthrow).
    unfold ExceptionHandler.applyExceptions. rewrite Hthrow. cbn [bind].
    f_equal.
    (* the only message the loop can produce *)
    clear - Hthrow. unfold ExceptionHandler.groupExceptionsBySection in Hthrow.
    assert (Hgen : forall rest start,
               fold_left ExceptionHandler.groupStep rest start = Throws msg ->
               start = Throws msg \/
               msg = "TypeError: grouped[section].push is not a function").
    { induction rest as [|x rest IH]; intros start Hfold; [now left|].
      cbn [fold_left] in Hfold. destruct (IH _ Hfold) as [Hstep|Hmsg]; [|now right].
      destruct start as [g0|msg0]; [|left; exact Hstep].
      right. unfold ExceptionHandler.groupStep in Hstep. cbn [bind] in Hstep.
      destruct (getProp g0 (ExceptionHandler.sectionOf x)); try discriminate.
      now injection Hstep as <-. }
    destruct (Hgen _ _ Hthrow) as [Habs|Hmsg]; [discriminate | exact Hmsg].
  - intros Hthrow.
    destruct exceptions as [|exc excs]; [discriminate|].
    destruct (groupable_dec (exc :: excs)) as [Hsafe|Hbad].
    + destruct (applyExceptions_groupable_returns r exc excs checklistId Hsafe)
        as (r' & _ & Hret & _). congruence.
    + unfold groupable in Hbad. apply Exists_Forall_neg in Hbad.
      * apply Exists_exists in Hbad. destruct Hbad as (e & Hin & Hne).
        exists e. split; [exact Hin|]. now destruct (isInherited (resolvedSection e)).
      * intros e. destruct (isInherited (resolvedSection e)); [right | left]; congruence.
Qed.

Lemma X2_override_throws_on_inherited_names_witness :
  ExceptionHandler.applyExceptions (resultWith 14 twoStyles)
    (Some [colorsRequest; constructorRequest]) None
  = Throws "TypeError: grouped[section].push is not a function".
Proof.
  apply X2_override_throws_on_inherited_names.
  exists constructorRequest. split; [right; left; reflexivity | reflexivity].
Defined.

(** ** Design-token details *)

Lemma includes_keyRequested (exceptions : list Exc.t) (k : string) :
  includes (ExceptionHandler.excludedKeysOf exceptions) k = true
  <-> keyRequested exceptions k.
Proof.
  rewrite includes_In, excludedKeysOf_In. reflexivity.
Qed.

Lemma adjustDesignTokensDetail_keys (detail : option (JsObject Token.t))
    (exceptions : list Exc.t) :
  option_map (map fst) (ExceptionHandler.adjustDesignTokensDetail detail exceptions)
  = option_map (map fst) detail.
Proof.
  destruct detail as [d|]; [|reflexivity].
  unfold ExceptionHandler.adjustDesignTokensDetail. cbn [option_map]. apply f_equal.
  rewrite map_map. apply map_ext. intros [k t]. cbn [fst].
  destruct (includes _ k); reflexivity.
Qed.

(** X3. [adjustDesignTokensDetail] keeps the keys of the details and their
    order; the entry of a key that some request names (by a non-empty
    matching key) becomes the fixed compliant entry, every other entry is
    returned as it was; applying it again changes nothing. *)
Theorem X3_token_details_override :
  forall (detail : JsObject Token.t) (exceptions : list Exc.t),
  exists detail',
    ExceptionHandler.adjustDesignTokensDetail (Some detail) exceptions = Some detail' /\
    map fst detail' = map fst detail /\
    Forall2 (fun kv kv' =>
               (keyRequested exceptions (fst kv) -> snd kv' = compliantToken) /\
               (~ keyRequested exceptions (fst kv) -> kv' = kv))
            detail detail' /\
    ExceptionHandler.adjustDesignTokensDetail (Some detail') exceptions = Some detail'.
Proof.
  intros detail exceptions. eexists. split; [reflexivity|]. split; [|split].
  - pose proof (adjustDesignTokensDetail_keys (Some detail) exceptions) as Hkeys.
    now injection Hkeys.
  - induction detail as [|[k t] rest IH]; cbn [map]; constructor; [|exact IH].
    cbn [fst]. destruct (includes (ExceptionHandler.excludedKeysOf exceptions) k) eqn:Hk.
    + split; [reflexivity|]. intros Hn. apply includes_keyRequested in Hk. contradiction.
    + split; [|reflexivity]. intros Hy. apply includes_keyRequested in Hy. congruence.
  - exact (adjustDesignTokensDetail_idempotent (Some detail) exceptions).
Qed.

(** ** Routing of the requests *)

Lemma adjustItem_no_keys (exceptions : list Exc.t)
    (keyField : ExceptionHandler.KeyField) (item : Item.t) :
  ExceptionHandler.adjustItem exceptions [] keyField item = item.
Proof. reflexivity. Qed.

Lemma adjustSection_no_keys (section : option (list Item.t)) (exceptions : list Exc.t)
    (keyField : ExceptionHandler.KeyField) :
  ExceptionHandler.excludedKeysOf exceptions = [] ->
  ExceptionHandler.adjustSection section exceptions keyField = section.
Proof.
  intros Hkeys. destruct section as [items|]; [|reflexivity].
  rewrite adjustSection_map, Hkeys. apply f_equal.
  rewrite <- (map_id items) at 2. apply map_ext. intros item. reflexivity.
Qed.

Lemma adjustDesignTokensDetail_no_keys (detail : option (JsObject Token.t))
    (exceptions : list Exc.t) :
  ExceptionHandler.excludedKeysOf exceptions = [] ->
  ExceptionHandler.adjustDesignTokensDetail detail exceptions = detail.
Proof.
  intros Hkeys. destruct detail as [d|]; [|reflexivity].
  unfold ExceptionHandler.adjustDesignTokensDetail. rewrite Hkeys. apply f_equal.
  rewrite <- (map_id d) at 2. apply map_ext. intros kv. reflexivity.
Qed.

Lemma groupOf_requests (exceptions : list Exc.t) (b : JsObject (list Exc.t))
    (name : string) :
  ExceptionHandler.groupExceptionsBySection exceptions = Returns b ->
  isInherited name = false ->
  ExceptionHandler.groupOf b name
  = match requestsFor name exceptions with
    | [] => None
    | group => Some group
    end.
Proof.
  intros Hret Hname. unfold ExceptionHandler.groupOf, getProp.
  rewrite (groupExceptionsBySection_groups _ _ Hret name).
  destruct (requestsFor name exceptions); [rewrite Hname|]; reflexivity.
Qed.

Lemma overrideSection_requests (exceptions : list Exc.t) (b : JsObject (list Exc.t))
    (name : string) (keyField : ExceptionHandler.KeyField)
    (section : option (list Item.t)) :
  ExceptionHandler.groupExceptionsBySection exceptions = Returns b ->
  isInherited name = false ->
  overrideSection b name keyField section
  = ExceptionHandler.adjustSection section (requestsFor name exceptions) keyField.
Proof.
  intros Hret Hname. unfold overrideSection.
  rewrite (groupOf_requests _ _ _ Hret Hname).
  destruct (requestsFor name exceptions) as [|e rest] eqn:Hreq.
  - symmetry. apply adjustSection_no_keys. reflexivity.
  - destruct section; reflexivity.
Qed.

Lemma overrideTokens_requests (exceptions : list Exc.t) (b : JsObject (list Exc.t))
    (detail : option (JsObject Token.t)) :
  ExceptionHandler.groupExceptionsBySection exceptions = Returns b ->
  overrideTokens b detail
  = ExceptionHandler.adjustDesignTokensDetail detail
      (requestsFor "디자인 스타일" exceptions).
Proof.
  intros Hret. unfold overrideTokens.
  rewrite (groupOf_requests _ _ "디자인 스타일" Hret eq_refl).
  destruct (requestsFor "디자인 스타일" exceptions) as [|e rest] eqn:Hreq.
  - symmetry. apply adjustDesignTokensDetail_no_keys. reflexivity.
  - destruct detail; reflexivity.
Qed.

(** The sections and compliance details of a returned result, in terms of
    the requests that name each section. *)
Lemma applyExceptions_routed
    (r : Result.t) (exceptions : list Exc.t) (checklistId : option string)
    (r' : Result.t) :
  ExceptionHandler.applyExceptions r (Some exceptions) checklistId = Returns r' ->
  fourSections r'
  = [ExceptionHandler.adjustSection (Result.designStyles r)
       (requestsFor "디자인 스타일" exceptions) ExceptionHandler.KCategory;
     ExceptionHandler.adjustSection (Result.components r)
       (requestsFor "컴포넌트" exceptions) ExceptionHandler.KType;
     ExceptionHandler.adjustSection (Result.basicPatterns r)
       (requestsFor "기본 패턴" exceptions) ExceptionHandler.KName;
     ExceptionHandler.adjustSection (Result.servicePatterns r)
       (requestsFor "서비스 패턴" exceptions) ExceptionHandler.KName] /\
  Result.krdsCompliance r'
  = option_map (routedKrds exceptions) (Result.krdsCompliance r).
Proof.
  destruct exceptions as [|exc excs].
  - intros [= <-]. unfold fourSections, requestsFor. cbn [filter].
    rewrite !adjustSection_no_keys by reflexivity. split; [reflexivity|].
    destruct (Result.krdsCompliance r) as [k|]; [|reflexivity].
    cbn [option_map]. unfold routedKrds, requestsFor. cbn [filter].
    rewrite adjustSection_no_keys, adjustDesignTokensDetail_no_keys by reflexivity.
    now destruct k.
  - intros Hret. apply applyExceptions_returns_inv in Hret.
    destruct Hret as (b & Hgroup & ->). cbv zeta.
    change (fourSections (ExceptionHandler.setExceptionInfo
                            (ExceptionHandler.setOverallScore ?a ?s) ?i))
      with (fourSections a).
    change (Result.krdsCompliance (ExceptionHandler.setExceptionInfo
                            (ExceptionHandler.setOverallScore ?a ?s) ?i))
      with (Result.krdsCompliance a).
    rewrite fourSections_adjustSections, adjustSections_krds.
    rewrite !(overrideSection_requests _ _ _ _ _ Hgroup) by reflexivity.
    split; [reflexivity|].
    destruct (Result.krdsCompliance r) as [k|]; [|reflexivity].
    cbn [option_map]. rewrite adjustKrds_fields. unfold routedKrds.
    rewrite (overrideTokens_requests _ _ _ Hgroup).
    rewrite (overrideSection_requests _ _ _ _ _ Hgroup) by reflexivity.
    reflexivity.
Qed.

(** X4. In a result [applyExceptions] returns, each of the four sections is
    [adjustSection] of the input's section with exactly the requests that
    resolve to that section's name (keyed by category, type, name and name),
    and [krdsCompliance] has its token details and its components rewritten
    with the requests for the design styles and for the components. *)
Theorem X4_requests_reach_their_section :
  forall (r : Result.t) (exceptions : list Exc.t) (checklistId : option string)
         (r' : Result.t),
    ExceptionHandler.applyExceptions r (Some exceptions) checklistId = Returns r' ->
    Result.designStyles r'
      = ExceptionHandler.adjustSection (Result.designStyles r)
          (requestsFor "디자인 스타일" exceptions) ExceptionHandler.KCategory /\
    Result.components r'
      = ExceptionHandler.adjustSection (Result.components r)
          (requestsFor "컴포넌트" exceptions) ExceptionHandler.KType /\
    Result.basicPatterns r'
      = ExceptionHandler.adjustSection (Result.basicPatterns r)
          (requestsFor "기본 패턴" exceptions) ExceptionHandler.KName /\
    Result.servicePatterns r'
      = ExceptionHandler.adjustSection (Result.servicePatterns r)
          (requestsFor "서비스 패턴" exceptions) ExceptionHandler.KName /\
    Result.krdsCompliance r'
      = option_map (routedKrds exceptions) (Result.krdsCompliance r).
Proof.
  intros r exceptions checklistId r' Hret.
  destruct (applyExceptions_routed _ _ _ _ Hret) as [Hsections Hkrds].
  unfold fourSections in Hsections. injection Hsections as H1 H2 H3 H4.
  repeat split; assumption.
Qed.

Lemma X4_requests_reach_their_section_witness :
  exists r',
    ExceptionHandler.applyExceptions (resultWith 14 twoStyles)
      (Some [colorsRequest]) None = Returns r' /\
    Result.designStyles r'
      = ExceptionHandler.adjustSection (Some twoStyles) [colorsRequest]
          ExceptionHandler.KCategory.
Proof.
  eexists. split; [vm_compute; reflexivity|].
  destruct (X4_requests_reach_their_section (resultWith 14 twoStyles)
              [colorsRequest] None _ eq_refl) as (H & _).
  exact H.
Defined.

Lemma X3_token_details_override_witness :
  exists detail',
    ExceptionHandler.adjustDesignTokensDetail
      (Some [("colors", Token.mk (JNum 40) [] (Some ["colors"]) [] None)])
      [colorsRequest] = Some detail' /\
    exists kv', detail' = [kv'] /\ snd kv' = compliantToken.
Proof.
  destruct (X3_token_details_override
              [("colors", Token.mk (JNum 40) [] (Some ["colors"]) [] None)]
              [colorsRequest]) as (detail' & Heq & _ & Hall & _).
  exists detail'. split; [exact Heq|].
  inversion Hall as [|kv kv' rest rest' [Hyes _] Hrest]; subst.
  inversion Hrest; subst. exists kv'. split; [reflexivity|].
  apply Hyes. exists colorsRequest.
  split; [left; reflexivity | split; [discriminate | reflexivity]].
Defined.

(** ** What an override leaves alone *)

Lemma adjustItem_sameIdentity (exceptions : list Exc.t) (excludedKeys : list string)
    (keyField : ExceptionHandler.KeyField) (item : Item.t) :
  sameIdentity item (ExceptionHandler.adjustItem exceptions excludedKeys keyField item).
Proof.
  unfold ExceptionHandler.adjustItem, sameIdentity.
  destruct (includes excludedKeys (ExceptionHandler.itemKeyOf keyField item));
    repeat split.
Qed.

Lemma adjustSection_sameFindings (section : option (list Item.t))
    (exceptions : list Exc.t) (keyField : ExceptionHandler.KeyField) :
  sameFindings section (ExceptionHandler.adjustSection section exceptions keyField).
Proof.
  destruct section as [items|]; [|exact I].
  rewrite adjustSection_map. cbn [sameFindings].
  induction items as [|item rest IH]; cbn [map]; constructor; [|exact IH].
  apply adjustItem_sameIdentity.
Qed.

Lemma sameFindings_refl (section : option (list Item.t)) : sameFindings section section.
Proof.
  destruct section as [items|]; [|exact I]. cbn [sameFindings].
  induction items as [|item rest IH]; constructor; [repeat split | exact IH].
Qed.

Lemma applyExceptions_other_fields
    (r : Result.t) (exceptions : option (list Exc.t)) (checklistId : option string)
    (r' : Result.t) :
  ExceptionHandler.applyExceptions r exceptions checklistId = Returns r' ->
  Result.url r' = Result.url r /\
  Result.viewport r' = Result.viewport r /\
  Result.timestamp r' = Result.timestamp r /\
  Result.executionTime r' = Result.executionTime r /\
  Result.axeResults r' = Result.axeResults r /\
  Result.kwcagReport r' = Result.kwcagReport r.
Proof.
  destruct exceptions as [[|exc excs]|];
    try (intros [= <-]; repeat split; reflexivity).
  intros Hret. apply applyExceptions_returns_inv in Hret.
  destruct Hret as (b & _ & ->). cbv zeta.
  rewrite adjustSections_fields. repeat split; reflexivity.
Qed.

(** X5. An override never adds, drops or reorders findings and never touches
    what identifies them: in every returned result a section is absent
    exactly when it was absent, holds the same number of items, and each item
    keeps its category, type, name, English name, link and count.  The url,
    viewport, timestamp, execution time, audit results and KWCAG report come
    back unchanged, and so do the score and the two pattern summaries stored
    under [krdsCompliance]. *)
Theorem X5_override_frame :
  forall (r : Result.t) (exceptions : option (list Exc.t))
         (checklistId : option string) (r' : Result.t),
    ExceptionHandler.applyExceptions r exceptions checklistId = Returns r' ->
    Forall2 sameFindings (fourSections r) (fourSections r') /\
    (Result.url r', Result.viewport r', Result.timestamp r', Result.executionTime r')
      = (Result.url r, Result.viewport r, Result.timestamp r, Result.executionTime r) /\
    Result.axeResults r' = Result.axeResults r /\
    Result.kwcagReport r' = Result.kwcagReport r /\
    match Result.krdsCompliance r, Result.krdsCompliance r' with
    | None, None => True
    | Some k, Some k' =>
        sameSummaries k k' /\
        sameFindings (Krds.krdsComponents k) (Krds.krdsComponents k') /\
        option_map (map fst) (Krds.designTokensDetail k')
          = option_map (map fst) (Krds.designTokensDetail k)
    | _, _ => False
    end.
Proof.
  intros r exceptions checklistId r' Hret.
  destruct (applyExceptions_other_fields _ _ _ _ Hret)
    as (Hurl & Hview & Htime & Hexec & Haxe & Hkwcag).
  assert (Hrouted : exists excs,
             fourSections r'
             = [ExceptionHandler.adjustSection (Result.designStyles r)
                  (requestsFor "디자인 스타일" excs) ExceptionHandler.KCategory;
                ExceptionHandler.adjustSection (Result.components r)
                  (requestsFor "컴포넌트" excs) ExceptionHandler.KType;
                ExceptionHandler.adjustSection (Result.basicPatterns r)
                  (requestsFor "기본 패턴" excs) ExceptionHandler.KName;
                ExceptionHandler.adjustSection (Result.servicePatterns r)
                  (requestsFor "서비스 패턴" excs) ExceptionHandler.KName] /\
             Result.krdsCompliance r'
             = option_map (routedKrds excs) (Result.krdsCompliance r)).
  { destruct exceptions as [excs|].
    - exists excs. exact (applyExceptions_routed _ _ _ _ Hret).
    - exists []. exact (applyExceptions_routed r [] checklistId r' Hret). }
  destruct Hrouted as (excs & Hsections & Hkrds).
  split.
  { rewrite Hsections. unfold fourSections.
    repeat (constructor; [apply adjustSection_sameFindings|]). constructor. }
  split; [congruence|]. split; [exact Haxe|]. split; [exact Hkwcag|].
  rewrite Hkrds. destruct (Result.krdsCompliance r) as [k|]; cbn [option_map]; [|exact I].
  unfold routedKrds, sameSummaries.
  cbn [Krds.score Krds.basicPatterns Krds.servicePatterns Krds.krdsComponents
       Krds.designTokensDetail].
  split; [repeat split|]. split; [apply adjustSection_sameFindings|].
  apply adjustDesignTokensDetail_keys.
Qed.

Lemma X5_override_frame_witness :
  exists r',
    ExceptionHandler.applyExceptions (resultWith 14 twoStyles)
      (Some [colorsRequest]) None = Returns r' /\
    Forall2 sameFindings (fourSections (resultWith 14 twoStyles)) (fourSections r').
Proof.
  eexists. split; [vm_compute; reflexivity|].
  destruct (X5_override_frame (resultWith 14 twoStyles) (Some [colorsRequest])
              None _ eq_refl) as (H & _).
  exact H.
Defined.

(** ** Requests that reach no finding *)

Lemma excludedKeysOf_keyless (exceptions : list Exc.t) :
  Forall (fun e => matchingKey e = "") exceptions ->
  ExceptionHandler.excludedKeysOf exceptions = [].
Proof.
  unfold ExceptionHandler.excludedKeysOf.
  induction 1 as [|e rest He _ IH]; [reflexivity|].
  cbn [map filter]. rewrite requestKey_matchingKey, He. exact IH.
Qed.

Lemma requestsFor_keyless (name : string) (exceptions : list Exc.t) :
  In name recognizedSections ->
  Forall (fun e => ~ In (resolvedSection e) recognizedSections \/ matchingKey e = "")
         exceptions ->
  Forall (fun e => matchingKey e = "") (requestsFor name exceptions).
Proof.
  intros Hname Hall. apply Forall_forall. intros e He.
  apply filter_In in He. destruct He as [Hin Hsec]. apply String.eqb_eq in Hsec.
  rewrite Forall_forall in Hall. destruct (Hall e Hin) as [Hno|Hkey]; [|exact Hkey].
  rewrite Hsec in Hno. contradiction.
Qed.

(** X6. Requests that name none of the four sections (among them the ones
    filed under "기타") and requests without a matching key rewrite nothing:
    when every request is of one of these kinds, the returned result has the
    sections and the compliance details of the input, and its overall score
    is the handler's score of the input's sections. *)
Theorem X6_stray_requests_change_nothing :
  forall (r : Result.t) (exceptions : list Exc.t) (checklistId : option string)
         (r' : Result.t),
    Forall (fun e => ~ In (resolvedSection e) recognizedSections \/ matchingKey e = "")
           exceptions ->
    exceptions <> [] ->
    ExceptionHandler.applyExceptions r (Some exceptions) checklistId = Returns r' ->
    fourSections r' = fourSections r /\
    Result.krdsCompliance r' = Result.krdsCompliance r /\
    Result.overallScore r' = ExceptionHandler.calculateOverallScore r.
Proof.
  intros r exceptions checklistId r' Hstray Hne Hret.
  destruct (applyExceptions_routed _ _ _ _ Hret) as [Hsections Hkrds].
  assert (Hkeys : forall name, In name recognizedSections ->
            ExceptionHandler.excludedKeysOf (requestsFor name exceptions) = []).
  { intros name Hname. apply excludedKeysOf_keyless.
    now apply requestsFor_keyless. }
  assert (H1 := Hkeys "디자인 스타일" ltac:(simpl; tauto)).
  assert (H2 := Hkeys "컴포넌트" ltac:(simpl; tauto)).
  assert (H3 := Hkeys "기본 패턴" ltac:(simpl; tauto)).
  assert (H4 := Hkeys "서비스 패턴" ltac:(simpl; tauto)).
  rewrite !adjustSection_no_keys in Hsections by assumption.
  assert (Hkrds' : Result.krdsCompliance r' = Result.krdsCompliance r).
  { rewrite Hkrds. destruct (Result.krdsCompliance r) as [k|]; [|reflexivity].
    cbn [option_map]. unfold routedKrds.
    rewrite adjustSection_no_keys, adjustDesignTokensDetail_no_keys by assumption.
    now destruct k. }
  split; [exact Hsections|]. split; [exact Hkrds'|].
  destruct exceptions as [|exc excs]; [congruence|].
  apply applyExceptions_returns_inv in Hret. destruct Hret as (b & _ & Heq).
  cbv zeta in Heq. rewrite Heq in Hsections |- *.
  cbn [ExceptionHandler.setExceptionInfo ExceptionHandler.setOverallScore
       Result.overallScore].
  change (fourSections (ExceptionHandler.setExceptionInfo
                          (ExceptionHandler.setOverallScore ?a ?s) ?i))
    with (fourSections a) in Hsections.
  rewrite !handler_overall_mean. unfold presentAggregates. now rewrite Hsections.
Qed.

Lemma X6_stray_requests_change_nothing_witness :
  exists r',
    ExceptionHandler.applyExceptions (resultWith 14 twoStyles)
      (Some strayRequests) None = Returns r' /\
    fourSections r' = fourSections (resultWith 14 twoStyles) /\
    Result.krdsCompliance r' = Result.krdsCompliance (resultWith 14 twoStyles) /\
    Result.overallScore r'
      = ExceptionHandler.calculateOverallScore (resultWith 14 twoStyles).
Proof.
  eexists. split; [vm_compute; reflexivity|].
  apply (X6_stray_requests_change_nothing (resultWith 14 twoStyles) strayRequests None).
  - constructor; [|constructor; [|constructor]];
      left; simpl; intros [H|[H|[H|[H|[]]]]]; discriminate H.
  - discriminate.
  - reflexivity.
Defined.

(** ** Scores after an override *)

Lemma contribution_adjustItem_matched (exceptions : list Exc.t)
    (keyField : ExceptionHandler.KeyField) (item : Item.t) :
  matched keyField exceptions item ->
  ExceptionHandler.contribution
    (ExceptionHandler.adjustItem exceptions
       (ExceptionHandler.excludedKeysOf exceptions) keyField item) = 100.
Proof.
  intros Hm. apply includes_matched in Hm.
  unfold ExceptionHandler.adjustItem. rewrite Hm. reflexivity.
Qed.

Lemma roundedMean_constant (xs : list Z) (c : Z) :
  xs <> [] -> Forall (fun x => x = c) xs -> roundedMean xs = c.
Proof.
  intros Hne Hall. destruct xs as [|x rest]; [congruence|].
  unfold roundedMean.
  assert (Hsum : sumZ (x :: rest) = c * Z.of_nat (List.length (x :: rest))).
  { clear Hne. induction Hall as [|y ys Hy _ IH]; [simpl; lia|].
    cbn [sumZ List.length]. rewrite IH. subst y. lia. }
  rewrite Hsum. apply Math_round_div_exact. cbn [List.length]. lia.
Qed.

(** A section whose items are all matched aggregates to 100. *)
Lemma fully_excepted_section (section : option (list Item.t))
    (exceptions : list Exc.t) (keyField : ExceptionHandler.KeyField) :
  allMatched keyField exceptions section ->
  Forall (fun x => x = 100)
         (aggregateIfPresent
            (ExceptionHandler.adjustSection section exceptions keyField)).
Proof.
  intros Hall. destruct section as [[|item rest]|]; try constructor; [|constructor].
  specialize (Hall _ eq_refl). rewrite adjustSection_map, handler_category_mean.
  apply roundedMean_constant; [discriminate|].
  rewrite map_map. apply Forall_map.
  eapply Forall_impl; [|exact Hall]. intros x Hx.
  now apply contribution_adjustItem_matched.
Qed.

Lemma aggregateIfPresent_adjust_nil (section : option (list Item.t))
    (exceptions : list Exc.t) (keyField : ExceptionHandler.KeyField) :
  aggregateIfPresent (ExceptionHandler.adjustSection section exceptions keyField) = []
  <-> emptySection section.
Proof.
  unfold emptySection. destruct section as [[|item rest]|]; cbn; split;
    try tauto; try discriminate; intros [H|H]; discriminate H.
Qed.

(** X7. When every item of every section is matched by a request filed under
    that section, and at least one section holds an item, the overall score
    of the returned result is exactly 100. *)
Theorem X7_excepting_everything_scores_100 :
  forall (r : Result.t) (exceptions : list Exc.t) (checklistId : option string)
         (r' : Result.t),
    allMatched ExceptionHandler.KCategory (requestsFor "디자인 스타일" exceptions)
      (Result.designStyles r) ->
    allMatched ExceptionHandler.KType (requestsFor "컴포넌트" exceptions)
      (Result.components r) ->
    allMatched ExceptionHandler.KName (requestsFor "기본 패턴" exceptions)
      (Result.basicPatterns r) ->
    allMatched ExceptionHandler.KName (requestsFor "서비스 패턴" exceptions)
      (Result.servicePatterns r) ->
    ~ Forall emptySection (fourSections r) ->
    ExceptionHandler.applyExceptions r (Some exceptions) checklistId = Returns r' ->
    Result.overallScore r' = 100.
Proof.
  intros r exceptions checklistId r' M1 M2 M3 M4 Hsome Hret.
  destruct (applyExceptions_routed _ _ _ _ Hret) as [Hsections _].
  assert (Hne : exceptions <> []).
  { intros ->. apply Hsome. unfold fourSections.
    unfold allMatched, requestsFor in M1, M2, M3, M4. cbn [filter] in M1, M2, M3, M4.
    assert (Hempty : forall kf (section : option (list Item.t)),
               (forall items, section = Some items -> Forall (matched kf []) items) ->
               emptySection section).
    { intros kf [[|item rest]|] H; [now right | | now left].
      specialize (H _ eq_refl). inversion_clear H as [|? ? (e & [] & _) _]. }
    repeat (constructor; [eapply Hempty; eassumption|]). constructor. }
  destruct exceptions as [|exc excs]; [congruence|].
  apply applyExceptions_returns_inv in Hret. destruct Hret as (b & _ & Heq).
  cbv zeta in Heq. rewrite Heq in Hsections |- *.
  cbn [ExceptionHandler.setExceptionInfo ExceptionHandler.setOverallScore
       Result.overallScore].
  change (fourSections (ExceptionHandler.setExceptionInfo
                          (ExceptionHandler.setOverallScore ?a ?s) ?i))
    with (fourSections a) in Hsections.
  rewrite handler_overall_mean. unfold presentAggregates. rewrite Hsections.
  cbn [flat_map]. rewrite app_nil_r.
  apply roundedMean_constant.
  - intros Hnil. apply Hsome. unfold fourSections.
    apply app_eq_nil in Hnil. destruct Hnil as [N1 Hnil].
    apply app_eq_nil in Hnil. destruct Hnil as [N2 Hnil].
    apply app_eq_nil in Hnil. destruct Hnil as [N3 N4].
    apply aggregateIfPresent_adjust_nil in N1, N2, N3, N4.
    repeat (constructor; [assumption|]). constructor.
  - repeat (apply Forall_app; split); now apply fully_excepted_section.
Qed.

Lemma X7_excepting_everything_scores_100_witness :
  exists r',
    ExceptionHandler.applyExceptions (resultWith 14 twoStyles)
      (Some [colorsRequest; request "typography" "디자인 스타일" None]) None
      = Returns r' /\
    Result.overallScore r' = 100.
Proof.
  eexists. split; [vm_compute; reflexivity|].
  apply (X7_excepting_everything_scores_100 (resultWith 14 twoStyles)
           [colorsRequest; request "typography" "디자인 스타일" None] None).
  - intros items [= <-]. constructor; [|constructor; [|constructor]].
    + exists colorsRequest. split; [left; reflexivity|].
      split; [discriminate | reflexivity].
    + exists (request "typography" "디자인 스타일" None).
      split; [right; left; reflexivity|]. split; [discriminate | reflexivity].
  - intros items [= <-]. constructor.
  - intros items [= <-]. constructor.
  - intros items [= <-]. constructor.
  - intros H. inversion_clear H as [|? ? [H1|H1] _]; discriminate H1.
  - reflexivity.
Defined.

Lemma adjustItem_wellFormed (exceptions : list Exc.t) (excludedKeys : list string)
    (keyField : ExceptionHandler.KeyField) (item : Item.t) :
  wellFormedItem item ->
  wellFormedItem (ExceptionHandler.adjustItem exceptions excludedKeys keyField item).
Proof.
  intros Hwf. unfold ExceptionHandler.adjustItem.
  destruct (includes excludedKeys (ExceptionHandler.itemKeyOf keyField item));
    [|exact Hwf].
  split.
  - exists 100. split; [reflexivity | lia].
  - intros c. cbn [Item.compliance].
    destruct (typeof (Item.compliance item) =? "string")%string; [discriminate|].
    intros [= <-]. lia.
Qed.

Lemma adjustSection_wellFormed (section : option (list Item.t))
    (exceptions : list Exc.t) (keyField : ExceptionHandler.KeyField) :
  wellFormedSection section ->
  wellFormedSection (ExceptionHandler.adjustSection section exceptions keyField).
Proof.
  intros Hwf items' Heq. destruct section as [items|]; [|discriminate].
  rewrite adjustSection_map in Heq. injection Heq as <-.
  apply Forall_map. eapply Forall_impl; [|exact (Hwf _ eq_refl)].
  intros item. apply adjustItem_wellFormed.
Qed.

(** X8. An override keeps the data model and the score range: from a result
    whose items have integer scores of 0..100 (and numeric compliance of
    0..100), every returned result again has such items, and the recomputed
    overall score, also recorded as [adjustedScore], lies in 0..100. *)
Theorem X8_override_keeps_scores_in_range :
  forall (r : Result.t) (exc : Exc.t) (excs : list Exc.t)
         (checklistId : option string) (r' : Result.t),
    wellFormedResult r ->
    ExceptionHandler.applyExceptions r (Some (exc :: excs)) checklistId = Returns r' ->
    wellFormedResult r' /\
    0 <= Result.overallScore r' <= 100 /\
    option_map Info.adjustedScore (Result.exceptionInfo r')
      = Some (Result.overallScore r').
Proof.
  intros r exc excs checklistId r' Hwf Hret.
  destruct (applyExceptions_routed _ _ _ _ Hret) as [Hsections _].
  assert (Hwf' : wellFormedResult r').
  { unfold wellFormedResult. rewrite Hsections.
    unfold wellFormedResult, fourSections in Hwf.
    inversion_clear Hwf as [|? ? W1 Hwf2]. inversion_clear Hwf2 as [|? ? W2 Hwf3].
    inversion_clear Hwf3 as [|? ? W3 Hwf4]. inversion_clear Hwf4 as [|? ? W4 _].
    repeat (constructor; [now apply adjustSection_wellFormed|]). constructor. }
  split; [exact Hwf'|].
  apply applyExceptions_returns_inv in Hret. destruct Hret as (b & _ & Heq).
  cbv zeta in Heq. split.
  - assert (Hscore : Result.overallScore r' = ExceptionHandler.calculateOverallScore r').
    { rewrite Heq. reflexivity. }
    rewrite Hscore, handler_overall_mean. apply roundedMean_range.
    unfold presentAggregates. apply Forall_flat_map.
    eapply Forall_impl; [|exact Hwf']. intros section. apply aggregate_present_range.
  - rewrite Heq. reflexivity.
Qed.

Lemma X8_override_keeps_scores_in_range_witness :
  exists r',
    ExceptionHandler.applyExceptions (resultWith 14 twoStyles)
      (Some [colorsRequest]) None = Returns r' /\
    wellFormedResult r' /\
    0 <= Result.overallScore r' <= 100 /\
    option_map Info.adjustedScore (Result.exceptionInfo r')
      = Some (Result.overallScore r').
Proof.
  eexists. split; [vm_compute; reflexivity|].
  apply (X8_override_keeps_scores_in_range (resultWith 14 twoStyles)
           colorsRequest [] None); [|reflexivity].
  unfold wellFormedResult, fourSections. simpl.
  repeat (constructor;
          [intros items [= <-];
           repeat (constructor;
                   [split; [eexists; split; [reflexivity | lia]
                           | intros c [= <-]; lia] |]);
           constructor |]).
  constructor.
Defined.

Lemma returned_score_is_recomputed
    (r : Result.t) (exc : Exc.t) (excs : list Exc.t)
    (checklistId : option string) (r' : Result.t) :
  ExceptionHandler.applyExceptions r (Some (exc :: excs)) checklistId = Returns r' ->
  Result.overallScore r' = roundedMean (presentAggregates r') /\
  option_map Info.scoreDifference (Result.exceptionInfo r')
    = Some (Result.overallScore r' - Result.overallScore r).
Proof.
  intros Hret. apply applyExceptions_returns_inv in Hret.
  destruct Hret as (b & _ & Heq). cbv zeta in Heq. split.
  - rewrite <- handler_overall_mean, Heq. reflexivity.
  - rewrite Heq. reflexivity.
Qed.

Lemma adjustSection_unmatched (section : option (list Item.t))
    (exceptions : list Exc.t) (keyField : ExceptionHandler.KeyField) :
  noneMatched keyField exceptions section ->
  ExceptionHandler.adjustSection section exceptions keyField = section.
Proof.
  intros Hnone. destruct section as [items|]; [|reflexivity].
  specialize (Hnone _ eq_refl). rewrite adjustSection_map. apply f_equal.
  induction Hnone as [|item rest Hitem _ IH]; [reflexivity|].
  cbn [map]. rewrite IH. f_equal. now apply adjustItem_unmatched.
Qed.

Lemma built_section_aggregates (section : option (list Item.t)) :
  builtSection section ->
  exists s, Analyzer.calculateCategoryScore section = Some s /\
            aggregateIfPresent section = [s].
Proof.
  intros (item & rest & -> & Hscores & Hmirror).
  exists (roundedMean (map scoreOf (item :: rest))). split.
  - now apply analyzer_category_mean.
  - cbn [aggregateIfPresent]. rewrite handler_category_mean. do 2 f_equal.
    apply map_ext_in. intros x Hx. rewrite Forall_forall in Hscores, Hmirror.
    apply contribution_mirrored; auto.
Qed.

(** On four sections as the analyzer builds them the two calculators give
    the same overall score. *)
Lemma calculators_agree_on_built (r : Result.t) :
  Forall builtSection (fourSections r) ->
  Analyzer.calculateOverallScore (sectionsOfResult r)
  = Some (ExceptionHandler.calculateOverallScore r).
Proof.
  intros Hbuilt. unfold fourSections in Hbuilt.
  inversion_clear Hbuilt as [|? ? B1 Hb2]. inversion_clear Hb2 as [|? ? B2 Hb3].
  inversion_clear Hb3 as [|? ? B3 Hb4]. inversion_clear Hb4 as [|? ? B4 _].
  destruct (built_section_aggregates _ B1) as (s1 & A1 & P1).
  destruct (built_section_aggregates _ B2) as (s2 & A2 & P2).
  destruct (built_section_aggregates _ B3) as (s3 & A3 & P3).
  destruct (built_section_aggregates _ B4) as (s4 & A4 & P4).
  rewrite handler_overall_mean. unfold presentAggregates, fourSections.
  cbn [flat_map]. rewrite P1, P2, P3, P4.
  unfold Analyzer.calculateOverallScore, sectionsOfResult.
  cbn [Sections.designStyles Sections.components Sections.basicPatterns
       Sections.servicePatterns].
  rewrite A1, A2, A3, A4, fold_left_add_sumZ. reflexivity.
Qed.

(** X9. On a result with four sections as the analyzer builds them (each
    with at least one item, integer scores of 0..100, numeric compliance
    equal to the score) and an overall score computed by the analyzer, a
    request list that matches no item returns the sections unchanged, the
    same overall score and a score difference of 0. *)
Theorem X9_unmatched_requests_keep_the_score :
  forall (r : Result.t) (exc : Exc.t) (excs : list Exc.t)
         (checklistId : option string) (r' : Result.t),
    Forall builtSection (fourSections r) ->
    Analyzer.calculateOverallScore (sectionsOfResult r) = Some (Result.overallScore r) ->
    noneMatched ExceptionHandler.KCategory
      (requestsFor "디자인 스타일" (exc :: excs)) (Result.designStyles r) ->
    noneMatched ExceptionHandler.KType
      (requestsFor "컴포넌트" (exc :: excs)) (Result.components r) ->
    noneMatched ExceptionHandler.KName
      (requestsFor "기본 패턴" (exc :: excs)) (Result.basicPatterns r) ->
    noneMatched ExceptionHandler.KName
      (requestsFor "서비스 패턴" (exc :: excs)) (Result.servicePatterns r) ->
    ExceptionHandler.applyExceptions r (Some (exc :: excs)) checklistId = Returns r' ->
    fourSections r' = fourSections r /\
    Result.overallScore r' = Result.overallScore r /\
    option_map Info.scoreDifference (Result.exceptionInfo r') = Some 0.
Proof.
  intros r exc excs checklistId r' Hbuilt Hcons N1 N2 N3 N4 Hret.
  destruct (applyExceptions_routed _ _ _ _ Hret) as [Hsections _].
  rewrite (adjustSection_unmatched _ _ _ N1), (adjustSection_unmatched _ _ _ N2),
    (adjustSection_unmatched _ _ _ N3), (adjustSection_unmatched _ _ _ N4) in Hsections.
  fold (fourSections r) in Hsections.
  destruct (returned_score_is_recomputed _ _ _ _ _ Hret) as [Hscore Hdiff].
  assert (Hsame : Result.overallScore r' = Result.overallScore r).
  { rewrite Hscore. unfold presentAggregates. rewrite Hsections.
    fold (presentAggregates r). rewrite <- handler_overall_mean.
    rewrite (calculators_agree_on_built r Hbuilt) in Hcons. now injection Hcons. }
  split; [exact Hsections|]. split; [exact Hsame|].
  rewrite Hdiff, Hsame, Z.sub_diag. reflexivity.
Qed.

(** ** More requests *)

Lemma requestsFor_incl (name : string) (exceptions exceptions' : list Exc.t) :
  incl exceptions exceptions' ->
  incl (requestsFor name exceptions) (requestsFor name exceptions').
Proof.
  intros Hincl e He. apply filter_In in He. destruct He as [Hin Hsec].
  apply filter_In. split; [now apply Hincl | exact Hsec].
Qed.

Lemma matched_incl (keyField : ExceptionHandler.KeyField)
    (exceptions exceptions' : list Exc.t) (item : Item.t) :
  incl exceptions exceptions' ->
  matched keyField exceptions item -> matched keyField exceptions' item.
Proof.
  intros Hincl (e & Hin & Hm). exists e. split; [now apply Hincl | exact Hm].
Qed.

Lemma aggregate_adjust_incl (section : option (list Item.t))
    (exceptions exceptions' : list Exc.t) (keyField : ExceptionHandler.KeyField) :
  wellFormedSection section -> incl exceptions exceptions' ->
  Forall2 Z.le
    (aggregateIfPresent (ExceptionHandler.adjustSection section exceptions keyField))
    (aggregateIfPresent (ExceptionHandler.adjustSection section exceptions' keyField)).
Proof.
  intros Hwf Hincl. destruct section as [[|item rest]|]; try constructor; [|constructor].
  specialize (Hwf _ eq_refl). rewrite !adjustSection_map, !handler_category_mean.
  apply roundedMean_mono. rewrite !map_map.
  set (l := item :: rest) in *. clearbody l.
  induction Hwf as [|x l Hx _ IH]; cbn [map]; constructor; [|exact IH].
  destruct (includes (ExceptionHandler.excludedKeysOf exceptions)
                     (ExceptionHandler.itemKeyOf keyField x)) eqn:Hinc.
  - pose proof Hinc as Hm. apply includes_matched in Hm.
    apply (matched_incl _ _ _ _ Hincl) in Hm.
    rewrite (contribution_adjustItem_matched _ _ _ Hm).
    unfold ExceptionHandler.adjustItem. rewrite Hinc.
    change (ExceptionHandler.contribution (Item.mk _ _ _ _ (JNum 100) _ _ _ _ _ _))
      with 100. lia.
  - unfold ExceptionHandler.adjustItem at 1. rewrite Hinc.
    now apply contribution_adjustItem.
Qed.

(** X10. More requests never lower the score.  Take a result whose items
    are well formed and two request lists, every request of the first
    occurring in the second, for which both overrides return.  When the
    first list holds a request, or the stored overall score of the result is
    the handler's score of its sections, the overall score for the second
    list is at least the one for the first.  (Without any request the
    override returns the stored score as it is, not recomputed: hence the
    condition.) *)
Theorem X10_more_requests_never_lower_the_score :
  forall (r : Result.t) (exceptions exceptions' : list Exc.t)
         (checklistId checklistId' : option string) (r1 r2 : Result.t),
    wellFormedResult r ->
    exceptions <> [] \/
      Result.overallScore r = ExceptionHandler.calculateOverallScore r ->
    incl exceptions exceptions' ->
    ExceptionHandler.applyExceptions r (Some exceptions) checklistId = Returns r1 ->
    ExceptionHandler.applyExceptions r (Some exceptions') checklistId' = Returns r2 ->
    Result.overallScore r1 <= Result.overallScore r2.
Proof.
  intros r exceptions exceptions' checklistId checklistId' r1 r2
         Hwf Hne Hincl Hret1 Hret2.
  destruct (applyExceptions_routed _ _ _ _ Hret1) as [Hs1 _].
  destruct (applyExceptions_routed _ _ _ _ Hret2) as [Hs2 _].
  assert (H1 : Result.overallScore r1 = roundedMean (presentAggregates r1)).
  { destruct exceptions as [|e1 rest1].
    - injection Hret1 as <-. destruct Hne as [Hne|Hstored]; [congruence|].
      rewrite Hstored. apply handler_overall_mean.
    - apply (returned_score_is_recomputed _ _ _ _ _ Hret1). }
  assert (H2 : Result.overallScore r2 = roundedMean (presentAggregates r2)).
  { destruct exceptions' as [|e2 rest2].
    - injection Hret2 as <-. destruct Hne as [Hne|Hstored].
      + destruct exceptions as [|e1 rest1]; [congruence|].
        destruct (Hincl e1 (or_introl eq_refl)).
      + rewrite Hstored. apply handler_overall_mean.
    - apply (returned_score_is_recomputed _ _ _ _ _ Hret2). }
  rewrite H1, H2.
  unfold presentAggregates. rewrite Hs1, Hs2. cbn [flat_map].
  unfold wellFormedResult, fourSections in Hwf.
  inversion_clear Hwf as [|? ? W1 Hwf2]. inversion_clear Hwf2 as [|? ? W2 Hwf3].
  inversion_clear Hwf3 as [|? ? W3 Hwf4]. inversion_clear Hwf4 as [|? ? W4 _].
  apply roundedMean_mono.
  repeat apply Forall2_app; try constructor;
    apply aggregate_adjust_incl; try assumption; now apply requestsFor_incl.
Qed.

(** ** The copy of the components *)

(** X11. The override keeps [krdsCompliance.krdsComponents] in step with the
    components: when the two hold the same items in the input, as in every
    analysis the analyzer assembles, they hold the same items in every
    returned result. *)
Theorem X11_components_copy_stays_in_step :
  forall (r : Result.t) (exceptions : option (list Exc.t))
         (checklistId : option string) (r' : Result.t) (k : Krds.t),
    Result.krdsCompliance r = Some k ->
    Krds.krdsComponents k = Result.components r ->
    ExceptionHandler.applyExceptions r exceptions checklistId = Returns r' ->
    exists k', Result.krdsCompliance r' = Some k' /\
               Krds.krdsComponents k' = Result.components r'.
Proof.
  intros r exceptions checklistId r' k Hk Hsync Hret.
  destruct exceptions as [excs|]; [|injection Hret as <-; now exists k].
  destruct (applyExceptions_routed _ _ _ _ Hret) as [Hsections Hkrds].
  unfold fourSections in Hsections. injection Hsections as _ Hcomp _ _.
  rewrite Hk in Hkrds. cbn [option_map] in Hkrds.
  eexists. split; [exact Hkrds|].
  unfold routedKrds. cbn [Krds.krdsComponents]. now rewrite Hsync, Hcomp.
Qed.

Lemma X11_components_copy_stays_in_step_witness :
  exists r' k',
    ExceptionHandler.applyExceptions flatAnalysis (Some [buttonRequest]) None
    = Returns r' /\
    Result.components r' <> Result.components flatAnalysis /\
    Result.krdsCompliance r' = Some k' /\
    Krds.krdsComponents k' = Result.components r'.
Proof.
  eexists.
  destruct (X11_components_copy_stays_in_step flatAnalysis
              (Some [buttonRequest]) None _ _ eq_refl eq_refl
              ltac:(vm_compute; reflexivity))
    as (k' & Hk & Hsync).
  exists k'. split; [vm_compute; reflexivity|].
  split; [vm_compute; discriminate|].
  split; [exact Hk | exact Hsync].
Defined.

(** * The analyzer outside the score calculators *)

(** ** Viewport *)

(** X12. [getViewportSize] gives the tablet and mobile sizes for their
    names and the desktop size 1920 x 1080 for every other name, provided
    the name is not one every object inherits; for an inherited name (such
    as "constructor") it returns that member of [Object.prototype] and no
    size. *)
Theorem X12_viewport_falls_back_to_desktop :
  forall viewport : string,
    (isInherited viewport = false ->
     Browser.getViewportSize viewport
     = Browser.SizeValue
         (if (viewport =? "tablet")%string then Browser.Size.mk 768 1024
          else if (viewport =? "mobile")%string then Browser.Size.mk 390 844
          else Browser.Size.mk 1920 1080)) /\
    (isInherited viewport = true ->
     Browser.getViewportSize viewport = Browser.InheritedMember viewport).
Proof.
  intros viewport. unfold Browser.getViewportSize, getProp.
  cbn [ownValue Browser.sizes].
  destruct (String.eqb_spec "desktop" viewport) as [<-|Hd];
    [split; [reflexivity | discriminate]|].
  destruct (String.eqb_spec "tablet" viewport) as [<-|Ht];
    [split; [reflexivity | discriminate]|].
  destruct (String.eqb_spec "mobile" viewport) as [<-|Hm];
    [split; [reflexivity | discriminate]|].
  destruct (String.eqb_spec viewport "tablet") as [->|_]; [congruence|].
  destruct (String.eqb_spec viewport "mobile") as [->|_]; [congruence|].
  split; intros ->; reflexivity.
Qed.

Lemma X12_viewport_falls_back_to_desktop_witness :
  Browser.getViewportSize "phone" = Browser.SizeValue (Browser.Size.mk 1920 1080) /\
  Browser.getViewportSize "constructor" = Browser.InheritedMember "constructor".
Proof.
  split.
  - exact (proj1 (X12_viewport_falls_back_to_desktop "phone") eq_refl).
  - exact (proj2 (X12_viewport_falls_back_to_desktop "constructor") eq_refl).
Defined.

(** ** Findings and their assembly *)

Lemma built_of_items (items : list Item.t) :
  items <> [] -> Forall scoreInRange items -> Forall complianceMirrorsScore items ->
  builtSection (Some items).
Proof.
  intros Hne Hs Hm. destruct items as [|item rest]; [congruence|].
  exists item, rest. now repeat split.
Qed.

Lemma designStyles_built (score : string -> Z) :
  percentScores score ->
  Forall scoreInRange (Assembler.analyzeDesignStyles score) /\
  Forall complianceMirrorsScore (Assembler.analyzeDesignStyles score) /\
  Forall complianceInRange (Assembler.analyzeDesignStyles score).
Proof.
  intros Hs. unfold Assembler.analyzeDesignStyles.
  repeat split; apply Forall_map, Forall_forall; intros c _.
  - exists (score c). split; [reflexivity | apply Hs].
  - intros n [= <-]. reflexivity.
  - intros n [= <-]. apply Hs.
Qed.

Lemma components_built (score count : string -> Z) :
  percentScores score ->
  Forall scoreInRange (Assembler.analyzeComponents score count) /\
  Forall complianceMirrorsScore (Assembler.analyzeComponents score count) /\
  Forall complianceInRange (Assembler.analyzeComponents score count).
Proof.
  intros Hs. unfold Assembler.analyzeComponents.
  repeat split; apply Forall_map, Forall_forall; intros c _.
  - exists (score c). split; [reflexivity | apply Hs].
  - intros n H. discriminate H.
  - intros n H. discriminate H.
Qed.

Lemma basicPatterns_built (score : string -> Z) :
  percentScores score ->
  Forall scoreInRange (Assembler.analyzeBasicPatterns score) /\
  Forall complianceMirrorsScore (Assembler.analyzeBasicPatterns score) /\
  Forall complianceInRange (Assembler.analyzeBasicPatterns score).
Proof.
  intros Hs. unfold Assembler.analyzeBasicPatterns.
  repeat split; apply Forall_map, Forall_forall; intros c _.
  - exists (score c). split; [reflexivity | apply Hs].
  - intros n H. discriminate H.
  - intros n H. discriminate H.
Qed.

Lemma servicePatterns_built (score : string -> Z) :
  percentScores score ->
  Forall scoreInRange (Assembler.analyzeServicePatterns score) /\
  Forall complianceMirrorsScore (Assembler.analyzeServicePatterns score) /\
  Forall complianceInRange (Assembler.analyzeServicePatterns score).
Proof.
  intros Hs. unfold Assembler.analyzeServicePatterns.
  repeat split; apply Forall_map, Forall_forall; intros c _.
  - exists (score c). split; [reflexivity | apply Hs].
  - intros n H. discriminate H.
  - intros n H. discriminate H.
Qed.

Lemma wellFormed_of_parts (items : list Item.t) :
  Forall scoreInRange items -> Forall complianceInRange items ->
  wellFormedSection (Some items).
Proof.
  intros Hs Hc items' [= <-]. apply Forall_forall. intros x Hx.
  rewrite Forall_forall in Hs, Hc. split; auto.
Qed.

(** X13. For extractor scores of 0..100, what [performKRDSAnalysis] assembles
    from the findings of the four builders is a result with 9, 8, 6 and 5
    items whose sections are all built (integer scores of 0..100, numeric
    compliance equal to the score), whose overall score lies in 0..100 and is
    the analyzer's score of its sections, stored also as
    [krdsCompliance.score], and whose [krdsComponents] are its components. *)
Theorem X13_assembled_analysis_is_consistent :
  forall (design component count basic service : string -> Z)
         (axe : Axe.t) (kwcag : Kwcag.t) (tokens : JsObject Token.t),
    percentScores design -> percentScores component ->
    percentScores basic -> percentScores service ->
    exists r,
      Analyzer.performKRDSAnalysis
        (Assembler.analyzeDesignStyles design)
        (Assembler.analyzeComponents component count)
        (Assembler.analyzeBasicPatterns basic)
        (Assembler.analyzeServicePatterns service) axe kwcag tokens = Some r /\
      map (option_map (@List.length Item.t)) (fourSections r)
        = [Some 9; Some 8; Some 6; Some 5]%nat /\
      Forall builtSection (fourSections r) /\
      wellFormedResult r /\
      Analyzer.calculateOverallScore (sectionsOfResult r) = Some (Result.overallScore r) /\
      0 <= Result.overallScore r <= 100 /\
      exists k, Result.krdsCompliance r = Some k /\
                Krds.score k = Result.overallScore r /\
                Krds.krdsComponents k = Result.components r.
Proof.
  intros design component count basic service axe kwcag tokens Hd Hc Hb Hs.
  destruct (designStyles_built design Hd) as (D1 & D2 & D3).
  destruct (components_built component count Hc) as (C1 & C2 & C3).
  destruct (basicPatterns_built basic Hb) as (B1 & B2 & B3).
  destruct (servicePatterns_built service Hs) as (S1 & S2 & S3).
  unfold Analyzer.performKRDSAnalysis.
  set (ds := Assembler.analyzeDesignStyles design) in *.
  set (cs := Assembler.analyzeComponents component count) in *.
  set (bs := Assembler.analyzeBasicPatterns basic) in *.
  set (ss := Assembler.analyzeServicePatterns service) in *.
  assert (Hbuilt : Forall builtSection [Some ds; Some cs; Some bs; Some ss]).
  { repeat (constructor; [apply built_of_items; try assumption; discriminate|]).
    constructor. }
  pose proof (calculators_agree_on_built
                (Result.mk None None None None 0 (Some ds) (Some cs) (Some bs) (Some ss)
                           None None None None) Hbuilt) as Hagree.
  unfold sectionsOfResult in Hagree.
  cbn [Result.designStyles Result.components Result.basicPatterns
       Result.servicePatterns] in Hagree.
  rewrite Hagree.
  rewrite (analyzer_category_mean bs B1), (analyzer_category_mean ss S1).
  eexists. split; [reflexivity|].
  split; [reflexivity|]. split; [exact Hbuilt|].
  assert (Hwf : Forall wellFormedSection [Some ds; Some cs; Some bs; Some ss]).
  { repeat (constructor; [apply wellFormed_of_parts; assumption|]). constructor. }
  split; [exact Hwf|]. split; [exact Hagree|]. split.
  - cbn [Result.overallScore]. rewrite handler_overall_mean.
    apply roundedMean_range. unfold presentAggregates. apply Forall_flat_map.
    eapply Forall_impl; [|exact Hwf]. intros section. apply aggregate_present_range.
  - eexists. split; [reflexivity|].
    cbn [Krds.score Krds.krdsComponents Result.overallScore Result.components].
    split; reflexivity.
Qed.

Lemma X13_assembled_analysis_is_consistent_witness :
  exists r,
    Analyzer.performKRDSAnalysis
      (Assembler.analyzeDesignStyles flatScore)
      (Assembler.analyzeComponents flatScore flatCount)
      (Assembler.analyzeBasicPatterns flatScore)
      (Assembler.analyzeServicePatterns flatScore)
      (Axe.mk None None None None None)
      (Analyzer.generateKWCAGReport (Axe.mk None None None None None)) [] = Some r /\
    Result.overallScore r = 70.
Proof.
  destruct (X13_assembled_analysis_is_consistent flatScore flatScore flatCount
              flatScore flatScore (Axe.mk None None None None None)
              (Analyzer.generateKWCAGReport (Axe.mk None None None None None)) [])
    as (r & Hr & _); try (intros name; unfold flatScore; lia).
  exists r. split; [exact Hr|].
  vm_compute in Hr. injection Hr as <-. reflexivity.
Defined.

Lemma flatScore_percent : percentScores flatScore.
Proof. intros name. unfold flatScore. lia. Qed.

Lemma flatAnalysis_built : Forall builtSection (fourSections flatAnalysis).
Proof.
  unfold fourSections, flatAnalysis.
  cbn [Result.designStyles Result.components Result.basicPatterns Result.servicePatterns].
  destruct (designStyles_built flatScore flatScore_percent) as (D1 & D2 & _).
  destruct (components_built flatScore flatCount flatScore_percent) as (C1 & C2 & _).
  destruct (basicPatterns_built flatScore flatScore_percent) as (B1 & B2 & _).
  destruct (servicePatterns_built flatScore flatScore_percent) as (S1 & S2 & _).
  repeat (constructor; [apply built_of_items; try assumption; discriminate|]).
  constructor.
Defined.

Lemma no_request_no_match (keyField : ExceptionHandler.KeyField)
    (section : option (list Item.t)) :
  noneMatched keyField [] section.
Proof.
  intros items _. apply Forall_forall. intros item _ (e & [] & _).
Defined.

Lemma X9_unmatched_requests_keep_the_score_witness :
  exists r',
    ExceptionHandler.applyExceptions flatAnalysis (Some [readmeRequest])
      (Some "template-123") = Returns r' /\
    fourSections r' = fourSections flatAnalysis /\
    Result.overallScore r' = 70 /\
    option_map Info.scoreDifference (Result.exceptionInfo r') = Some 0.
Proof.
  eexists. split; [vm_compute; reflexivity|].
  apply (X9_unmatched_requests_keep_the_score flatAnalysis readmeRequest []
           (Some "template-123")).
  - exact flatAnalysis_built.
  - vm_compute. reflexivity.
  - intros items [= <-]. apply Forall_forall. intros item Hin (e & He & _ & Hkey).
    destruct He as [<-|[]].
    unfold Assembler.analyzeDesignStyles, Assembler.designCategories in Hin.
    cbn [map] in Hin.
    repeat (destruct Hin as [<-|Hin]; [discriminate Hkey|]). destruct Hin.
  - apply no_request_no_match.
  - apply no_request_no_match.
  - apply no_request_no_match.
  - reflexivity.
Defined.

Lemma X10_more_requests_never_lower_the_score_witness :
  exists r1 r2,
    ExceptionHandler.applyExceptions (resultWith 14 twoStyles)
      (Some [colorsRequest]) None = Returns r1 /\
    ExceptionHandler.applyExceptions (resultWith 14 twoStyles)
      (Some [request "typography" "디자인 스타일" None; colorsRequest]) None
      = Returns r2 /\
    Result.overallScore r1 <= Result.overallScore r2.
Proof.
  eexists. eexists. split; [vm_compute; reflexivity|].
  split; [vm_compute; reflexivity|].
  apply (X10_more_requests_never_lower_the_score (resultWith 14 twoStyles)
           [colorsRequest]
           [request "typography" "디자인 스타일" None; colorsRequest] None None).
  - unfold wellFormedResult, fourSections. simpl.
    repeat (constructor;
            [intros items [= <-];
             repeat (constructor;
                     [split; [eexists; split; [reflexivity | lia]
                             | intros c [= <-]; lia] |]);
             constructor |]).
    constructor.
  - left. discriminate.
  - intros e [<-|[]]. right. left. reflexivity.
  - reflexivity.
  - reflexivity.
Defined.

(** ** Keys of requests *)

(** X14. A request is matched by its [item_key] alone whenever that key is
    present and not empty: [item_name] is not consulted then.  So requests
    whose keys no item of the section resolves to leave the section as it
    is, even when their [item_name] is the key of an item. *)
Theorem X14_item_name_ignored_beside_a_key :
  forall (keyField : ExceptionHandler.KeyField) (items : list Item.t)
         (exceptions : list Exc.t),
    Forall (keyedElsewhere keyField items) exceptions ->
    ExceptionHandler.adjustSection (Some items) exceptions keyField = Some items.
Proof.
  intros keyField items exceptions Hall.
  apply adjustSection_unmatched. intros items' [= <-].
  apply Forall_forall. intros item Hin (e & He & _ & Hkey).
  rewrite Forall_forall in Hall. destruct (Hall e He) as (k & Hk & Hne & Hno).
  rewrite Forall_forall in Hno. apply (Hno item Hin).
  rewrite <- Hkey. unfold matchingKey. rewrite Hk. cbn [strOr].
  destruct (String.eqb_spec k ""); [contradiction | reflexivity].
Qed.

Lemma X14_item_name_ignored_beside_a_key_witness :
  ExceptionHandler.adjustSection (Some (Assembler.analyzeDesignStyles flatScore))
    [readmeRequest] ExceptionHandler.KCategory
  = Some (Assembler.analyzeDesignStyles flatScore).
Proof.
  apply X14_item_name_ignored_beside_a_key.
  constructor; [|constructor].
  exists "colors". split; [reflexivity|]. split; [discriminate|].
  unfold Assembler.analyzeDesignStyles. apply Forall_map.
  repeat (constructor; [discriminate|]). constructor.
Defined.

(** ** Design tokens *)

(** An object without array-index keys lists its keys and entries in
    insertion order. *)
Lemma keys_plain {A} (o : JsObject A) :
  plainKeys (map fst o) -> keys o = map fst o.
Proof.
  unfold keys, plainKeys. induction (map fst o) as [|k ks IH]; intros Hplain;
    [reflexivity|].
  inversion_clear Hplain as [|? ? Hk Hks]. cbn [filter]. rewrite Hk. cbn [negb].
  specialize (IH Hks).
  destruct (filter isArrayIndex ks) as [|k' ks'] eqn:Hidx.
  - cbn [fold_right app] in *. now rewrite IH.
  - exfalso. assert (Hin : In k' (filter isArrayIndex ks))
      by (rewrite Hidx; now left).
    apply filter_In in Hin. destruct Hin as [Hin Htrue].
    rewrite Forall_forall in Hks. rewrite (Hks _ Hin) in Htrue. discriminate.
Qed.

Lemma lookups_of_own_keys {A} (o : JsObject A) :
  NoDup (map fst o) ->
  flat_map (fun k => match ownValue o k with
                     | Some a => [(k, a)]
                     | None => []
                     end)
           (map fst o) = o.
Proof.
  induction o as [|[k a] o IH]; intros Hnd; [reflexivity|].
  cbn [map fst] in Hnd. inversion_clear Hnd as [|? ? Hnotin Hnd'].
  cbn [map fst flat_map ownValue]. rewrite String.eqb_refl. cbn [app].
  f_equal. rewrite <- (IH Hnd') at 2.
  clear IH Hnd'. induction (map fst o) as [|k' ks IHks]; [reflexivity|].
  cbn [flat_map]. destruct (String.eqb_spec k k') as [->|Hne].
  - exfalso. apply Hnotin. now left.
  - f_equal. apply IHks. intros Hin. apply Hnotin. now right.
Qed.

Lemma entries_plain {A} (o : JsObject A) :
  NoDup (map fst o) -> plainKeys (map fst o) -> entries o = o.
Proof.
  intros Hnd Hplain. unfold entries. rewrite keys_plain by exact Hplain.
  now apply lookups_of_own_keys.
Qed.

Section Tokens.

Variable toLowerCase : string -> string.
Variable textAtLeast : string -> Z -> bool.

Lemma lastStored_snoc (k : string) (seen : list Item.t) (style : Item.t) :
  lastStored toLowerCase k (seen ++ [style])
  = if storedUnder toLowerCase k style then Some style
    else lastStored toLowerCase k seen.
Proof.
  unfold lastStored. rewrite rev_app_distr. reflexivity.
Qed.

Lemma tokenStep_holds (seen : list Item.t) (tokens : JsObject Token.t)
    (style : Item.t) (category : string) :
  tokensHold toLowerCase textAtLeast seen tokens ->
  Item.category style = Some category ->
  exists tokens',
    Assembler.tokenStep toLowerCase textAtLeast (Returns tokens) style = Returns tokens' /\
    tokensHold toLowerCase textAtLeast (seen ++ [style]) tokens'.
Proof.
  intros [Hnd Hlook] Hcat. unfold Assembler.tokenStep. cbn [bind]. rewrite Hcat.
  eexists. split; [reflexivity|].
  set (key := toLowerCase category).
  assert (Hstored : forall k, storedUnder toLowerCase k style = (key =? k)%string).
  { intros k. unfold storedUnder. now rewrite Hcat. }
  unfold setProp. destruct (ownValue tokens key) as [old|] eqn:Hown.
  - assert (Hkey : (key =? "__proto__")%string = false).
    { rewrite Hlook in Hown. destruct (key =? "__proto__")%string; [discriminate|reflexivity]. }
    split; [now rewrite replaceOwn_keys|].
    intros k. rewrite ownValue_replaceOwn, Hown, lastStored_snoc, Hstored.
    destruct (String.eqb_spec key k) as [<-|Hne]; [|apply Hlook].
    rewrite Hkey. reflexivity.
  - destruct (String.eqb_spec key "__proto__") as [Hproto|Hproto].
    + split; [exact Hnd|]. intros k. rewrite Hlook, lastStored_snoc, Hstored.
      destruct (String.eqb_spec k "__proto__") as [->|Hk]; [reflexivity|].
      destruct (String.eqb_spec key k); [congruence | reflexivity].
    + split.
      * rewrite map_app. cbn [map fst]. apply ownValue_None in Hown.
        apply NoDup_app; [exact Hnd | repeat constructor; intros [] |].
        intros s Hs [<-|[]]. contradiction.
      * intros k. rewrite ownValue_app, lastStored_snoc, Hstored, (Hlook k).
        destruct (String.eqb_spec key k) as [<-|Hne].
        -- rewrite Hlook in Hown.
           destruct (String.eqb_spec key "__proto__"); [contradiction|].
           destruct (lastStored toLowerCase key seen); [discriminate | reflexivity].
        -- destruct (k =? "__proto__")%string; [reflexivity|].
           destruct (lastStored toLowerCase k seen); reflexivity.
Qed.

Lemma fold_tokenStep_throws (styles : list Item.t) (msg : string) :
  fold_left (Assembler.tokenStep toLowerCase textAtLeast) styles (Throws msg)
  = Throws msg.
Proof.
  induction styles as [|style rest IH]; [reflexivity | exact IH].
Qed.

Lemma fold_tokenStep (styles seen : list Item.t) (tokens : JsObject Token.t) :
  tokensHold toLowerCase textAtLeast seen tokens ->
  (Forall (fun style => Item.category style <> None) styles ->
   exists tokens',
     fold_left (Assembler.tokenStep toLowerCase textAtLeast) styles (Returns tokens)
     = Returns tokens' /\
     tokensHold toLowerCase textAtLeast (seen ++ styles) tokens') /\
  (Exists (fun style => Item.category style = None) styles ->
   exists msg,
     fold_left (Assembler.tokenStep toLowerCase textAtLeast) styles (Returns tokens)
     = Throws msg).
Proof.
  revert seen tokens. induction styles as [|style rest IH]; intros seen tokens Hinv.
  - split.
    + intros _. exists tokens. rewrite app_nil_r. now split.
    + intros H. inversion H.
  - cbn [fold_left]. destruct (Item.category style) as [category|] eqn:Hcat.
    + destruct (tokenStep_holds seen tokens style category Hinv Hcat)
        as (tokens1 & Hstep & Hinv1).
      rewrite Hstep. destruct (IH (seen ++ [style]) tokens1 Hinv1) as [Hok Hbad].
      rewrite <- app_assoc in Hok. split.
      * intros Hall. apply Hok. now inversion Hall.
      * intros Hex. apply Hbad. inversion Hex as [? ? Hnone|]; [congruence | assumption].
    + split.
      * intros Hall. inversion_clear Hall as [|? ? Hsome _]. congruence.
      * intros _. unfold Assembler.tokenStep at 2. cbn [bind]. rewrite Hcat.
        eexists. apply fold_tokenStep_throws.
Qed.

(** X15. [convertDesignStylesToTokens] throws when some style has no
    category.  Otherwise it returns details without a repeated key in which
    every key other than "__proto__" holds the entry (score, issues, and
    "준수" under [passed] exactly from score 80 on) of the last style whose
    lower-cased category is that key, and nothing is stored under
    "__proto__". *)
Theorem X15_tokens_hold_the_last_style :
  forall styles : list Item.t,
    (Exists (fun style => Item.category style = None) styles ->
     exists msg,
       Assembler.convertDesignStylesToTokens toLowerCase textAtLeast styles
       = Throws msg) /\
    (Forall (fun style => Item.category style <> None) styles ->
     exists tokens,
       Assembler.convertDesignStylesToTokens toLowerCase textAtLeast styles
       = Returns tokens /\
       NoDup (map fst tokens) /\
       forall k, ownValue tokens k
                 = if (k =? "__proto__")%string then None
                   else option_map (Assembler.tokenOf textAtLeast)
                                   (lastStored toLowerCase k styles)).
Proof.
  intros styles.
  assert (Hinit : tokensHold toLowerCase textAtLeast [] []).
  { split; [constructor|]. intros k. cbn. now destruct (k =? "__proto__")%string. }
  destruct (fold_tokenStep styles [] [] Hinit) as [Hok Hbad].
  split; [exact Hbad|].
  intros Hall. destruct (Hok Hall) as (tokens & Hret & Hnd & Hlook).
  exists tokens. repeat split; assumption.
Qed.

(** Styles with distinct categories that lower-casing leaves alone are
    stored one by one, in order. *)
Lemma convert_distinct (styles : list Item.t) (categories done : list string)
    (tokens : JsObject Token.t) :
  categoriesAre styles categories ->
  (forall c, In c categories -> toLowerCase c = c) ->
  NoDup (done ++ categories) -> ~ In "__proto__" categories ->
  map fst tokens = done ->
  fold_left (Assembler.tokenStep toLowerCase textAtLeast) styles (Returns tokens)
  = Returns (tokens ++ combine categories (map (Assembler.tokenOf textAtLeast) styles)).
Proof.
  unfold categoriesAre. revert categories done tokens.
  induction styles as [|style rest IH]; intros categories done tokens Hcats Hfix Hnd Hproto Hkeys.
  - destruct categories; [|discriminate]. cbn. now rewrite app_nil_r.
  - destruct categories as [|c cats]; [discriminate|].
    cbn [map] in Hcats. injection Hcats as Hc Hrest.
    cbn [fold_left]. unfold Assembler.tokenStep at 2. cbn [bind]. rewrite Hc.
    rewrite (Hfix c (or_introl eq_refl)). unfold setProp.
    assert (Hnew : ownValue tokens c = None).
    { apply ownValue_None. rewrite Hkeys. intros Hin.
      apply NoDup_remove_2 in Hnd. apply Hnd. apply in_or_app. now left. }
    rewrite Hnew.
    destruct (String.eqb_spec c "__proto__") as [->|_];
      [exfalso; apply Hproto; now left|].
    rewrite (IH cats (done ++ [c])); try assumption.
    + cbn [map combine]. now rewrite <- app_assoc.
    + intros c' Hc'. apply Hfix. now right.
    + now rewrite <- app_assoc.
    + intros Hin. apply Hproto. now right.
    + rewrite map_app, Hkeys. reflexivity.
Qed.

(** X16. When the styles have distinct, non-empty categories that
    lower-casing leaves as they are, none of them "__proto__" or an array
    index (a canonical decimal numeral, which an object lists before its
    other keys), the token details follow the styles: [Object.keys] lists
    the categories in the order of the styles, and the entries, in that
    order, are keyed by the category of their style and carry its score and
    issues. *)
Theorem X16_tokens_follow_the_styles :
  forall (styles : list Item.t) (categories : list string),
    categoriesAre styles categories ->
    (forall c, In c categories -> toLowerCase c = c) ->
    NoDup categories -> ~ In "__proto__" categories -> ~ In "" categories ->
    plainKeys categories ->
    exists tokens,
      Assembler.convertDesignStylesToTokens toLowerCase textAtLeast styles
      = Returns tokens /\
      keys tokens = categories /\
      tokensFollow styles (entries tokens).
Proof.
  intros styles categories Hcats Hfix Hnd Hproto Hempty Hplain.
  unfold Assembler.convertDesignStylesToTokens.
  eexists. split;
    [exact (convert_distinct styles categories [] [] Hcats Hfix Hnd Hproto eq_refl)|].
  cbn [app].
  assert (Hboth : map fst (combine categories
                             (map (Assembler.tokenOf textAtLeast) styles))
                  = categories /\
                  tokensFollow styles
                    (combine categories
                       (map (Assembler.tokenOf textAtLeast) styles))).
  { unfold categoriesAre in Hcats. clear Hfix Hnd Hproto Hplain.
    revert categories Hcats Hempty.
    induction styles as [|style rest IH]; intros categories Hcats Hempty;
      destruct categories as [|c cats]; try discriminate.
    - split; [reflexivity | constructor].
    - cbn [map] in Hcats. injection Hcats as Hc Hrest.
      destruct (IH cats Hrest) as [Hkeys Hfollow].
      { intros Hin. apply Hempty. now right. }
      cbn [map combine fst]. split; [now rewrite Hkeys|].
      constructor; [|exact Hfollow]. cbn [fst snd].
      split; [exact Hc|]. split; [|split; reflexivity].
      intros ->. apply Hempty. now left. }
  destruct Hboth as [Hkeys Hfollow].
  rewrite entries_plain by (rewrite Hkeys; assumption).
  split; [|exact Hfollow].
  rewrite keys_plain by (rewrite Hkeys; exact Hplain). exact Hkeys.
Qed.

End Tokens.

Lemma X15_tokens_hold_the_last_style_witness :
  exists tokens,
    Assembler.convertDesignStylesToTokens (fun s => s) (fun _ _ => false)
      (Assembler.analyzeDesignStyles flatScore) = Returns tokens /\
    NoDup (map fst tokens).
Proof.
  destruct (X15_tokens_hold_the_last_style (fun s => s) (fun _ _ => false)
              (Assembler.analyzeDesignStyles flatScore)) as [_ Hok].
  destruct Hok as (tokens & Hret & Hnd & _).
  - unfold Assembler.analyzeDesignStyles. apply Forall_map.
    repeat (constructor; [discriminate|]). constructor.
  - exists tokens. split; [exact Hret | exact Hnd].
Defined.

Lemma X16_tokens_follow_the_styles_witness :
  exists tokens,
    Assembler.convertDesignStylesToTokens (fun s => s) (fun _ _ => false)
      (Assembler.analyzeDesignStyles flatScore) = Returns tokens /\
    keys tokens = Assembler.designCategories /\
    tokensFollow (Assembler.analyzeDesignStyles flatScore) (entries tokens).
Proof.
  apply X16_tokens_follow_the_styles.
  - reflexivity.
  - reflexivity.
  - unfold Assembler.designCategories.
    repeat (constructor;
            [simpl; intros H;
             repeat (destruct H as [H|H]; [discriminate H|]); destruct H |]).
    constructor.
  - simpl. intros H. repeat (destruct H as [H|H]; [discriminate H|]). destruct H.
  - simpl. intros H. repeat (destruct H as [H|H]; [discriminate H|]). destruct H.
  - unfold plainKeys, Assembler.designCategories.
    repeat (constructor; [reflexivity|]). constructor.
Defined.

Lemma tokensFollow_adjust (styles : list Item.t) (tokens : JsObject Token.t)
    (group : list Exc.t) :
  tokensFollow styles tokens ->
  exists styles' tokens',
    ExceptionHandler.adjustSection (Some styles) group ExceptionHandler.KCategory
      = Some styles' /\
    ExceptionHandler.adjustDesignTokensDetail (Some tokens) group = Some tokens' /\
    tokensFollow styles' tokens'.
Proof.
  intros Hfollow. rewrite adjustSection_map.
  eexists. eexists. split; [reflexivity|]. split; [reflexivity|].
  induction Hfollow as [|style [k t] styles tokens (Hcat & Hne & Hscore & Hissues) _ IH];
    cbn [map]; constructor; [|exact IH].
  cbn [fst snd] in *.
  assert (Hkey : ExceptionHandler.itemKeyOf ExceptionHandler.KCategory style = k).
  { rewrite itemKeyOf_resolvedKey. unfold resolvedKey.
    cbn [ExceptionHandler.readKey]. rewrite Hcat. cbn [strOr].
    destruct (String.eqb_spec k ""); [contradiction | reflexivity]. }
  unfold ExceptionHandler.adjustItem. rewrite Hkey.
  destruct (includes (ExceptionHandler.excludedKeysOf group) k); cbn [fst snd].
  - repeat split; [exact Hcat | exact Hne].
  - repeat split; assumption.
Qed.

(** X17. An override keeps the token details in step with the design
    styles: when the details of the input follow its design styles (one
    entry per style, keyed by the category, same score and issues), so do
    those of every returned result. *)
Theorem X17_override_keeps_tokens_in_step :
  forall (r : Result.t) (exceptions : list Exc.t) (checklistId : option string)
         (r' : Result.t) (styles : list Item.t) (k : Krds.t)
         (tokens : JsObject Token.t),
    Result.designStyles r = Some styles ->
    Result.krdsCompliance r = Some k ->
    Krds.designTokensDetail k = Some tokens ->
    tokensFollow styles tokens ->
    ExceptionHandler.applyExceptions r (Some exceptions) checklistId = Returns r' ->
    exists styles' k' tokens',
      Result.designStyles r' = Some styles' /\
      Result.krdsCompliance r' = Some k' /\
      Krds.designTokensDetail k' = Some tokens' /\
      tokensFollow styles' tokens'.
Proof.
  intros r exceptions checklistId r' styles k tokens Hstyles Hk Htokens Hfollow Hret.
  destruct (applyExceptions_routed _ _ _ _ Hret) as [Hsections Hkrds].
  unfold fourSections in Hsections. injection Hsections as Hds _ _ _.
  rewrite Hstyles in Hds. rewrite Hk in Hkrds. cbn [option_map] in Hkrds.
  destruct (tokensFollow_adjust styles tokens
              (requestsFor "디자인 스타일" exceptions) Hfollow)
    as (styles' & tokens' & Hs' & Ht' & Hfollow').
  exists styles'. eexists. exists tokens'.
  split; [now rewrite Hds|]. split; [exact Hkrds|].
  unfold routedKrds. cbn [Krds.designTokensDetail]. rewrite Htokens.
  split; [exact Ht' | exact Hfollow'].
Qed.

Lemma X17_override_keeps_tokens_in_step_witness :
  exists r',
    ExceptionHandler.applyExceptions styledAnalysis (Some [colorsRequest]) None
    = Returns r' /\
    exists styles' k' tokens',
      Result.designStyles r' = Some styles' /\
      Result.krdsCompliance r' = Some k' /\
      Krds.designTokensDetail k' = Some tokens' /\
      tokensFollow styles' tokens'.
Proof.
  eexists. split; [vm_compute; reflexivity|].
  eapply (X17_override_keeps_tokens_in_step styledAnalysis [colorsRequest] None
            _ twoStyles _ twoTokens);
    [reflexivity | reflexivity | reflexivity | | vm_compute; reflexivity].
  unfold twoStyles, twoTokens.
  constructor; [|constructor; [|constructor]];
    (split; [reflexivity|]; split; [discriminate|]; split; reflexivity).
Defined.

(** ** The analysis route *)

Lemma fold_groupStep_message (rest : list Exc.t)
    (start : completion (JsObject (list Exc.t))) (msg : string) :
  fold_left ExceptionHandler.groupStep rest start = Throws msg ->
  start = Throws msg \/ msg = pushFailure.
Proof.
  revert start. induction rest as [|x rest IH]; intros start Hfold; [now left|].
  cbn [fold_left] in Hfold. destruct (IH _ Hfold) as [Hstep|Hmsg]; [|now right].
  destruct start as [g0|msg0]; [|left; exact Hstep].
  right. unfold ExceptionHandler.groupStep in Hstep. cbn [bind] in Hstep.
  destruct (getProp g0 (ExceptionHandler.sectionOf x)); try discriminate.
  now injection Hstep as <-.
Qed.

(** The override returns when the requests can be grouped and fails with
    the error of the [push] otherwise. *)
Lemma applyExceptions_outcome (r : Result.t) (exceptions : list Exc.t)
    (checklistId : option string) :
  (groupable exceptions /\
   exists r', ExceptionHandler.applyExceptions r (Some exceptions) checklistId
              = Returns r') \/
  (~ groupable exceptions /\
   ExceptionHandler.applyExceptions r (Some exceptions) checklistId
   = Throws pushFailure).
Proof.
  destruct exceptions as [|exc excs].
  - left. split; [constructor|]. exists r. reflexivity.
  - destruct (groupable_dec (exc :: excs)) as [Hsafe|Hbad].
    + left. split; [exact Hsafe|].
      destruct (applyExceptions_groupable_returns r exc excs checklistId Hsafe)
        as (r' & _ & Hret & _).
      exists r'. exact Hret.
    + right. split; [exact Hbad|].
      destruct (groupExceptionsBySection_throws _ Hbad) as (msg & Hthrow).
      unfold ExceptionHandler.applyExceptions. rewrite Hthrow. cbn [bind].
      unfold ExceptionHandler.groupExceptionsBySection in Hthrow.
      destruct (fold_groupStep_message _ _ _ Hthrow) as [Habs | ->];
        [discriminate | reflexivity].
Qed.

Lemma groupable_namesInherited (exceptions : list Exc.t) :
  ~ groupable exceptions <-> namesInherited exceptions.
Proof.
  unfold groupable, namesInherited. split.
  - intros Hbad. apply Exists_Forall_neg in Hbad.
    + apply Exists_exists in Hbad. destruct Hbad as (e & Hin & Hne).
      exists e. split; [exact Hin|]. now destruct (isInherited (resolvedSection e)).
    + intros e. destruct (isInherited (resolvedSection e)); [right | left]; congruence.
  - intros (e & Hin & Hinh) Hsafe. rewrite Forall_forall in Hsafe.
    specialize (Hsafe e Hin). congruence.
Qed.

Section Route.

Variable analyzeWebsite : string -> string -> Server.AnalysisOutcome.
Variable now : string.
Variable stackOf : string -> option string.

(** X18. The statuses of the analysis route: 400 exactly when the url is
    absent or empty; 200 exactly when a url is given, the analysis succeeds
    and no request names an inherited property as its section; 500 exactly
    when a url is given and the analysis fails or some request names an
    inherited property. *)
Theorem X18_statuses_of_the_analysis_route :
  forall body : Server.Body.t,
    let response := Server.postAnalyze analyzeWebsite now stackOf body in
    let outcome := analyzeWebsite (requestedUrl body) (requestedViewport body) in
    (Server.Response.status response = 400 <-> requestedUrl body = "") /\
    (Server.Response.status response = 200 <->
       requestedUrl body <> "" /\
       (exists data, outcome = Server.Succeeded data) /\
       ~ namesInherited (requestedExceptions body)) /\
    (Server.Response.status response = 500 <->
       requestedUrl body <> "" /\
       ((exists error, outcome = Server.Failed error) \/
        ((exists data, outcome = Server.Succeeded data) /\
         namesInherited (requestedExceptions body)))).
Proof.
  intros body response outcome. subst response outcome.
  unfold Server.postAnalyze.
  fold (requestedUrl body) (requestedViewport body) (requestedExceptions body).
  rewrite <- groupable_namesInherited.
  destruct (String.eqb_spec (requestedUrl body) "") as [Hurl|Hurl].
  - cbn [Server.Response.status].
    repeat split; try (intros H; discriminate H); try tauto; try congruence.
  - destruct (analyzeWebsite (requestedUrl body) (requestedViewport body))
      as [data|error].
    + destruct (applyExceptions_outcome data (requestedExceptions body)
                  (Server.Body.checklist_id body))
        as [[Hsafe [r' Hret]]|[Hbad Hthrow]].
      * rewrite Hret. cbn [Server.Response.status].
        repeat split; try (intros H; discriminate H); try tauto; try congruence.
        -- now eexists.
        -- intros (_ & [[error H]|[_ H]]); [discriminate H | contradiction].
      * rewrite Hthrow. cbn [Server.Response.status].
        repeat split; try (intros H; discriminate H); try tauto; try congruence.
        right. split; [now eexists | exact Hbad].
    + cbn [Server.Response.status].
      repeat split; try (intros H; discriminate H); try tauto; try congruence.
      * intros (_ & [data H] & _). discriminate H.
      * left. now eexists.
Qed.

(** X19. A request that names an inherited property as its section, sent
    with a url whose analysis succeeds, is answered with status 500 and the
    message of the TypeError of the failed [push]: the error of the override
    reaches the client as a server error. *)
Theorem X19_inherited_section_is_a_server_error :
  forall (body : Server.Body.t) (data : Result.t),
    requestedUrl body <> "" ->
    analyzeWebsite (requestedUrl body) (requestedViewport body)
    = Server.Succeeded data ->
    namesInherited (requestedExceptions body) ->
    Server.postAnalyze analyzeWebsite now stackOf body
    = Server.Response.mk 500
        (Server.ServerError "grouped[section].push is not a function"
                            (stackOf pushFailure)).
Proof.
  intros body data Hurl Hdata Hinh. unfold Server.postAnalyze.
  fold (requestedUrl body) (requestedViewport body) (requestedExceptions body).
  destruct (String.eqb_spec (requestedUrl body) ""); [contradiction|].
  rewrite Hdata.
  destruct (applyExceptions_outcome data (requestedExceptions body)
              (Server.Body.checklist_id body)) as [[Hsafe _]|[_ Hthrow]].
  - apply groupable_namesInherited in Hinh. contradiction.
  - rewrite Hthrow. reflexivity.
Qed.

(** X20. The data of a successful response.  It comes from a successful
    analysis; [categories] is always empty (neither the analysis nor the
    override has such a field, so no finding is sent); the url and the
    timestamp are those of the analysis, else the requested url and the
    current time.  Without requests the score and the audit record are those
    of the analysis; with requests the audit record counts them, keeps the
    score of the analysis as the original one and the score sent as the
    adjusted one. *)
Theorem X20_data_of_a_successful_response :
  forall (body : Server.Body.t) (status : Z) (p : Server.Payload.t),
    Server.postAnalyze analyzeWebsite now stackOf body
    = Server.Response.mk status (Server.Analysed p) ->
    exists data,
      analyzeWebsite (requestedUrl body) (requestedViewport body)
      = Server.Succeeded data /\
      status = 200 /\
      Server.Payload.categories p = [] /\
      Server.Payload.url p = strOr (Result.url data) (requestedUrl body) /\
      Server.Payload.timestamp p = strOr (Result.timestamp data) now /\
      (requestedExceptions body = [] ->
       Server.Payload.overallScore p = Result.overallScore data /\
       Server.Payload.exceptionInfo p = Result.exceptionInfo data) /\
      (requestedExceptions body <> [] ->
       exists info,
         Server.Payload.exceptionInfo p = Some info /\
         auditOf (Server.Body.checklist_id body) (requestedExceptions body)
                 (Result.overallScore data) (Server.Payload.overallScore p) info).
Proof.
  intros body status p. unfold Server.postAnalyze.
  fold (requestedUrl body) (requestedViewport body) (requestedExceptions body).
  destruct (String.eqb_spec (requestedUrl body) ""); [discriminate|].
  destruct (analyzeWebsite (requestedUrl body) (requestedViewport body))
    as [data|error]; [|discriminate].
  destruct (ExceptionHandler.applyExceptions data (Some (requestedExceptions body))
              (Server.Body.checklist_id body)) as [r'|msg] eqn:Hret; [|discriminate].
  intros [= <- <-]. exists data. cbn.
  destruct (applyExceptions_other_fields _ _ _ _ Hret) as (Hu & _ & Ht & _).
  rewrite Hu, Ht. do 5 (split; [reflexivity|]). split.
  - intros Hnil. rewrite Hnil in Hret. injection Hret as <-. now split.
  - intros Hsome. destruct (requestedExceptions body) as [|exc excs] eqn:Hexcs;
      [contradiction|].
    apply applyExceptions_returns_inv in Hret. destruct Hret as (b & _ & ->).
    eexists. split; [reflexivity|]. repeat split.
Qed.

End Route.

Lemma X19_inherited_section_is_a_server_error_witness :
  Server.postAnalyze flatSite "2026-01-01T00:00:00.000Z" noStack constructorBody
  = Server.Response.mk 500
      (Server.ServerError "grouped[section].push is not a function" None).
Proof.
  apply (X19_inherited_section_is_a_server_error flatSite
           "2026-01-01T00:00:00.000Z" noStack constructorBody flatAnalysis).
  - discriminate.
  - reflexivity.
  - exists constructorRequest. split; [left; reflexivity | reflexivity].
Defined.

Lemma X20_data_of_a_successful_response_witness :
  exists p,
    Server.postAnalyze flatSite "2026-01-01T00:00:00.000Z" noStack readmeBody
    = Server.Response.mk 200 (Server.Analysed p) /\
    Server.Payload.categories p = [] /\
    Server.Payload.url p = "https://www.mois.go.kr".
Proof.
  eexists. split; [vm_compute; reflexivity|].
  destruct (X20_data_of_a_successful_response flatSite
              "2026-01-01T00:00:00.000Z" noStack readmeBody 200 _ eq_refl)
    as (data & Hdata & _ & Hcat & Hurl & _).
  split; [exact Hcat|]. injection Hdata as <-. exact Hurl.
Defined.
